(** * MOSFIRE CSU odometer: a shallow embedding of [odometer.py]

    The development follows [src/MOSFIRE_CSU_Odometer/odometer.py]:
    the library calls the script relies on ([re.search], [re.match],
    [datetime.strptime], [float], [os.path.split], [np.array] and the
    in-place array operators) are given executable definitions first,
    then [main] is transcribed statement by statement into a small
    state-and-exception monad, and the properties of the script are
    proved at the end.

    Characters are code points below 256 (Rocq's [ascii]); a log line
    holding a code point beyond Latin-1 is outside the model. *)

From Stdlib Require Import ZArith List Bool Ascii String Lia.
From Stdlib Require Import Floats.
From Stdlib Require Import Permutation Sorted.
Import ListNotations.

Local Open Scope Z_scope.
Local Open Scope bool_scope.

(** ** Characters and the character classes of Python's [re] *)

Module Chars.

Definition code (c : ascii) : Z := Z.of_nat (nat_of_ascii c).

Definition between (lo hi : Z) (c : ascii) : bool :=
  (lo <=? code c) && (code c <=? hi).

Definition is_char (d c : ascii) : bool := Ascii.eqb d c.

(** [\d]: the decimal digits; below 256 these are [0-9] only. *)
Definition is_digit (c : ascii) : bool := between 48 57 c.

(** [\s]: what [str.isspace] accepts below 256. *)
Definition is_space (c : ascii) : bool :=
  between 9 13 c || between 28 32 c || (code c =? 133) || (code c =? 160).

(** What [float()] and [int()] strip from both ends of a text: the white
    space of ASCII and, below 256, the two spaces beyond it; the
    separators 28 to 31, which [\s] accepts, are not among them. *)
Definition is_blank (c : ascii) : bool :=
  between 9 13 c || (code c =? 32) || (code c =? 133) || (code c =? 160).

(** [\w]: alphanumeric code points (letters, digits, the superscript
    digits and vulgar fractions of Latin-1) and the underscore. *)
Definition is_word (c : ascii) : bool :=
  between 48 57 c || between 65 90 c || between 97 122 c || (code c =? 95)
  || (code c =? 170) || (code c =? 178) || (code c =? 179) || (code c =? 181)
  || (code c =? 185) || (code c =? 186) || between 188 190 c
  || between 192 214 c || between 216 246 c || between 248 255 c.

Definition newline : ascii := ascii_of_nat 10.

(** [.]: anything but a newline. *)
Definition is_dot (c : ascii) : bool := negb (Ascii.eqb c newline).

(** ASCII lower-casing, for the case-insensitive month names. *)
Definition lower (c : ascii) : ascii :=
  if between 65 90 c then ascii_of_nat (nat_of_ascii c + 32) else c.

Definition digit_value (c : ascii) : Z := code c - 48.

End Chars.

(** ** A backtracking matcher for the regular expressions of the script

    Python's [re] explores alternatives left to right and repetitions
    longest first, and reports the first match found that way; the
    continuation-passing matcher below does the same for the fragment
    the script and [_strptime] use: literals, classes, greedy [class+],
    concatenation, ordered alternation and capturing groups. *)

Module Regex.

Inductive regex : Type :=
| Chr (c : ascii)
| Cls (p : ascii -> bool)
| Plus (p : ascii -> bool)
| Cat (r1 r2 : regex)
| Alt (r1 r2 : regex)
| Grp (r : regex).

Fixpoint lit (s : string) (k : regex) : regex :=
  match s with
  | EmptyString => k
  | String c s' => Cat (Chr c) (lit s' k)
  end.

(** The text consumed between [s] and its suffix [s']. *)
Definition consumed (s s' : string) : string :=
  substring 0 (String.length s - String.length s') s.

Section Matcher.
Context {R : Type}.

(** After one character of the class has been taken: take more while
    possible, and give characters back one at a time on failure. *)
Fixpoint plus_more (p : ascii -> bool) (s : string)
         (k : string -> option R) : option R :=
  match s with
  | String c s' =>
      if p c then
        match plus_more p s' k with
        | Some r => Some r
        | None => k s
        end
      else k s
  | EmptyString => k s
  end.

Fixpoint run (r : regex) (s : string) (caps : list string)
         (k : string -> list string -> option R) : option R :=
  match r with
  | Chr c =>
      match s with
      | String d s' => if Ascii.eqb c d then k s' caps else None
      | EmptyString => None
      end
  | Cls p =>
      match s with
      | String d s' => if p d then k s' caps else None
      | EmptyString => None
      end
  | Plus p =>
      match s with
      | String d s' =>
          if p d then plus_more p s' (fun rest => k rest caps) else None
      | EmptyString => None
      end
  | Cat r1 r2 => run r1 s caps (fun s1 caps1 => run r2 s1 caps1 k)
  | Alt r1 r2 =>
      match run r1 s caps k with
      | Some x => Some x
      | None => run r2 s caps k
      end
  | Grp r1 =>
      run r1 s caps (fun s1 caps1 => k s1 (caps1 ++ [consumed s s1]))
  end.
End Matcher.

(** [re.match(r, s)]: a match anchored at the start; the result is the
    captured groups and the unconsumed rest. *)
Definition re_match (r : regex) (s : string) : option (list string * string) :=
  run r s [] (fun rest caps => Some (caps, rest)).

(** [re.search(r, s)]: the leftmost position at which [r] matches. *)
Fixpoint re_search (r : regex) (s : string) : option (list string * string) :=
  match re_match r s with
  | Some m => Some m
  | None =>
      match s with
      | String _ s' => re_search r s'
      | EmptyString => None
      end
  end.

End Regex.

(** ** Python strings: the [str] methods the script calls *)

Module PyStr.
Import Chars.

Definition chars (s : string) : list ascii := list_ascii_of_string s.
Definition text (l : list ascii) : string := string_of_list_ascii l.

Fixpoint drop_while (p : ascii -> bool) (l : list ascii) : list ascii :=
  match l with
  | c :: l' => if p c then drop_while p l' else l
  | [] => []
  end.

(** [s.strip(chars)] for a class of characters, on both ends. *)
Definition strip_class (p : ascii -> bool) (l : list ascii) : list ascii :=
  rev (drop_while p (rev (drop_while p l))).

(** [line.strip('\n')] *)
Definition strip_newlines (s : string) : string :=
  text (strip_class (is_char newline) (chars s)).

(** [s.split(sep)] for a one-character separator: never empty. *)
Fixpoint split_on (sep : ascii) (cur : list ascii) (l : list ascii)
  : list string :=
  match l with
  | [] => [text (rev cur)]
  | c :: l' =>
      if Ascii.eqb c sep then text (rev cur) :: split_on sep [] l'
      else split_on sep (c :: cur) l'
  end.

Definition split (sep : ascii) (s : string) : list string :=
  split_on sep [] (chars s).

Fixpoint digits_value (acc : Z) (l : list ascii) : Z :=
  match l with
  | [] => acc
  | c :: l' => digits_value (10 * acc + digit_value c) l'
  end.

(** [int(s)] on the strings the script converts: decimal digits,
    possibly surrounded by blanks ([_strptime] converts a day captured
    as a blank and a digit).  [None] stands for [ValueError]. *)
Definition py_int (s : string) : option Z :=
  match strip_class is_blank (chars s) with
  | [] => None
  | l => if forallb is_digit l then Some (digits_value 0 l) else None
  end.

(** [f"{n:02d}"] for a natural number: at least two digits. *)
Fixpoint decimal_digits (fuel : nat) (n : Z) (acc : list ascii) : list ascii :=
  match fuel with
  | O => acc
  | S fuel' =>
      let acc' := ascii_of_nat (Z.to_nat (48 + n mod 10)) :: acc in
      if n <? 10 then acc' else decimal_digits fuel' (n / 10) acc'
  end.

Definition format_02d (n : Z) : string :=
  let ds := decimal_digits (S (Z.to_nat (Z.log2 n))) n [] in
  text (match ds with [d] => ["0"%char; d] | _ => ds end).

End PyStr.

(** ** Python numbers: [int], [float] and the arithmetic between them *)

Module PyNum.
Import Chars PyStr.

(** A Python number as the script meets it: the list initialisers are
    the integer [0], positions come from [float()]. *)
Inductive pynum : Type :=
| PyInt (n : Z)
| PyFloat (x : float).

(** The double nearest to [m * 10^e], ties to even ([float()] is
    correctly rounded), computed by the reference operations of
    [SpecFloat]. *)
Definition sf_of_decimal (neg : bool) (m e : Z) : spec_float :=
  if m =? 0 then S754_zero neg
  else if 0 <=? e then
    binary_normalize prec emax (if neg then - (m * 10 ^ e) else m * 10 ^ e) 0 neg
  else
    let '(q, eq, loc) := SFdiv_core_binary prec emax m 0 (10 ^ (- e)) 0 in
    binary_round_aux prec emax neg q eq loc.

Definition float_of_decimal (neg : bool) (m e : Z) : float :=
  SF2Prim (sf_of_decimal neg m e).

(** [float(n)] for an integer. *)
Definition float_of_Z (n : Z) : float :=
  float_of_decimal (n <? 0) (Z.abs n) 0.

(** Underscores are accepted between two digits and dropped. *)
Fixpoint drop_underscores (prev : option ascii) (l : list ascii)
  : option (list ascii) :=
  let after_digit :=
    match prev with Some p => is_digit p | None => false end in
  let after_underscore :=
    match prev with Some p => is_char "_" p | None => false end in
  match l with
  | [] => if after_underscore then None else Some []
  | c :: l' =>
      if is_char "_" c then
        if after_digit then drop_underscores (Some c) l' else None
      else if after_underscore && negb (is_digit c) then None
      else option_map (cons c) (drop_underscores (Some c) l')
  end.

Fixpoint take_digits (l : list ascii) : list ascii * list ascii :=
  match l with
  | c :: l' =>
      if is_digit c then let '(ds, r) := take_digits l' in (c :: ds, r)
      else ([], l)
  | [] => ([], [])
  end.

Definition take_sign (l : list ascii) : bool * list ascii :=
  match l with
  | c :: l' =>
      if is_char "-" c then (true, l')
      else if is_char "+" c then (false, l')
      else (false, l)
  | [] => (false, [])
  end.

(** The exponent part: [None] when what follows the mantissa is not a
    well-formed exponent followed by the end of the text. *)
Definition parse_exponent (l : list ascii) : option Z :=
  match l with
  | [] => Some 0
  | c :: l' =>
      if is_char "e" (lower c) then
        let '(neg, l1) := take_sign l' in
        match take_digits l1 with
        | ([], _) => None
        | (ds, []) =>
            Some (if neg then - digits_value 0 ds else digits_value 0 ds)
        | (_, _ :: _) => None
        end
      else None
  end.

Definition parse_decimal (neg : bool) (l : list ascii) : option float :=
  let '(ip, l1) := take_digits l in
  let '(fp, l2) :=
    match l1 with
    | c :: l1' => if is_char "." c then take_digits l1' else ([], l1)
    | [] => ([], [])
    end in
  match ip ++ fp with
  | [] => None
  | ds =>
      match parse_exponent l2 with
      | Some e =>
          Some (float_of_decimal neg (digits_value 0 ds)
                  (e - Z.of_nat (List.length fp)))
      | None => None
      end
  end.

(** [float(s)] for a string; [None] stands for [ValueError]. *)
Definition py_float (s : string) : option float :=
  match drop_underscores None (strip_class is_blank (chars s)) with
  | None => None
  | Some l =>
      let '(neg, body) := take_sign l in
      let word := text (map lower body) in
      if String.eqb word "inf" || String.eqb word "infinity" then
        Some (if neg then neg_infinity else infinity)
      else if String.eqb word "nan" then Some nan
      else parse_decimal neg body
  end.

Definition to_float (a : pynum) : float :=
  match a with
  | PyInt n => float_of_Z n
  | PyFloat x => x
  end.

(** [a + b] and [a - b]: exact on two integers, in double precision as
    soon as one operand is a float. *)
Definition py_add (a b : pynum) : pynum :=
  match a, b with
  | PyInt m, PyInt n => PyInt (m + n)
  | _, _ => PyFloat (to_float a + to_float b)
  end.

Definition py_sub (a b : pynum) : pynum :=
  match a, b with
  | PyInt m, PyInt n => PyInt (m - n)
  | _, _ => PyFloat (to_float a - to_float b)
  end.

Definition py_abs (a : pynum) : pynum :=
  match a with
  | PyInt n => PyInt (Z.abs n)
  | PyFloat x => PyFloat (abs x)
  end.

(** [a != 0] *)
Definition py_nonzero (a : pynum) : bool :=
  match a with
  | PyInt n => negb (n =? 0)
  | PyFloat x => negb (x =? 0)%float
  end.

(** [a > 0] *)
Definition py_positive (a : pynum) : bool :=
  match a with
  | PyInt n => 0 <? n
  | PyFloat x => (0 <? x)%float
  end.

End PyNum.

(** ** [datetime]: naive date-times, [strptime] and [strftime] *)

Module DateTime.
Import Chars Regex PyStr.

Record datetime : Type := mk_datetime {
  year : Z; month : Z; day : Z; hour : Z; minute : Z; second : Z
}.

Definition is_leap (y : Z) : bool :=
  (y mod 4 =? 0) && (negb (y mod 100 =? 0) || (y mod 400 =? 0)).

Definition days_in_month (y m : Z) : Z :=
  if m =? 2 then (if is_leap y then 29 else 28)
  else if (m =? 4) || (m =? 6) || (m =? 9) || (m =? 11) then 30
  else 31.

(** The constructor [datetime(y, m, d, H, M, S)]; [None] stands for the
    [ValueError] it raises on a field out of range. *)
Definition make_datetime (y m d hh mm ss : Z) : option datetime :=
  if (1 <=? y) && (y <=? 9999) && (1 <=? m) && (m <=? 12)
     && (1 <=? d) && (d <=? days_in_month y m)
     && (0 <=? hh) && (hh <=? 23) && (0 <=? mm) && (mm <=? 59)
     && (0 <=? ss) && (ss <=? 59)
  then Some (mk_datetime y m d hh mm ss)
  else None.

Definition fields (a : datetime) : list Z :=
  [year a; month a; day a; hour a; minute a; second a].

Fixpoint lex_leb (a b : list Z) : bool :=
  match a, b with
  | x :: a', y :: b' =>
      if x <? y then true else if y <? x then false else lex_leb a' b'
  | _, _ => true
  end.

(** [a <= b] on naive date-times: field by field, most significant first. *)
Definition dt_leb (a b : datetime) : bool := lex_leb (fields a) (fields b).

(** The regular expressions [_strptime] builds for the directives. *)
Definition digit : regex := Cls is_digit.
Definition among (lo hi : ascii) : regex := Cls (between (code lo) (code hi)).
Definition blanks : regex := Plus is_space.

Fixpoint nocase (s : string) : regex :=
  match s with
  | EmptyString => Cls (fun _ => false)
  | String c EmptyString => Cls (fun d => Ascii.eqb (lower d) c)
  | String c s' => Cat (Cls (fun d => Ascii.eqb (lower d) c)) (nocase s')
  end.

Definition month_names : list string :=
  ["jan"; "feb"; "mar"; "apr"; "may"; "jun";
   "jul"; "aug"; "sep"; "oct"; "nov"; "dec"]%string.

(** [%b]: jan|feb|...|dec, case-insensitive *)
Definition re_b : regex :=
  Grp (fold_right (fun n r => Alt (nocase n) r) (Cls (fun _ => false)) month_names).
(** [%Y]: \d\d\d\d *)
Definition re_Y : regex := Grp (Cat digit (Cat digit (Cat digit digit))).
(** [%m]: 1[0-2]|0[1-9]|[1-9] *)
Definition re_m : regex :=
  Grp (Alt (Cat (Chr "1") (among "0" "2"))
      (Alt (Cat (Chr "0") (among "1" "9")) (among "1" "9"))).
(** [%d]: 3[0-1]|[1-2]\d|0[1-9]|[1-9]| [1-9] *)
Definition re_d : regex :=
  Grp (Alt (Cat (Chr "3") (among "0" "1"))
      (Alt (Cat (among "1" "2") digit)
      (Alt (Cat (Chr "0") (among "1" "9"))
      (Alt (among "1" "9") (Cat (Chr " ") (among "1" "9")))))).
(** [%H]: 2[0-3]|[0-1]\d|\d *)
Definition re_H : regex :=
  Grp (Alt (Cat (Chr "2") (among "0" "3")) (Alt (Cat (among "0" "1") digit) digit)).
(** [%M]: [0-5]\d|\d *)
Definition re_M : regex := Grp (Alt (Cat (among "0" "5") digit) digit).
(** [%S]: 6[0-1]|[0-5]\d|\d *)
Definition re_S : regex :=
  Grp (Alt (Cat (Chr "6") (among "0" "1")) (Alt (Cat (among "0" "5") digit) digit)).

(** [%H:%M:%S] *)
Definition re_HMS : regex := Cat re_H (Cat (Chr ":") (Cat re_M (Cat (Chr ":") re_S))).

(** A blank in a format stands for [\s+]. *)
Definition fmt_b_d_HMS : regex := Cat re_b (Cat blanks (Cat re_d (Cat blanks re_HMS))).
Definition fmt_Ymd : regex := Cat re_Y (Cat re_m re_d).
Definition fmt_Y_m_d_HMS : regex :=
  Cat re_Y (Cat blanks (Cat re_m (Cat blanks (Cat re_d (Cat blanks re_HMS))))).

(** [_strptime] matches the format's expression at the start of the
    text and refuses a match that leaves text unconverted. *)
Definition strptime_groups (fmt : regex) (s : string) : option (list string) :=
  match re_match fmt s with
  | Some (caps, EmptyString) => Some caps
  | _ => None
  end.

Fixpoint index_of (s : string) (l : list string) (i : Z) : option Z :=
  match l with
  | [] => None
  | x :: l' => if String.eqb x s then Some i else index_of s l' (i + 1)
  end.

Definition month_of_name (s : string) : option Z :=
  index_of (text (map lower (chars s))) month_names 1.

(** [dt.strptime(s, '%b %d %H:%M:%S')]: the year defaults to 1900. *)
Definition strptime_b_d_HMS (s : string) : option datetime :=
  match strptime_groups fmt_b_d_HMS s with
  | Some [gb; gd; gH; gM; gS] =>
      match month_of_name gb, py_int gd, py_int gH, py_int gM, py_int gS with
      | Some m, Some d, Some hh, Some mm, Some ss =>
          make_datetime 1900 m d hh mm ss
      | _, _, _, _, _ => None
      end
  | _ => None
  end.

(** [dt.strptime(s, '%Y%m%d')] *)
Definition strptime_Ymd (s : string) : option datetime :=
  match strptime_groups fmt_Ymd s with
  | Some [gY; gm; gd] =>
      match py_int gY, py_int gm, py_int gd with
      | Some y, Some m, Some d => make_datetime y m d 0 0 0
      | _, _, _ => None
      end
  | _ => None
  end.

(** [dt.strptime(s, '%Y %m %d %H:%M:%S')] *)
Definition strptime_Y_m_d_HMS (s : string) : option datetime :=
  match strptime_groups fmt_Y_m_d_HMS s with
  | Some [gY; gm; gd; gH; gM; gS] =>
      match py_int gY, py_int gm, py_int gd, py_int gH, py_int gM, py_int gS with
      | Some y, Some m, Some d, Some hh, Some mm, Some ss =>
          make_datetime y m d hh mm ss
      | _, _, _, _, _, _ => None
      end
  | _ => None
  end.

(** [f"{n}"] for an integer. *)
Definition format_int (n : Z) : string :=
  let ds := text (decimal_digits (S (Z.to_nat (Z.log2 (Z.abs n)))) (Z.abs n) []) in
  if n <? 0 then String "-" ds else ds.

(** [a.strftime(f'{y} %m %d %H:%M:%S')]: the year is already text when
    [strftime] runs, the other fields are written on two digits. *)
Definition strftime_year (y : Z) (a : datetime) : string :=
  (format_int y ++ " " ++ format_02d (month a) ++ " " ++ format_02d (day a)
   ++ " " ++ format_02d (hour a) ++ ":" ++ format_02d (minute a)
   ++ ":" ++ format_02d (second a))%string.

(** [dt.strptime(a.strftime(f'{y} %m %d %H:%M:%S'), '%Y %m %d %H:%M:%S')],
    lines 100 and 101. *)
Definition restamp (y : Z) (a : datetime) : option datetime :=
  strptime_Y_m_d_HMS (strftime_year y a).

End DateTime.

(** ** [os.path] on POSIX paths *)

Module OsPath.
Import Chars PyStr.

Definition is_slash : ascii -> bool := is_char "/".

Fixpoint take_while (p : ascii -> bool) (l : list ascii) : list ascii :=
  match l with
  | c :: l' => if p c then c :: take_while p l' else []
  | [] => []
  end.

(** [os.path.split(p)]: the tail is what follows the last slash; the
    head loses its trailing slashes unless it consists of slashes only. *)
Definition split (p : string) : string * string :=
  let r := rev (chars p) in
  let tail := rev (take_while (fun c => negb (is_slash c)) r) in
  let head := rev (drop_while (fun c => negb (is_slash c)) r) in
  let head' := if forallb is_slash head then head
               else rev (drop_while is_slash (rev head)) in
  (text head', text tail).

(** [os.path.join(a, b)] for a relative [b]. *)
Definition join (a b : string) : string :=
  match rev (chars a) with
  | [] => b
  | c :: _ => if is_slash c then (a ++ b)%string else (a ++ "/" ++ b)%string
  end.

End OsPath.

(** ** Python dictionaries and lists

    A [dict] is an association list in insertion order ([filedates] is
    iterated in that order); assigning to a key already present keeps
    its place. *)

Module Dict.
Section Dict.
Context {K V : Type} (eqb : K -> K -> bool).

Fixpoint get (k : K) (d : list (K * V)) : option V :=
  match d with
  | [] => None
  | (k', v) :: d' => if eqb k k' then Some v else get k d'
  end.

Fixpoint set (k : K) (v : V) (d : list (K * V)) : list (K * V) :=
  match d with
  | [] => [(k, v)]
  | (k', v') :: d' =>
      if eqb k k' then (k, v) :: d' else (k', v') :: set k v d'
  end.
End Dict.
End Dict.

Module PyList.

(** The place of index [i] in a list of length [n]: Python counts a
    negative index from the end; [None] stands for [IndexError]. *)
Definition position (n : nat) (i : Z) : option nat :=
  if (0 <=? i) && (i <? Z.of_nat n) then Some (Z.to_nat i)
  else if (- Z.of_nat n <=? i) && (i <? 0) then Some (Z.to_nat (Z.of_nat n + i))
  else None.

Fixpoint update {A : Type} (f : A -> A) (n : nat) (l : list A) : list A :=
  match l, n with
  | [], _ => []
  | x :: l', O => f x :: l'
  | x :: l', S n' => x :: update f n' l'
  end.

(** [l[i] = f(l[i])], as the augmented assignments of the script do. *)
Definition modify {A : Type} (f : A -> A) (i : Z) (l : list A) : option (list A) :=
  match position (List.length l) i with
  | Some n => Some (update f n l)
  | None => None
  end.

End PyList.

(** ** NumPy: the arrays of the final summation

    [np.array] of a list of Python integers has dtype [int64]; one
    float in the list makes it [float64].  An in-place operator keeps
    the dtype of its left operand and casts the result under the rule
    [same_kind], which refuses a float result for an integer array
    ([UFuncTypeError], a [TypeError]). *)

Module NumPy.
Import PyNum.

Inductive ndarray : Type :=
| Int64 (a : list Z)
| Float64 (a : list float)
| Object (a : list pynum).   (* integers that do not fit in 64 bits *)

Definition wrap64 (z : Z) : Z := (z + 2 ^ 63) mod 2 ^ 64 - 2 ^ 63.

Definition fits64 (a : pynum) : bool :=
  match a with
  | PyInt n => (- 2 ^ 63 <=? n) && (n <? 2 ^ 63)
  | PyFloat _ => false
  end.

Definition is_int (a : pynum) : bool :=
  match a with PyInt _ => true | PyFloat _ => false end.

Definition int_value (a : pynum) : Z :=
  match a with PyInt n => n | PyFloat _ => 0 end.

(** [np.array(l)] for a list of numbers; the empty array is a float array. *)
Definition array (l : list pynum) : ndarray :=
  match l with
  | [] => Float64 []
  | _ =>
      if forallb fits64 l then Int64 (map int_value l)
      else if forallb is_int l then Object l
      else Float64 (map to_float l)
  end.

Definition size (a : ndarray) : nat :=
  match a with
  | Int64 l => List.length l
  | Float64 l => List.length l
  | Object l => List.length l
  end.

(** A right operand of one element is broadcast. *)
Definition broadcast {A : Type} (n : nat) (l : list A) : list A :=
  match l with
  | [x] => repeat x n
  | _ => l
  end.

Definition zip_with {A B C : Type} (f : A -> B -> C) (l : list A) (r : list B)
  : list C :=
  map (fun p => f (fst p) (snd p)) (combine l r).

Definition as_floats (a : ndarray) : list float :=
  match a with
  | Int64 l => map float_of_Z l
  | Float64 l => l
  | Object l => map to_float l
  end.

Definition as_numbers (a : ndarray) : list pynum :=
  match a with
  | Int64 l => map PyInt l
  | Float64 l => map PyFloat l
  | Object l => l
  end.

Inductive error : Type :=
| CastError        (* TypeError: the result cannot be cast to the dtype of the left operand *)
| BroadcastError.  (* ValueError: operands could not be broadcast together *)

Definition shapes_agree (a b : ndarray) : bool :=
  (size b =? size a)%nat || (size b =? 1)%nat.

(** [a += b]: the result type is checked against the dtype of [a]
    first, the shapes are compared when the loop is set up. *)
Definition iadd (a b : ndarray) : ndarray + error :=
  match a, b with
  | Int64 x, Int64 y =>
      if shapes_agree a b then
        inl (Int64 (zip_with (fun u v => wrap64 (u + v)) x (broadcast (size a) y)))
      else inr BroadcastError
  | Int64 _, _ => inr CastError
  | Float64 x, _ =>
      if shapes_agree a b then
        inl (Float64 (zip_with PrimFloat.add x (broadcast (size a) (as_floats b))))
      else inr BroadcastError
  | Object x, _ =>
      if shapes_agree a b then
        inl (Object (zip_with py_add x (broadcast (size a) (as_numbers b))))
      else inr BroadcastError
  end.

(** [a /= n]: true division, whose result is a float array. *)
Definition itruediv (a : ndarray) (n : Z) : ndarray + error :=
  match a with
  | Int64 _ => inr CastError
  | Float64 x => inl (Float64 (map (fun u => PrimFloat.div u (float_of_Z n)) x))
  | Object x => inl (Object (map (fun u => PyFloat (PrimFloat.div (to_float u) (float_of_Z n))) x))
  end.

End NumPy.

(** ** The script *)

Module Odometer.
Import Chars Regex PyStr PyNum DateTime.

(** The exceptions the script can raise; [sys.exit] raises [SystemExit]. *)
Inductive exn : Type :=
| SystemExit
| AssertionError
| FileNotFoundError
| IndexError
| KeyError
| TypeError
| UnboundLocalError
| UnicodeDecodeError
| ValueError.

Inductive outcome (A : Type) : Type :=
| Ok (a : A)
| Raise (e : exn).
Arguments Ok {A} a.
Arguments Raise {A} e.

(** What the script prints, one constructor per [print] statement. *)
Inductive message : Type :=
| Loading (artifact : string)
| Reading (log_file : string)
| Analyzing (lines : nat)
| IteratingYear (month_decimal month : Z)
| FoundOverlap (compfile : string)
| PrintDate (file_start : datetime)
| PrintSpan (compfile : string) (span : datetime * datetime)
| PrintLine (line : string)
| Gap (file_start last_end : datetime)
| FileCovers (file_start file_end : datetime)
| UnableToRead (log_file : string).

(** A log file on disk: text, or bytes that do not decode. *)
Inductive log_content : Type :=
| Lines (contents : list string)
| Undecodable.

(** A JSON object whose values are lists of numbers, as [json.dump]
    writes [result] and [json.load] reads it back. *)
Definition json : Type := list (string * list pynum).

(** The variables of [main] that outlive one iteration of the loop over
    [log_files], the [odometer.json] artifacts on disk, and the output.
    [folderdt], [year] and [last_file] are unbound until assigned. *)
Record state : Type := mk_state {
  filedates : list (string * (datetime * datetime));
  odometers : list (string * list pynum);
  moves : list (string * list pynum);
  folderdt : option datetime;
  year : option Z;
  last_file : option string;
  artifacts : list (string * json);
  stdout : list message
}.

Definition set_filedates v (s : state) : state :=
  mk_state v (odometers s) (moves s) (folderdt s) (year s) (last_file s)
           (artifacts s) (stdout s).
Definition set_odometers v (s : state) : state :=
  mk_state (filedates s) v (moves s) (folderdt s) (year s) (last_file s)
           (artifacts s) (stdout s).
Definition set_moves v (s : state) : state :=
  mk_state (filedates s) (odometers s) v (folderdt s) (year s) (last_file s)
           (artifacts s) (stdout s).
Definition set_folderdt v (s : state) : state :=
  mk_state (filedates s) (odometers s) (moves s) v (year s) (last_file s)
           (artifacts s) (stdout s).
Definition set_year v (s : state) : state :=
  mk_state (filedates s) (odometers s) (moves s) (folderdt s) v (last_file s)
           (artifacts s) (stdout s).
Definition set_last_file v (s : state) : state :=
  mk_state (filedates s) (odometers s) (moves s) (folderdt s) (year s) v
           (artifacts s) (stdout s).
Definition set_artifacts v (s : state) : state :=
  mk_state (filedates s) (odometers s) (moves s) (folderdt s) (year s)
           (last_file s) v (stdout s).
Definition set_stdout v (s : state) : state :=
  mk_state (filedates s) (odometers s) (moves s) (folderdt s) (year s)
           (last_file s) (artifacts s) v.

(** *** The monad: state that survives an exception *)

Definition M (A : Type) : Type := state -> outcome A * state.

Definition ret {A : Type} (a : A) : M A := fun s => (Ok a, s).

Definition bind {A B : Type} (m : M A) (f : A -> M B) : M B :=
  fun s =>
    match m s with
    | (Ok a, s') => f a s'
    | (Raise e, s') => (Raise e, s')
    end.

Definition raise {A : Type} (e : exn) : M A := fun s => (Raise e, s).

Definition read {A : Type} (f : state -> A) : M A := fun s => (Ok (f s), s).

Definition write (f : state -> state) : M unit := fun s => (Ok tt, f s).

Definition print (m : message) : M unit :=
  write (fun s => set_stdout (stdout s ++ [m]) s).

(** The value of an expression that may raise. *)
Definition orelse {A : Type} (e : exn) (o : option A) : M A :=
  match o with
  | Some a => ret a
  | None => raise e
  end.

(** [try: body  except UnicodeDecodeError: handler] *)
Definition try_except_UnicodeDecodeError (body handler : M unit) : M unit :=
  fun s =>
    match body s with
    | (Raise UnicodeDecodeError, s') => handler s'
    | r => r
    end.

Declare Scope py_scope.
Delimit Scope py_scope with py.
Notation "x <- m ;; k" := (bind m (fun x => k))
  (at level 61, m at next level, right associativity) : py_scope.
Notation "m ;; k" := (bind m (fun _ => k))
  (at level 61, right associativity) : py_scope.
Local Open Scope py_scope.

(** *** The state of the scan of one file (lines 38 to 53) *)

Record scan : Type := mk_scan {
  nmoves : list pynum;
  mileage : list pynum;
  month_decimal : Z;
  year_iteration : Z;
  last_pos : list (Z * pynum);
  file_start : option datetime;
  file_end : option datetime;
  last_line : string
}.

(** [bars = [i for i in range(1,93)]] *)
Definition bars : list Z := map Z.of_nat (seq 1 92).

Definition initial_scan : scan :=
  mk_scan (map (fun _ => PyInt 0) bars) (map (fun _ => PyInt 0) bars)
          0 0 (map (fun bar => (bar, PyInt 0)) bars) None None "".

(** [Record=<(\d\d),] *)
Definition record_pattern : regex :=
  lit "Record=<" (Cat (Grp (Cat digit digit)) (Chr ",")).

(** [(\w+)\s+(\d+)\s+(\d+:\d+:\d+).+] *)
Definition stamp_pattern : regex :=
  Cat (Grp (Plus is_word))
 (Cat (Plus is_space)
 (Cat (Grp (Plus is_digit))
 (Cat (Plus is_space)
 (Cat (Grp (Cat (Plus is_digit) (Cat (Chr ":")
           (Cat (Plus is_digit) (Cat (Chr ":") (Plus is_digit))))))
      (Plus is_dot))))).

(** [match.group(n)] for [n >= 1] *)
Definition group (n : nat) (m : list string * string) : option string :=
  nth_error (fst m) (n - 1).

(** Lines 72 to 78: the search for a recorded span holding [file_start]. *)
Fixpoint look_for_overlap (start : datetime)
         (keys : list (string * (datetime * datetime))) : M unit :=
  match keys with
  | [] => ret tt
  | (compfile, fdc) :: keys' =>
      if dt_leb (fst fdc) start && dt_leb start (snd fdc) then
        print (FoundOverlap compfile) ;;
        print (PrintDate start) ;;
        print (PrintSpan compfile fdc) ;;
        raise SystemExit
      else look_for_overlap start keys'
  end.

(** Lines 63 to 80: the year rollover and the span of the file. *)
Definition track_dates (sc : scan) (date : datetime) : M scan :=
  year_iteration' <-
    (if month date <? month_decimal sc then
       print (IteratingYear (month_decimal sc) (month date)) ;;
       ret (year_iteration sc + 1)
     else ret (year_iteration sc)) ;;
  let month_decimal' := month date in
  dates <-
    match file_start sc with
    | None =>
        keys <- read filedates ;;
        look_for_overlap date keys ;;
        ret (Some date, file_end sc)
    | Some _ => ret (file_start sc, Some date)
    end ;;
  ret (mk_scan (nmoves sc) (mileage sc) month_decimal' year_iteration'
               (last_pos sc) (fst dates) (snd dates) (last_line sc)).

(** Lines 82 to 88: the move count and the mileage of the bar. *)
Definition accumulate (sc : scan) (bar : Z) (barpos : float) (line : string)
  : M scan :=
  last <- orelse KeyError (Dict.get Z.eqb bar (last_pos sc)) ;;
  counts <-
    (if py_nonzero last then
       let delta := py_sub last (PyFloat barpos) in
       if py_positive (py_abs delta) then
         n <- orelse IndexError
                (PyList.modify (fun x => py_add x (PyInt 1)) (bar - 1) (nmoves sc)) ;;
         m <- orelse IndexError
                (PyList.modify (fun x => py_add x (py_abs delta)) (bar - 1) (mileage sc)) ;;
         ret (n, m)
       else ret (nmoves sc, mileage sc)
     else ret (nmoves sc, mileage sc)) ;;
  ret (mk_scan (fst counts) (snd counts) (month_decimal sc) (year_iteration sc)
               (Dict.set Z.eqb bar (PyFloat barpos) (last_pos sc))
               (file_start sc) (file_end sc) line).

(** Lines 55 to 90: the body of [for line in contents]. *)
Definition scan_line (sc : scan) (line : string) : M scan :=
  match re_search record_pattern line with
  | None => ret sc
  | Some m =>
      g <- orelse IndexError (group 1 m) ;;
      bar <- orelse ValueError (py_int g) ;;
      match re_match stamp_pattern line with
      | None => print (PrintLine line) ;; ret sc
      | Some md =>
          g1 <- orelse IndexError (group 1 md) ;;
          g2 <- orelse IndexError (group 2 md) ;;
          g3 <- orelse IndexError (group 3 md) ;;
          d <- orelse ValueError (py_int g2) ;;
          let date_string := (g1 ++ " " ++ format_02d d ++ " " ++ g3)%string in
          date <- orelse ValueError (strptime_b_d_HMS date_string) ;;
          sc' <- track_dates sc date ;;
          field <- orelse IndexError
                     (nth_error (split "," (strip_newlines line)) 2) ;;
          barpos <- orelse ValueError (py_float field) ;;
          accumulate sc' bar barpos line
      end
  end.

(** [for line in contents: ...] *)
Fixpoint scan_lines (contents : list string) (sc : scan) : M scan :=
  match contents with
  | [] => ret sc
  | line :: rest => sc' <- scan_line sc line ;; scan_lines rest sc'
  end.

(** *** One iteration of [for i,log_file in enumerate(log_files)] *)

Section Disk.
(** The log files on disk, and the year of [dt.utcnow()]. *)
Variable logs : list (string * log_content).
Variable utcnow_year : Z.

(** [open(log_file, 'r')] and [FO.readlines()] *)
Definition readlines (log_file : string) : M (list string) :=
  match Dict.get String.eqb log_file logs with
  | None => raise FileNotFoundError
  | Some Undecodable => raise UnicodeDecodeError
  | Some (Lines contents) => ret contents
  end.

(** Lines 91 to 117: the span of the file is dated and recorded, the
    counters are stored and saved. *)
Definition conclude (i : Z) (log_file log_path : string) (sc : scan) : M unit :=
  start <- orelse AssertionError (file_start sc) ;;
  end_ <- orelse AssertionError (file_end sc) ;;
  let folder := snd (OsPath.split (fst (OsPath.split log_file))) in
  match strptime_Ymd folder with
  | Some d => write (set_folderdt (Some d))
  | None => write (set_year (Some utcnow_year))
  end ;;
  fd <- read folderdt ;;
  fd <- orelse UnboundLocalError fd ;;
  end' <- orelse ValueError (restamp (DateTime.year fd) end_) ;;
  fd <- read folderdt ;;
  fd <- orelse UnboundLocalError fd ;;
  start' <- orelse ValueError
              (restamp (DateTime.year fd - year_iteration sc) start) ;;
  write (fun s => set_filedates
                    (Dict.set String.eqb log_file (start', end') (filedates s)) s) ;;
  (if 0 <? i then
     lf <- read last_file ;;
     lf <- orelse UnboundLocalError lf ;;
     fds <- read filedates ;;
     span <- orelse KeyError (Dict.get String.eqb lf fds) ;;
     print (Gap start' (snd span))
   else ret tt) ;;
  write (set_last_file (Some log_file)) ;;
  print (FileCovers start' end') ;;
  write (fun s => set_odometers
                    (Dict.set String.eqb log_file (mileage sc) (odometers s)) s) ;;
  write (fun s => set_moves
                    (Dict.set String.eqb log_file (nmoves sc) (moves s)) s) ;;
  let result := [("odometer", mileage sc); ("nmoves", nmoves sc)]%string in
  write (fun s => set_artifacts
                    (Dict.set String.eqb (OsPath.join log_path "odometer.json")
                              result (artifacts s)) s).

(** Lines 47 to 117: the body of the [try] statement. *)
Definition analyse (i : Z) (log_file log_path : string) : M unit :=
  print (Reading log_file) ;;
  contents <- readlines log_file ;;
  print (Analyzing (List.length contents)) ;;
  sc <- scan_lines contents initial_scan ;;
  conclude i log_file log_path sc.

(** Lines 30 to 119. *)
Definition process_file (i : Z) (log_file : string) : M unit :=
  let log_path := fst (OsPath.split log_file) in
  let artifact := OsPath.join log_path "odometer.json" in
  found <- read (fun s => Dict.get String.eqb artifact (artifacts s)) ;;
  match found with
  | Some result =>
      print (Loading artifact) ;;
      o <- orelse KeyError (Dict.get String.eqb "odometer"%string result) ;;
      write (fun s => set_odometers
                        (Dict.set String.eqb log_file o (odometers s)) s) ;;
      n <- orelse KeyError (Dict.get String.eqb "nmoves"%string result) ;;
      write (fun s => set_moves (Dict.set String.eqb log_file n (moves s)) s)
  | None =>
      try_except_UnicodeDecodeError
        (analyse i log_file log_path)
        (print (UnableToRead log_file))
  end.

(** [for i,log_file in enumerate(log_files): ...] *)
Fixpoint process_files (i : Z) (log_files : list string) : M unit :=
  match log_files with
  | [] => ret tt
  | log_file :: rest => process_file i log_file ;; process_files (i + 1) rest
  end.

(** *** The summation (lines 123 to 130) *)

Definition numpy {A : Type} (r : A + NumPy.error) : M A :=
  match r with
  | inl a => ret a
  | inr NumPy.CastError => raise TypeError
  | inr NumPy.BroadcastError => raise ValueError
  end.

(** [for i,log_file in enumerate(log_files): nmoves += ...; mileage += ...] *)
Fixpoint sum_results (log_files : list string)
         (totals : NumPy.ndarray * NumPy.ndarray)
  : M (NumPy.ndarray * NumPy.ndarray) :=
  match log_files with
  | [] => ret totals
  | log_file :: rest =>
      ms <- read moves ;;
      m <- orelse KeyError (Dict.get String.eqb log_file ms) ;;
      n <- numpy (NumPy.iadd (fst totals) (NumPy.array m)) ;;
      os <- read odometers ;;
      o <- orelse KeyError (Dict.get String.eqb log_file os) ;;
      k <- numpy (NumPy.iadd (snd totals) (NumPy.array o)) ;;
      sum_results rest (n, k)
  end.

Definition zeros : NumPy.ndarray := NumPy.array (map (fun _ => PyInt 0) bars).

(** Insertion sort, for [sorted(glob(...))]. *)
Fixpoint insert_sorted (p : string) (l : list string) : list string :=
  match l with
  | [] => [p]
  | q :: l' => if String.leb p q then p :: l else q :: insert_sorted p l'
  end.

Definition sorted (l : list string) : list string :=
  fold_right insert_sorted [] l.

(** Lines 22 and 23: the sorted result of the glob, then the
    operational log.  [globbed] is what
    [glob('/h/instrlogs/mosfire/*/CSU.log*')] returns. *)
Definition log_files (globbed : list string) : list string :=
  sorted globbed ++ ["/sdata1300/syslogs/CSU.log"%string].

(** [main], up to the arrays handed to the plots: the per-bar move
    counts and the per-bar mileage divided by 1000. *)
Definition main (globbed : list string) : M (NumPy.ndarray * NumPy.ndarray) :=
  process_files 0 (log_files globbed) ;;
  totals <- sum_results (log_files globbed) (zeros, zeros) ;;
  mileage' <- numpy (NumPy.itruediv (snd totals) 1000) ;;
  ret (fst totals, mileage').

End Disk.

(** The state [main] starts from, given the artifacts already on disk. *)
Definition initial_state (on_disk : list (string * json)) : state :=
  mk_state [] [] [] None None None on_disk [].

End Odometer.

(** ** The vocabulary of the specification

    The definitions of this module follow the words of the
    specification (records, consecutive pairs, rollovers, spans); the
    theorems below compare them with what [main] computes. *)

Module Spec.
Import Chars Regex PyStr PyNum DateTime Odometer.

(** A LogRecord: the bar, the truncated time stamp and the position
    that lines 55 to 61 and 81 extract from a line, when every
    conversion succeeds. *)
Definition record_of (line : string) : option (Z * datetime * float) :=
  match re_search record_pattern line, re_match stamp_pattern line with
  | Some m, Some md =>
      match group 1 m, group 1 md, group 2 md, group 3 md with
      | Some g, Some g1, Some g2, Some g3 =>
          match py_int g, py_int g2,
                nth_error (split "," (strip_newlines line)) 2 with
          | Some bar, Some d, Some field =>
              match strptime_b_d_HMS (g1 ++ " " ++ format_02d d ++ " " ++ g3)%string,
                    py_float field with
              | Some date, Some barpos => Some (bar, date, barpos)
              | _, _ => None
              end
          | _, _, _ => None
          end
      | _, _, _, _ => None
      end
  | _, _ => None
  end.

(** A line that is not a record: it lacks the bar pattern, or it has
    the pattern and lacks the leading time stamp (it is then printed). *)
Definition skipped (line : string) : bool :=
  match re_search record_pattern line, re_match stamp_pattern line with
  | Some _, Some _ => false
  | _, _ => true
  end.

Definition bar_of (r : Z * datetime * float) : Z := fst (fst r).
Definition date_of (r : Z * datetime * float) : datetime := snd (fst r).
Definition position_of (r : Z * datetime * float) : float := snd r.

(** The accepted records of a file, in file order. *)
Fixpoint records (contents : list string) : list (Z * datetime * float) :=
  match contents with
  | [] => []
  | line :: rest =>
      match record_of line with
      | Some r => r :: records rest
      | None => records rest
      end
  end.

(** The positions a bar takes, in file order. *)
Definition positions (bar : Z) (rs : list (Z * datetime * float)) : list float :=
  map position_of (filter (fun r => bar_of r =? bar) rs).

(** The pairs of consecutive elements of a list. *)
Definition consecutive_pairs {A : Type} (l : list A) : list (A * A) :=
  combine l (tl l).

(** A pair counts when the earlier position is not the sentinel 0 and
    the positions differ by a nonzero amount. *)
Definition counted (p : float * float) : bool :=
  negb (fst p =? 0)%float && (0 <? abs (fst p - snd p))%float.

Definition travel (p : float * float) : pynum := PyFloat (abs (fst p - snd p)).

(** The number of counted pairs. *)
Definition spec_nmoves (l : list float) : Z :=
  Z.of_nat (List.length (filter counted (consecutive_pairs l))).

(** [sum(...)] of the absolute differences over the counted pairs. *)
Definition spec_mileage (l : list float) : pynum :=
  fold_left py_add (map travel (filter counted (consecutive_pairs l))) (PyInt 0).

(** The number of records whose month is less than the month before. *)
Definition rollovers (months : list Z) : Z :=
  Z.of_nat (List.length (filter (fun p => snd p <? fst p) (consecutive_pairs months))).

(** The date with its year replaced. *)
Definition with_year (y : Z) (a : datetime) : datetime :=
  mk_datetime y (month a) (day a) (hour a) (minute a) (second a).

(** A start time falls within a recorded span, ends included. *)
Definition within (start : datetime) (e : string * (datetime * datetime)) : bool :=
  dt_leb (fst (snd e)) start && dt_leb start (snd (snd e)).

Definition overlaps (start : datetime)
           (spans : list (string * (datetime * datetime))) : bool :=
  existsb (within start) spans.

(** The months of the records, in file order. *)
Definition months (rs : list (Z * datetime * float)) : list Z :=
  map (fun r => month (date_of r)) rs.

(** The date of the first record. *)
Definition first_date (rs : list (Z * datetime * float)) : option datetime :=
  hd_error (map date_of rs).

(** The date of the last record, when there are at least two. *)
Definition last_date (rs : list (Z * datetime * float)) : option datetime :=
  match rev (map date_of rs) with
  | d :: _ :: _ => Some d
  | _ => None
  end.

(** A date as [strptime] builds it from a stamp without a year. *)
Definition stamp (a : datetime) : Prop :=
  DateTime.year a = 1900 /\ 1 <= month a <= 12
  /\ 1 <= day a <= days_in_month 1900 (month a)
  /\ 0 <= hour a <= 23 /\ 0 <= minute a <= 59 /\ 0 <= second a <= 59.

(** The last position read for a bar: the sentinel 0 before any. *)
Definition last_reading (l : list float) : pynum :=
  match rev l with
  | [] => PyInt 0
  | x :: _ => PyFloat x
  end.

(** The test of lines 82 to 84 on the last reading and the new one. *)
Definition moved (last : pynum) (barpos : float) : bool :=
  py_nonzero last && py_positive (py_abs (py_sub last (PyFloat barpos))).

(** The artifact a log file is cached under. *)
Definition artifact_of (log_file : string) : string :=
  OsPath.join (fst (OsPath.split log_file)) "odometer.json".

(** The name of the directory holding a log file. *)
Definition folder_of (log_file : string) : string :=
  snd (OsPath.split (fst (OsPath.split log_file))).

(** The state after [out] has been printed. *)
Definition emit (out : list message) (s : state) : state :=
  set_stdout (stdout s ++ out) s.

(** The state has only gained output. *)
Definition extends (st st' : state) : Prop := exists out, st' = emit out st.

(** What an accepted date does to the scan state (lines 63 to 80). *)
Definition dated (sc : scan) (date : datetime) : scan :=
  mk_scan (nmoves sc) (mileage sc) (month date)
          (if month date <? month_decimal sc then year_iteration sc + 1
           else year_iteration sc)
          (last_pos sc)
          (match file_start sc with None => Some date | Some _ => file_start sc end)
          (match file_start sc with None => file_end sc | Some _ => Some date end)
          (last_line sc).

Definition rollover_notice (sc : scan) (date : datetime) : list message :=
  if month date <? month_decimal sc
  then [IteratingYear (month_decimal sc) (month date)] else [].

Definition skip_notice (line : string) : list message :=
  match re_search record_pattern line with
  | Some _ => [PrintLine line]
  | None => []
  end.

(** The scan state agrees with the records read so far. *)
Record tracks (sc : scan) (rs : list (Z * datetime * float)) : Prop := {
  tr_nmoves_len : List.length (nmoves sc) = 92%nat;
  tr_mileage_len : List.length (mileage sc) = 92%nat;
  tr_keys : forall bar, ~ 1 <= bar <= 92 -> Dict.get Z.eqb bar (last_pos sc) = None;
  tr_last : forall bar, 1 <= bar <= 92 ->
      Dict.get Z.eqb bar (last_pos sc) = Some (last_reading (positions bar rs));
  tr_nmoves : forall bar, 1 <= bar <= 92 ->
      nth_error (nmoves sc) (Z.to_nat (bar - 1))
      = Some (PyInt (spec_nmoves (positions bar rs)));
  tr_mileage : forall bar, 1 <= bar <= 92 ->
      nth_error (mileage sc) (Z.to_nat (bar - 1))
      = Some (spec_mileage (positions bar rs));
  tr_month : month_decimal sc = last (months rs) 0;
  tr_years : year_iteration sc = rollovers (months rs);
  tr_start : file_start sc = first_date rs;
  tr_end : file_end sc = last_date rs;
  tr_bars : Forall (fun r => 1 <= bar_of r <= 92) rs;
  tr_stamps : Forall (fun r => stamp (date_of r)) rs
}.

(** The anchor date [folderdt] holds after lines 94 to 98: the date of
    the directory name, or whatever an earlier file left there. *)
Definition anchor (log_file : string) (st : state) : option datetime :=
  match strptime_Ymd (folder_of log_file) with
  | Some d => Some d
  | None => folderdt st
  end.

(** The state in which the scan of a file starts. *)
Definition opened (log_file : string) (contents : list string) (st : state) : state :=
  emit [Reading log_file; Analyzing (List.length contents)] st.

(** The state after the arrays of an artifact have been loaded for a file. *)
Definition loaded (log_file : string) (o n : list pynum) (st : state) : state :=
  set_moves (Dict.set String.eqb log_file n (moves st))
    (set_odometers (Dict.set String.eqb log_file o (odometers st))
       (emit [Loading (artifact_of log_file)] st)).

(** A line the scan gets through: not a record, or a record of a bar
    between 1 and 92. *)
Definition well_formed (line : string) : Prop :=
  skipped line = true \/ exists r, record_of line = Some r /\ 1 <= bar_of r <= 92.

(** The third comma-separated field of the line converts to a float. *)
Definition has_position (line : string) : bool :=
  match nth_error (split "," (strip_newlines line)) 2 with
  | Some field => match py_float field with Some _ => true | None => false end
  | None => false
  end.

Definition is_int64 (a : NumPy.ndarray) : bool :=
  match a with NumPy.Int64 _ => true | _ => false end.

(** The fields of a date that [strftime] writes on two digits. *)
Definition fields_ok (a : datetime) : Prop :=
  1 <= month a <= 12 /\ 1 <= day a <= 31 /\ 0 <= hour a <= 23
  /\ 0 <= minute a <= 59 /\ 0 <= second a <= 59.

(** The shapes of the formatted fields, checked over their ranges. *)
Definition two_digits (s : string) : bool :=
  match s with
  | String a (String b EmptyString) => is_digit a && is_digit b
  | _ => false
  end.

Definition check_02d (v : Z) : bool :=
  two_digits (format_02d v)
  && match py_int (format_02d v) with Some n => n =? v | None => false end.

Definition four_digits (s : string) : bool :=
  match s with
  | String a (String b (String c (String d EmptyString))) =>
      is_digit a && is_digit b && is_digit c && is_digit d
  | _ => false
  end.

Definition check_year (y : Z) : bool :=
  four_digits (format_int y)
  && match py_int (format_int y) with Some n => n =? y | None => false end.

Definition short_digits (s : string) : bool := (String.length s <=? 3)%nat.

(** *** The vocabulary of the further properties *)

(** The artifact of the directory of a log file is on disk and holds the
    two arrays. *)
Definition cached (on_disk : list (string * json)) (log_file : string) : bool :=
  match Dict.get String.eqb (artifact_of log_file) on_disk with
  | Some result =>
      match Dict.get String.eqb "odometer"%string result,
            Dict.get String.eqb "nmoves"%string result with
      | Some _, Some _ => true
      | _, _ => false
      end
  | None => false
  end.

(** The text line 60 builds for [strptime] from a line with the leading
    time stamp. *)
Definition date_string (line : string) : option string :=
  match re_match stamp_pattern line with
  | Some md =>
      match group 1 md, group 2 md, group 3 md with
      | Some g1, Some g2, Some g3 =>
          match py_int g2 with
          | Some d => Some (g1 ++ " " ++ format_02d d ++ " " ++ g3)%string
          | None => None
          end
      | _, _, _ => None
      end
  | None => None
  end.

(** The date lines 58 to 61 read from a line that holds the bar
    pattern, whatever follows on the line. *)
Definition stamp_of (line : string) : option datetime :=
  match re_search record_pattern line, date_string line with
  | Some _, Some s => strptime_b_d_HMS s
  | _, _ => None
  end.

(** [a <= b] on Python strings: code point by code point. *)
Definition string_le (a b : string) : Prop := String.leb a b = true.

(** The two tables hold arrays for the file. *)
Definition has_result (st : state) (f : string) : Prop :=
  exists o n, Dict.get String.eqb f (odometers st) = Some o
              /\ Dict.get String.eqb f (moves st) = Some n.

(** The arrays the tables hold for a file are those of the artifact of
    its directory. *)
Definition agrees (st : state) : Prop :=
  forall f,
    (forall o, Dict.get String.eqb f (odometers st) = Some o ->
       exists result,
         Dict.get String.eqb (artifact_of f) (artifacts st) = Some result
         /\ Dict.get String.eqb "odometer"%string result = Some o)
    /\ (forall n, Dict.get String.eqb f (moves st) = Some n ->
       exists result,
         Dict.get String.eqb (artifact_of f) (artifacts st) = Some result
         /\ Dict.get String.eqb "nmoves"%string result = Some n).

(** A list that [np.array] turns into an array of 92 integers of 64
    bits. *)
Definition ints92 (l : list pynum) : Prop :=
  List.length l = 92%nat /\ forallb NumPy.fits64 l = true.

(** The two tables hold such lists for the file. *)
Definition integer_result (st : state) (f : string) : Prop :=
  exists m o, Dict.get String.eqb f (moves st) = Some m
              /\ Dict.get String.eqb f (odometers st) = Some o
              /\ ints92 m /\ ints92 o.

(** The log [main] appends to the result of the glob (line 23). *)
Definition operational_log : string := "/sdata1300/syslogs/CSU.log".

(** Every character of the text is in the class. *)
Fixpoint every (p : ascii -> bool) (s : string) : bool :=
  match s with
  | EmptyString => true
  | String c s' => p c && every p s'
  end.

(** A greedy repetition of the class stops at the head of the text. *)
Definition stops (p : ascii -> bool) (s : string) : bool :=
  match s with
  | EmptyString => true
  | String c _ => negb (p c)
  end.

(** The time stamp syslog writes at the head of a line,
    [Mmm dd hh:mm:ss]: the month by its English abbreviation, the day
    padded with a blank. *)
Definition month_abbr (m : Z) : string :=
  nth (Z.to_nat (m - 1))
      ["Jan"; "Feb"; "Mar"; "Apr"; "May"; "Jun";
       "Jul"; "Aug"; "Sep"; "Oct"; "Nov"; "Dec"]%string ""%string.

Definition day_field (d : Z) : string :=
  if d <? 10 then String " " (format_int d) else format_int d.

Definition clock (a : datetime) : string :=
  (format_02d (hour a) ++ ":" ++ format_02d (minute a) ++ ":"
   ++ format_02d (second a))%string.

Definition syslog_stamp (a : datetime) : string :=
  (month_abbr (month a) ++ " " ++ day_field (day a) ++ " " ++ clock a)%string.




End Spec.

(** ** Example logs *)

Module Examples.
Import Chars PyNum DateTime Odometer Spec.
Local Open Scope string_scope.

(** A line as [readlines] returns it, with its newline. *)
Definition nl (s : string) : string := s ++ String newline "".

Definition dir_a : string := "/h/instrlogs/mosfire/20150101".
Definition file_a : string := "/h/instrlogs/mosfire/20150101/CSU.log".
Definition file_a1 : string := "/h/instrlogs/mosfire/20150101/CSU.log.1".
Definition file_b : string := "/h/instrlogs/mosfire/20150102/CSU.log".
Definition file_c : string := "/h/instrlogs/mosfire/20150301/CSU.log".
Definition syslog : string := "/sdata1300/syslogs/CSU.log".

(** Bar 5 read at 10.0, 10.0, 7.5 and 7.5, between a reading of bar 6
    and a line that is no record. *)
Definition moving_bar : list string :=
  [ nl "Nov  5 12:00:00 mosfire csu: Record=<05,0,10.0,1>";
    nl "Nov  5 12:00:00 mosfire csu: Record=<06,0,3.25,1>";
    nl "Nov  5 12:00:01 mosfire csu: Record=<05,0,10.0,1>";
    nl "Nov  5 12:00:01 mosfire csu: status nominal";
    nl "Nov  5 12:00:02 mosfire csu: Record=<05,0,7.5,1>";
    nl "Nov  5 12:00:03 mosfire csu: Record=<05,0,7.5,1>" ].

(** Records stamped in months 11, 12, 12, 1 and 2. *)
Definition winter : list string :=
  [ nl "Nov 30 23:00:00 mosfire csu: Record=<01,0,1.0,1>";
    nl "Dec  1 01:00:00 mosfire csu: Record=<01,0,2.0,1>";
    nl "Dec 15 01:00:00 mosfire csu: Record=<01,0,2.0,1>";
    nl "Jan  2 01:00:00 mosfire csu: Record=<01,0,3.0,1>";
    nl "Feb  3 01:00:00 mosfire csu: Record=<01,0,4.0,1>" ].

(** Two readings of bar 1, on January 5 and 6. *)
Definition early_january : list string :=
  [ nl "Jan  5 12:00:00 mosfire csu: Record=<01,0,1.0,1>";
    nl "Jan  6 12:00:00 mosfire csu: Record=<01,0,1.0,1>" ].

(** Two readings of bar 1 in March, with no move. *)
Definition march : list string :=
  [ nl "Mar  1 12:00:00 mosfire csu: Record=<01,0,1.0,1>";
    nl "Mar  2 12:00:00 mosfire csu: Record=<01,0,1.0,1>" ].

(** One accepted record. *)
Definition lone_record : list string :=
  [ nl "Jan  5 12:00:00 mosfire csu: starting";
    nl "Jan  5 12:00:01 mosfire csu: Record=<01,0,1.0,1>" ].

(** A record whose third field is no number. *)
Definition bad_position : list string :=
  [ nl "Jan  5 12:00:00 mosfire csu: Record=<01,0,1.0,1>";
    nl "Jan  5 12:00:01 mosfire csu: Record=<01,0,n/a,1>";
    nl "Jan  5 12:00:02 mosfire csu: Record=<01,0,2.0,1>" ].

(** A bar pattern out of range on a line without a time stamp, and one
    on a stamped line. *)
Definition unstamped_bar_00 : string := nl "Record=<00,0,1.0,1>".
Definition stamped_bar_93 : string :=
  nl "Jan  5 12:00:01 mosfire csu: Record=<93,0,1.0,1>".

Definition with_unstamped_bar : list string :=
  [ unstamped_bar_00;
    nl "Jan  5 12:00:00 mosfire csu: Record=<01,0,1.0,1>";
    nl "Jan  6 12:00:00 mosfire csu: Record=<01,0,1.0,1>" ].

Definition with_stamped_bar : list string :=
  [ nl "Jan  5 12:00:00 mosfire csu: Record=<01,0,1.0,1>"; stamped_bar_93 ].

(** The disks of the examples: which log holds which lines. *)
Definition moving_disk : list (string * log_content) :=
  [(file_a, Lines moving_bar); (syslog, Lines march)].

Definition winter_disk : list (string * log_content) :=
  [(file_c, Lines winter)].

(** Two directories whose logs cover the same two days of January 2015. *)
Definition overlapping_disk : list (string * log_content) :=
  [(file_a, Lines early_january); (file_b, Lines early_january);
   (syslog, Lines march)].

(** Only the operational log, whose directory name is no date. *)
Definition syslog_only : list (string * log_content) := [(syslog, Lines march)].

(** A dated directory, then the operational log. *)
Definition dated_then_syslog : list (string * log_content) :=
  [(file_a, Lines early_january); (syslog, Lines march)].

Definition lone_disk : list (string * log_content) := [(file_a, Lines lone_record)].

Definition bad_position_disk : list (string * log_content) :=
  [(file_a, Lines bad_position); (syslog, Lines march)].

Definition undecodable_disk : list (string * log_content) :=
  [(file_a, Undecodable); (syslog, Lines march)].

Definition unstamped_disk : list (string * log_content) :=
  [(file_a, Lines with_unstamped_bar)].

Definition stamped_disk : list (string * log_content) :=
  [(file_a, Lines with_stamped_bar)].

(** Two logs in one directory; the second holds the moves of [winter]. *)
Definition shared_directory : list (string * log_content) :=
  [(file_a, Lines moving_bar); (file_a1, Lines winter)].

(** A run that starts with nothing cached. *)
Definition cold : state := initial_state [].

(** The state after the first file of an example has been processed. *)
Definition after (disk : list (string * log_content)) (log_file : string) : state :=
  snd (process_file disk 2026 0 log_file cold).

Definition is_overlap_warning (m : message) : bool :=
  match m with FoundOverlap _ => true | _ => false end.

Definition is_unable_to_read (m : message) : bool :=
  match m with UnableToRead _ => true | _ => false end.

(** Two directories dated in 1900, the year [strptime] gives a stamp
    that carries none. *)
Definition file_1900a : string := "/h/instrlogs/mosfire/19000101/CSU.log".
Definition file_1900b : string := "/h/instrlogs/mosfire/19000102/CSU.log".

Definition year_1900_disk : list (string * log_content) :=
  [(file_1900a, Lines early_january); (file_1900b, Lines early_january)].

(** A log that runs into February 29. *)
Definition file_d : string := "/h/instrlogs/mosfire/20160301/CSU.log".

Definition leap_day_line : string :=
  nl "Feb 29 00:00:01 mosfire csu: Record=<01,0,2.0,1>".

Definition leap_day : list string :=
  [ nl "Feb 28 23:59:59 mosfire csu: Record=<01,0,1.0,1>";
    leap_day_line;
    nl "Mar  1 00:00:01 mosfire csu: Record=<01,0,3.0,1>" ].

Definition leap_day_disk : list (string * log_content) :=
  [(file_d, Lines leap_day)].

(** The state after the loop over the log files, in a run that starts
    with nothing cached. *)
Definition after_loop (disk : list (string * log_content)) (globbed : list string)
  : state :=
  snd (process_files disk 2026 0 (log_files globbed) cold).

(** The two logs of one directory, and the operational log. *)
Definition shared_run : list (string * log_content) :=
  [(file_a, Lines moving_bar); (file_a1, Lines winter); (syslog, Lines march)].

Definition reads (f : string) (m : message) : bool :=
  match m with Reading g => String.eqb f g | _ => false end.

Definition loads (a : string) (m : message) : bool :=
  match m with Loading g => String.eqb a g | _ => false end.

End Examples.

(** ** Proofs *)

Import Chars Regex PyStr PyNum DateTime Odometer Spec Examples.
Local Open Scope Z_scope.
Local Open Scope bool_scope.

Ltac enumerate v lo hi :=
  let H := fresh "H" in
  assert (H : In v (map (fun i => lo + Z.of_nat i) (seq 0 (Z.to_nat (hi - lo)))))
    by (apply in_map_iff; exists (Z.to_nat (v - lo)); split; [lia|apply in_seq; lia]);
  vm_compute in H;
  repeat (destruct H as [H|H]; [subst v|]); [..|contradiction].

Ltac field_case K two :=
  match goal with
  | |- context [format_02d ?n] =>
      let s := eval vm_compute in (format_02d n) in
      change (format_02d n) with s in *
  end;
  cbv - [consumed app];
  rewrite ?two; rewrite K; reflexivity.

Ltac quiet :=
  cbn - [restamp Dict.set Dict.get OsPath.join OsPath.split Z.ltb Z.sub
         strptime_Ymd scan_lines initial_scan] in *.

Lemma emit_nil st : emit [] st = st.
Proof. destruct st; unfold emit, set_stdout; simpl. rewrite app_nil_r. reflexivity. Qed.

Lemma emit_emit a b st : emit b (emit a st) = emit (a ++ b) st.
Proof. unfold emit, set_stdout; simpl. rewrite app_assoc. reflexivity. Qed.

Lemma filedates_emit out st : filedates (emit out st) = filedates st.
Proof. reflexivity. Qed.

Lemma look_for_overlap_run start keys st :
  look_for_overlap start keys st =
  match find (within start) keys with
  | Some e => (Raise SystemExit,
               emit [FoundOverlap (fst e); PrintDate start; PrintSpan (fst e) (snd e)] st)
  | None => (Ok tt, st)
  end.
Proof.
  induction keys as [|[c fdc] keys IH]; simpl; [reflexivity|].
  unfold within at 1; simpl.
  destruct (dt_leb (fst fdc) start && dt_leb start (snd fdc)); [|exact IH].
  unfold bind, print, write, raise, emit, set_stdout; simpl.
  rewrite <- !app_assoc. reflexivity.
Qed.

Lemma overlaps_find start keys :
  overlaps start keys = match find (within start) keys with Some _ => true | None => false end.
Proof.
  unfold overlaps. induction keys as [|e keys IH]; simpl; [reflexivity|].
  fold (within start e). destruct (within start e); simpl; auto.
Qed.

Lemma track_dates_run sc date st :
  track_dates sc date st =
  match file_start sc, find (within date) (filedates st) with
  | None, Some e =>
      (Raise SystemExit,
       emit (rollover_notice sc date
             ++ [FoundOverlap (fst e); PrintDate date; PrintSpan (fst e) (snd e)]) st)
  | _, _ => (Ok (dated sc date), emit (rollover_notice sc date) st)
  end.
Proof.
  unfold track_dates, dated, rollover_notice.
  destruct (month date <? month_decimal sc) eqn:Hm;
    destruct (file_start sc) eqn:Hs; unfold bind, print, write, ret, read; simpl;
    rewrite ?look_for_overlap_run; simpl.
  - reflexivity.
  - fold (emit [IteratingYear (month_decimal sc) (month date)] st).
    destruct (find _ _); simpl; rewrite ?emit_emit; reflexivity.
  - rewrite emit_nil. reflexivity.
  - destruct (find _ _); simpl; rewrite ?emit_nil; reflexivity.
Qed.

Lemma accumulate_run sc bar barpos line st :
  accumulate sc bar barpos line st =
  match Dict.get Z.eqb bar (last_pos sc) with
  | None => (Raise KeyError, st)
  | Some last =>
      if moved last barpos then
        match PyList.modify (fun x => py_add x (PyInt 1)) (bar - 1) (nmoves sc),
              PyList.modify (fun x => py_add x (py_abs (py_sub last (PyFloat barpos))))
                            (bar - 1) (mileage sc) with
        | Some n, Some m =>
            (Ok (mk_scan n m (month_decimal sc) (year_iteration sc)
                         (Dict.set Z.eqb bar (PyFloat barpos) (last_pos sc))
                         (file_start sc) (file_end sc) line), st)
        | _, _ => (Raise IndexError, st)
        end
      else
        (Ok (mk_scan (nmoves sc) (mileage sc) (month_decimal sc) (year_iteration sc)
                     (Dict.set Z.eqb bar (PyFloat barpos) (last_pos sc))
                     (file_start sc) (file_end sc) line), st)
  end.
Proof.
  unfold accumulate, moved, bind, orelse, ret, raise.
  destruct (Dict.get Z.eqb bar (last_pos sc)) as [last|]; [|reflexivity].
  destruct (py_nonzero last); simpl; [|reflexivity].
  destruct (py_positive _); simpl; [|reflexivity].
  destruct (PyList.modify _ _ (nmoves sc)); simpl; [|reflexivity].
  destruct (PyList.modify _ _ (mileage sc)); reflexivity.
Qed.

Lemma scan_line_record sc line bar date barpos st :
  record_of line = Some (bar, date, barpos) ->
  scan_line sc line st = bind (track_dates sc date) (fun sc' => accumulate sc' bar barpos line) st.
Proof.
  unfold record_of, scan_line. intros H.
  unfold bind, orelse, ret, raise.
  destruct (re_search record_pattern line) as [m|]; [|discriminate].
  destruct (re_match stamp_pattern line) as [md|]; [|discriminate].
  destruct (group 1 m) as [g|]; [|discriminate].
  destruct (group 1 md) as [g1|]; [|discriminate].
  destruct (group 2 md) as [g2|]; [|discriminate].
  destruct (group 3 md) as [g3|]; [|discriminate].
  cbn beta iota in *.
  destruct (py_int g) as [b|]; [|discriminate].
  destruct (py_int g2) as [d|]; [|discriminate].
  cbn beta iota in *.
  destruct (nth_error _ 2) as [field|]; [|discriminate].
  destruct (strptime_b_d_HMS _) as [dt|]; [|discriminate].
  cbn beta iota in *.
  destruct (py_float field) as [p|]; [|discriminate].
  injection H as -> -> ->.
  destruct (track_dates sc date st) as [[sc'|e] st']; reflexivity.
Qed.

(** *** Dictionaries *)
Section DictFacts.
Context {K V : Type} (eqb : K -> K -> bool).
Hypothesis eqb_eq : forall a b, eqb a b = true <-> a = b.

Lemma eqb_same a : eqb a a = true.
Proof. apply eqb_eq. reflexivity. Qed.

Lemma eqb_other a b : a <> b -> eqb a b = false.
Proof. intros H. destruct (eqb a b) eqn:E; [apply eqb_eq in E; contradiction|reflexivity]. Qed.

Lemma get_set_same k (v : V) d : Dict.get eqb k (Dict.set eqb k v d) = Some v.
Proof.
  induction d as [|[k' v'] d IH]; simpl.
  - rewrite eqb_same. reflexivity.
  - destruct (eqb k k') eqn:E; simpl; rewrite ?eqb_same, ?E; auto.
Qed.

Lemma get_set_other k k' (v : V) d :
  k <> k' -> Dict.get eqb k (Dict.set eqb k' v d) = Dict.get eqb k d.
Proof.
  intros Hk. induction d as [|[k2 v2] d IH]; simpl.
  - rewrite (eqb_other _ _ Hk). reflexivity.
  - destruct (eqb k' k2) eqn:E; simpl.
    + apply eqb_eq in E. subst k2. rewrite (eqb_other _ _ Hk). reflexivity.
    + destruct (eqb k k2); auto.
Qed.
End DictFacts.

Lemma Zget_set_same {V} k (v : V) d : Dict.get Z.eqb k (Dict.set Z.eqb k v d) = Some v.
Proof. apply get_set_same, Z.eqb_eq. Qed.
Lemma Zget_set_other {V} k k' (v : V) d :
  k <> k' -> Dict.get Z.eqb k (Dict.set Z.eqb k' v d) = Dict.get Z.eqb k d.
Proof. apply get_set_other, Z.eqb_eq. Qed.
Lemma Sget_set_same {V} k (v : V) d :
  Dict.get String.eqb k (Dict.set String.eqb k v d) = Some v.
Proof. apply get_set_same, String.eqb_eq. Qed.
Lemma Sget_set_other {V} k k' (v : V) d :
  k <> k' -> Dict.get String.eqb k (Dict.set String.eqb k' v d) = Dict.get String.eqb k d.
Proof. apply get_set_other, String.eqb_eq. Qed.

(** *** Lists updated in place *)
Lemma update_length {A} (f : A -> A) n l : List.length (PyList.update f n l) = List.length l.
Proof. revert n; induction l as [|x l IH]; intros [|n]; simpl; auto. Qed.

Lemma update_same {A} (f : A -> A) n l :
  nth_error (PyList.update f n l) n = option_map f (nth_error l n).
Proof. revert n; induction l as [|x l IH]; intros [|n]; simpl; auto. Qed.

Lemma update_other {A} (f : A -> A) n m l :
  n <> m -> nth_error (PyList.update f n l) m = nth_error l m.
Proof.
  revert n m; induction l as [|x l IH]; intros [|n] [|m] H; simpl; auto;
    try contradiction.
Qed.

Lemma position_bar n bar :
  1 <= bar <= Z.of_nat n -> PyList.position n (bar - 1) = Some (Z.to_nat (bar - 1)).
Proof.
  intros H. unfold PyList.position.
  replace ((0 <=? bar - 1) && (bar - 1 <? Z.of_nat n)) with true; [reflexivity|].
  symmetry. apply andb_true_iff. split; [apply Z.leb_le|apply Z.ltb_lt]; lia.
Qed.

Lemma consecutive_pairs_snoc {A} (l : list A) (x y : A) :
  consecutive_pairs ((l ++ [x]) ++ [y]) = consecutive_pairs (l ++ [x]) ++ [(x, y)].
Proof.
  unfold consecutive_pairs. induction l as [|a l IH]; simpl; [reflexivity|].
  destruct l as [|b l]; simpl in *; [reflexivity|]. f_equal. exact IH.
Qed.

Lemma last_reading_snoc l x : last_reading (l ++ [x]) = PyFloat x.
Proof. unfold last_reading. rewrite rev_app_distr. reflexivity. Qed.

Lemma moved_counted x p : moved (PyFloat x) p = counted (x, p).
Proof. reflexivity. Qed.

Lemma spec_nmoves_snoc l p :
  spec_nmoves (l ++ [p]) =
  spec_nmoves l + (if moved (last_reading l) p then 1 else 0).
Proof.
  destruct l as [|a l] using rev_ind.
  - reflexivity.
  - rewrite last_reading_snoc, moved_counted. unfold spec_nmoves.
    rewrite consecutive_pairs_snoc, filter_app, length_app. simpl.
    destruct (counted (a, p)); simpl; lia.
Qed.

Lemma spec_mileage_snoc l p :
  spec_mileage (l ++ [p]) =
  if moved (last_reading l) p
  then py_add (spec_mileage l) (py_abs (py_sub (last_reading l) (PyFloat p)))
  else spec_mileage l.
Proof.
  destruct l as [|a l] using rev_ind.
  - reflexivity.
  - rewrite last_reading_snoc, moved_counted. unfold spec_mileage.
    rewrite consecutive_pairs_snoc, filter_app. simpl.
    destruct (counted (a, p)); simpl.
    + rewrite map_app, fold_left_app. reflexivity.
    + rewrite app_nil_r. reflexivity.
Qed.

Lemma positions_snoc_same bar date p rs :
  positions bar (rs ++ [(bar, date, p)]) = positions bar rs ++ [p].
Proof.
  unfold positions. rewrite filter_app, map_app. simpl.
  unfold bar_of; simpl. rewrite Z.eqb_refl. reflexivity.
Qed.

Lemma positions_snoc_other bar b date p rs :
  b <> bar -> positions bar (rs ++ [(b, date, p)]) = positions bar rs.
Proof.
  intros H. unfold positions. rewrite filter_app, map_app. simpl.
  unfold bar_of; simpl. apply Z.eqb_neq in H. rewrite H. simpl. apply app_nil_r.
Qed.

Lemma re_search_match r s m :
  re_search r s = Some m -> exists s', re_match r s' = Some m.
Proof.
  induction s as [|c s IH]; simpl.
  - destruct (re_match r "") eqn:E; [|discriminate]. intros H; injection H as <-. eauto.
  - destruct (re_match r (String c s)) eqn:E.
    + intros H; injection H as <-. eauto.
    + exact IH.
Qed.

Lemma digit_not_space c : is_digit c = true -> is_space c = false.
Proof.
  destruct c as [b0 b1 b2 b3 b4 b5 b6 b7].
  destruct b0, b1, b2, b3, b4, b5, b6, b7; vm_compute; congruence.
Qed.

Lemma digit_not_blank c : is_digit c = true -> is_blank c = false.
Proof.
  destruct c as [b0 b1 b2 b3 b4 b5 b6 b7].
  destruct b0, b1, b2, b3, b4, b5, b6, b7; vm_compute; congruence.
Qed.

Lemma digit_value_range c : is_digit c = true -> 0 <= digit_value c <= 9.
Proof.
  unfold is_digit, between, digit_value. intros H.
  apply andb_true_iff in H. destruct H as [H1 H2].
  apply Z.leb_le in H1, H2. lia.
Qed.

Lemma consumed_two a b s : consumed (String a (String b s)) s = String a (String b "").
Proof.
  unfold consumed. simpl String.length.
  replace (S (S (String.length s)) - String.length s)%nat with 2%nat by lia.
  destruct s; reflexivity.
Qed.

Lemma py_int_two a b :
  is_digit a = true -> is_digit b = true ->
  py_int (String a (String b "")) = Some (10 * digit_value a + digit_value b).
Proof.
  intros Ha Hb. unfold py_int, strip_class. simpl chars.
  simpl drop_while at 2. rewrite (digit_not_blank a Ha).
  simpl rev at 2. simpl drop_while. rewrite (digit_not_blank b Hb).
  simpl. rewrite Ha, Hb. reflexivity.
Qed.

(** A match of [Record=<(\d\d),] captures two digits: the conversion of
    line 57 cannot fail, and the bar lies between 0 and 99. *)
Lemma record_pattern_bar s m :
  re_match record_pattern s = Some m ->
  exists g bar, group 1 m = Some g /\ py_int g = Some bar /\ 0 <= bar <= 99.
Proof.
  unfold re_match, record_pattern, digit. cbn [lit run].
  do 8 (destruct s as [|? s]; [discriminate|];
          match goal with
          | |- context [Ascii.eqb ?a ?b] =>
              destruct (Ascii.eqb a b); [|discriminate]
          end).
  destruct s as [|x s]; [discriminate|].
  destruct (is_digit x) eqn:Hx; [|discriminate].
  destruct s as [|y s]; [discriminate|].
  destruct (is_digit y) eqn:Hy; [|discriminate].
  destruct s as [|z s]; [discriminate|].
  destruct (Ascii.eqb "," z) eqn:Hz; [|discriminate].
  intros H; injection H as <-.
  apply Ascii.eqb_eq in Hz. subst z.
  exists (String x (String y "")), (10 * digit_value x + digit_value y).
  split; [|split].
  - unfold group. simpl. f_equal.
    apply (consumed_two x y (String "," s)).
  - apply py_int_two; assumption.
  - pose proof (digit_value_range x Hx). pose proof (digit_value_range y Hy). lia.
Qed.

Lemma scan_line_skipped sc line st :
  skipped line = true ->
  scan_line sc line st = (Ok sc, emit (skip_notice line) st).
Proof.
  unfold skipped, scan_line, skip_notice.
  destruct (re_search record_pattern line) as [m|] eqn:Hm.
  - destruct (re_match stamp_pattern line); [discriminate|]. intros _.
    destruct (re_search_match _ _ _ Hm) as [s' Hs'].
    destruct (record_pattern_bar _ _ Hs') as (g & bar & Hg & Hb & _).
    unfold bind, orelse. rewrite Hg. simpl. rewrite Hb. reflexivity.
  - intros _. rewrite emit_nil. reflexivity.
Qed.

Lemma skipped_no_record line : skipped line = true -> record_of line = None.
Proof.
  unfold skipped, record_of.
  destruct (re_search record_pattern line); [|reflexivity].
  destruct (re_match stamp_pattern line); [discriminate|reflexivity].
Qed.

(** A line that is neither skipped nor a record stops the scan with an
    exception, and never with the one the script catches. *)
Lemma scan_line_malformed sc line st :
  skipped line = false -> record_of line = None ->
  exists e st', scan_line sc line st = (Raise e, st')
                /\ e <> UnicodeDecodeError /\ extends st st'.
Proof.
  unfold skipped, record_of, scan_line. unfold bind, orelse, ret, raise.
  destruct (re_search record_pattern line) as [m|]; [|discriminate].
  destruct (re_match stamp_pattern line) as [md|]; [|discriminate].
  intros _.
  assert (X : extends st st) by (exists []; symmetry; apply emit_nil).
  destruct (group 1 m) as [g|];
    [|intros _; do 2 eexists; split; [reflexivity|split; [discriminate|exact X]]].
  destruct (py_int g) as [b|];
    [|intros _; do 2 eexists; split; [reflexivity|split; [discriminate|exact X]]].
  destruct (group 1 md) as [g1|];
    [|intros _; do 2 eexists; split; [reflexivity|split; [discriminate|exact X]]].
  destruct (group 2 md) as [g2|];
    [|intros _; do 2 eexists; split; [reflexivity|split; [discriminate|exact X]]].
  destruct (group 3 md) as [g3|];
    [|intros _; do 2 eexists; split; [reflexivity|split; [discriminate|exact X]]].
  cbn beta iota.
  destruct (py_int g2) as [d|];
    [|intros _; do 2 eexists; split; [reflexivity|split; [discriminate|exact X]]].
  cbn beta iota.
  destruct (strptime_b_d_HMS _) as [date|];
    [|intros _; destruct (nth_error (split "," (strip_newlines line)) 2);
      do 2 eexists; (split; [reflexivity|split; [discriminate|exact X]])].
  cbn beta iota. rewrite track_dates_run.
  destruct (file_start sc) as [fs|]; [|destruct (find _ _)];
    destruct (nth_error (split "," (strip_newlines line)) 2) as [field|]; cbn beta iota;
    try (intros _; do 2 eexists; split;
         [reflexivity|split; [discriminate|eexists; reflexivity]]);
    (destruct (py_float field); [discriminate|
      intros _; do 2 eexists; split;
      [reflexivity|split; [discriminate|eexists; reflexivity]]]).
Qed.

Lemma line_cases line :
  skipped line = true \/ (exists r, record_of line = Some r) \/
  (skipped line = false /\ record_of line = None).
Proof.
  destruct (skipped line); [left; reflexivity|right].
  destruct (record_of line); [left; eauto|right; auto].
Qed.

Lemma make_datetime_some y m d hh mm ss a :
  make_datetime y m d hh mm ss = Some a ->
  a = mk_datetime y m d hh mm ss /\ 1 <= y <= 9999 /\ 1 <= m <= 12
  /\ 1 <= d <= days_in_month y m /\ 0 <= hh <= 23 /\ 0 <= mm <= 59 /\ 0 <= ss <= 59.
Proof.
  unfold make_datetime.
  destruct (_ && _) eqn:E; [|discriminate]. intros H; injection H as <-.
  repeat (apply andb_true_iff in E; destruct E as [E ?]).
  repeat match goal with H : (_ <=? _) = true |- _ => apply Z.leb_le in H end.
  repeat split; lia.
Qed.

Lemma strptime_b_d_HMS_stamp s a : strptime_b_d_HMS s = Some a -> stamp a.
Proof.
  unfold strptime_b_d_HMS.
  destruct (strptime_groups fmt_b_d_HMS s) as [[|gb [|gd [|gH [|gM [|gS [|? ?]]]]]]|];
    try discriminate.
  destruct (month_of_name gb); [|discriminate].
  destruct (py_int gd); [|discriminate].
  destruct (py_int gH); [|discriminate].
  destruct (py_int gM); [|discriminate].
  destruct (py_int gS); [|discriminate].
  intros H. apply make_datetime_some in H. destruct H as (-> & H).
  unfold stamp; simpl. intuition lia.
Qed.

Lemma record_of_stamp line bar date pos :
  record_of line = Some (bar, date, pos) -> stamp date.
Proof.
  unfold record_of.
  destruct (re_search record_pattern line) as [m|]; [|discriminate].
  destruct (re_match stamp_pattern line) as [md|]; [|discriminate].
  destruct (group 1 m) as [g|]; [|discriminate].
  destruct (group 1 md) as [g1|]; [|discriminate].
  destruct (group 2 md) as [g2|]; [|discriminate].
  destruct (group 3 md) as [g3|]; [|discriminate].
  destruct (py_int g) as [b|]; [|discriminate].
  destruct (py_int g2) as [d|]; [|discriminate].
  destruct (nth_error _ 2) as [field|]; [|discriminate].
  destruct (strptime_b_d_HMS _) as [dt|] eqn:E; [|discriminate].
  destruct (py_float field) as [p|]; [|discriminate].
  intros H; injection H as _ <- _. eapply strptime_b_d_HMS_stamp; eauto.
Qed.

Lemma rollovers_snoc l m :
  0 <= m -> rollovers (l ++ [m]) = rollovers l + (if m <? last l 0 then 1 else 0).
Proof.
  intros Hm. destruct l as [|a l] using rev_ind.
  - simpl. replace (m <? 0) with false; [reflexivity|]. symmetry. apply Z.ltb_ge. lia.
  - rewrite last_last. unfold rollovers.
    rewrite consecutive_pairs_snoc, filter_app, length_app. simpl.
    destruct (m <? a); simpl; lia.
Qed.

Lemma bars_lookup {V} (v : V) bar :
  Dict.get Z.eqb bar (map (fun b => (b, v)) bars) =
  if (1 <=? bar) && (bar <=? 92) then Some v else None.
Proof.
  assert (G : forall l, Dict.get Z.eqb bar (map (fun b => (b, v)) l)
                        = if existsb (Z.eqb bar) l then Some v else None).
  { induction l as [|x l IH]; simpl; [reflexivity|].
    destruct (bar =? x); simpl; auto. }
  rewrite G. clear G.
  destruct ((1 <=? bar) && (bar <=? 92)) eqn:E.
  - apply andb_true_iff in E. destruct E as [E1 E2].
    apply Z.leb_le in E1, E2.
    replace (existsb (Z.eqb bar) bars) with true; [reflexivity|].
    symmetry. apply existsb_exists. exists bar. split; [|apply Z.eqb_refl].
    unfold bars. apply in_map_iff. exists (Z.to_nat bar). split; [lia|].
    apply in_seq. lia.
  - replace (existsb (Z.eqb bar) bars) with false; [reflexivity|].
    symmetry. apply not_true_is_false. intros H.
    apply existsb_exists in H. destruct H as (x & Hin & Hx).
    apply Z.eqb_eq in Hx. subst x. unfold bars in Hin.
    apply in_map_iff in Hin. destruct Hin as (n & <- & Hn). apply in_seq in Hn.
    apply andb_false_iff in E. destruct E as [E|E];
      [apply Z.leb_gt in E|apply Z.leb_gt in E]; lia.
Qed.

Lemma tracks_initial : tracks initial_scan [].
Proof.
  constructor; try reflexivity; try constructor.
  - intros bar H. unfold initial_scan; cbn [last_pos]. rewrite bars_lookup.
    destruct ((1 <=? bar) && (bar <=? 92)) eqn:E; [|reflexivity].
    apply andb_true_iff in E. destruct E as [E1 E2]. apply Z.leb_le in E1, E2. lia.
  - intros bar H. unfold initial_scan; cbn [last_pos]. rewrite bars_lookup.
    replace ((1 <=? bar) && (bar <=? 92)) with true; [reflexivity|].
    symmetry. apply andb_true_iff. split; apply Z.leb_le; lia.
  - intros bar H. unfold initial_scan; cbn [nmoves]. rewrite nth_error_map.
    destruct (nth_error bars (Z.to_nat (bar - 1))) eqn:E; [reflexivity|].
    apply nth_error_None in E. unfold bars in E. rewrite length_map, length_seq in E. lia.
  - intros bar H. unfold initial_scan; cbn [mileage]. rewrite nth_error_map.
    destruct (nth_error bars (Z.to_nat (bar - 1))) eqn:E; [reflexivity|].
    apply nth_error_None in E. unfold bars in E. rewrite length_map, length_seq in E. lia.
Qed.

Lemma in_range_dec bar : {1 <= bar <= 92} + {~ 1 <= bar <= 92}.
Proof.
  destruct (Z_le_dec 1 bar); [|right; lia].
  destruct (Z_le_dec bar 92); [left; lia|right; lia].
Qed.

Lemma months_snoc rs r : months (rs ++ [r]) = months rs ++ [month (date_of r)].
Proof. unfold months. rewrite map_app. reflexivity. Qed.

Lemma first_date_snoc rs r :
  first_date (rs ++ [r]) =
  match first_date rs with Some a => Some a | None => Some (date_of r) end.
Proof. unfold first_date. destruct rs; reflexivity. Qed.

Lemma last_date_snoc rs r :
  last_date (rs ++ [r]) =
  match first_date rs with Some _ => Some (date_of r) | None => None end.
Proof.
  unfold last_date, first_date. rewrite map_app, rev_app_distr. simpl.
  destruct rs as [|x rs]; simpl; [reflexivity|].
  destruct (rev (map date_of rs) ++ [date_of x]) eqn:E; [|reflexivity].
  apply app_eq_nil in E. destruct E; discriminate.
Qed.

Lemma last_date_none rs : first_date rs = None -> last_date rs = None.
Proof. destruct rs; [reflexivity|discriminate]. Qed.

Lemma to_nat_pred_inj a b :
  1 <= a -> 1 <= b -> a <> b -> Z.to_nat (a - 1) <> Z.to_nat (b - 1).
Proof. lia. Qed.

Lemma tracks_step sc rs bar date pos line st sc' st' :
  tracks sc rs -> stamp date ->
  accumulate (dated sc date) bar pos line st = (Ok sc', st') ->
  tracks sc' (rs ++ [(bar, date, pos)]) /\ st' = st.
Proof.
  intros T Hd. rewrite accumulate_run. cbn [dated last_pos nmoves mileage
    month_decimal year_iteration file_start file_end].
  destruct (in_range_dec bar) as [Hb|Hb];
    [|rewrite (tr_keys _ _ T bar Hb); discriminate].
  rewrite (tr_last _ _ T bar Hb).
  set (l := positions bar rs).
  assert (Hn : PyList.position (List.length (nmoves sc)) (bar - 1)
               = Some (Z.to_nat (bar - 1))).
  { apply position_bar. rewrite (tr_nmoves_len _ _ T). lia. }
  assert (Hm : PyList.position (List.length (mileage sc)) (bar - 1)
               = Some (Z.to_nat (bar - 1))).
  { apply position_bar. rewrite (tr_mileage_len _ _ T). lia. }
  unfold PyList.modify. rewrite Hn, Hm.
  assert (Hmonth : 0 <= month date) by (destruct Hd as (_ & ? & _); lia).
  intros H.
  assert (E : st' = st /\
    sc' = mk_scan
      (if moved (last_reading l) pos
       then PyList.update (fun x => py_add x (PyInt 1)) (Z.to_nat (bar - 1)) (nmoves sc)
       else nmoves sc)
      (if moved (last_reading l) pos
       then PyList.update
              (fun x => py_add x (py_abs (py_sub (last_reading l) (PyFloat pos))))
              (Z.to_nat (bar - 1)) (mileage sc)
       else mileage sc)
      (month date)
      (if month date <? month_decimal sc then year_iteration sc + 1 else year_iteration sc)
      (Dict.set Z.eqb bar (PyFloat pos) (last_pos sc))
      (match file_start sc with None => Some date | Some _ => file_start sc end)
      (match file_start sc with None => file_end sc | Some _ => Some date end)
      line).
  { destruct (moved (last_reading l) pos); injection H as <- <-; auto. }
  clear H. destruct E as [-> ->]. split; [|reflexivity].
  constructor; cbn [nmoves mileage month_decimal year_iteration last_pos
                    file_start file_end].
  - destruct (moved _ _); rewrite ?update_length; apply (tr_nmoves_len _ _ T).
  - destruct (moved _ _); rewrite ?update_length; apply (tr_mileage_len _ _ T).
  - intros b Hb'. rewrite Zget_set_other by (intros ->; contradiction).
    apply (tr_keys _ _ T b Hb').
  - intros b Hb'. destruct (Z.eq_dec b bar) as [->|Hne].
    + rewrite Zget_set_same, positions_snoc_same, last_reading_snoc. reflexivity.
    + rewrite Zget_set_other by assumption.
      rewrite positions_snoc_other by congruence. apply (tr_last _ _ T b Hb').
  - intros b Hb'. destruct (Z.eq_dec b bar) as [->|Hne].
    + rewrite positions_snoc_same. fold l. rewrite spec_nmoves_snoc.
      destruct (moved (last_reading l) pos).
      * rewrite update_same, (tr_nmoves _ _ T bar Hb). reflexivity.
      * rewrite (tr_nmoves _ _ T bar Hb). fold l. do 2 f_equal. lia.
    + rewrite positions_snoc_other by congruence.
      destruct (moved (last_reading l) pos);
        rewrite ?update_other by (apply to_nat_pred_inj; lia);
        apply (tr_nmoves _ _ T b Hb').
  - intros b Hb'. destruct (Z.eq_dec b bar) as [->|Hne].
    + rewrite positions_snoc_same. fold l. rewrite spec_mileage_snoc.
      destruct (moved (last_reading l) pos).
      * rewrite update_same, (tr_mileage _ _ T bar Hb). reflexivity.
      * apply (tr_mileage _ _ T bar Hb).
    + rewrite positions_snoc_other by congruence.
      destruct (moved (last_reading l) pos);
        rewrite ?update_other by (apply to_nat_pred_inj; lia);
        apply (tr_mileage _ _ T b Hb').
  - rewrite months_snoc, last_last. reflexivity.
  - rewrite months_snoc, rollovers_snoc by exact Hmonth.
    rewrite <- (tr_month _ _ T), (tr_years _ _ T). cbn [date_of fst snd].
    destruct (month date <? month_decimal sc); lia.
  - rewrite first_date_snoc, (tr_start _ _ T). destruct (first_date rs); reflexivity.
  - rewrite last_date_snoc, (tr_start _ _ T), (tr_end _ _ T).
    destruct (first_date rs) eqn:E; [reflexivity|]. apply last_date_none, E.
  - apply Forall_app. split; [apply (tr_bars _ _ T)|]. constructor; [exact Hb|constructor].
  - apply Forall_app. split; [apply (tr_stamps _ _ T)|]. constructor; [exact Hd|constructor].
Qed.

Lemma extends_refl st : extends st st.
Proof. exists []. symmetry. apply emit_nil. Qed.

Lemma extends_trans a b c : extends a b -> extends b c -> extends a c.
Proof. intros [x ->] [y ->]. exists (x ++ y). apply emit_emit. Qed.

Lemma scan_line_tracks sc rs line st sc' st' :
  tracks sc rs ->
  scan_line sc line st = (Ok sc', st') ->
  tracks sc' (rs ++ records [line]) /\ extends st st'
  /\ (forall r, record_of line = Some r -> rs = [] ->
                overlaps (date_of r) (filedates st) = false).
Proof.
  intros T H.
  destruct (line_cases line) as [Hs|[[[[bar date] pos] Hr]|[Hs Hr]]].
  - rewrite (scan_line_skipped _ _ _ Hs) in H. injection H as <- <-.
    simpl. rewrite (skipped_no_record _ Hs), app_nil_r.
    split; [exact T|]. split; [eexists; reflexivity|]. intros r Hr.
    discriminate.
  - rewrite (scan_line_record _ _ _ _ _ _ Hr) in H. unfold bind in H.
    rewrite track_dates_run in H.
    pose proof (record_of_stamp _ _ _ _ Hr) as Hd.
    simpl. rewrite Hr.
    destruct (file_start sc) as [fs|] eqn:Hfs.
    + destruct (tracks_step _ _ _ _ _ _ _ _ _ T Hd H) as [T' ->].
      split; [exact T'|]. split; [eexists; reflexivity|].
      intros r _ ->. rewrite (tr_start _ _ T) in Hfs. discriminate.
    + destruct (find (within date) (filedates st)) eqn:Hf; [discriminate|].
      destruct (tracks_step _ _ _ _ _ _ _ _ _ T Hd H) as [T' ->].
      split; [exact T'|]. split; [eexists; reflexivity|].
      intros r Hr' _. injection Hr' as <-. cbn [date_of fst snd].
      rewrite overlaps_find, Hf. reflexivity.
  - destruct (scan_line_malformed sc line st Hs Hr) as (e & st2 & He & _ & _).
    rewrite He in H. discriminate.
Qed.

Lemma records_app a b : records (a ++ b) = records a ++ records b.
Proof.
  induction a as [|x a IH]; simpl; [reflexivity|].
  destruct (record_of x); simpl; rewrite IH; reflexivity.
Qed.

Lemma scan_lines_tracks contents : forall sc rs st sc' st',
  tracks sc rs ->
  scan_lines contents sc st = (Ok sc', st') ->
  tracks sc' (rs ++ records contents) /\ extends st st'.
Proof.
  induction contents as [|line rest IH]; intros sc rs st sc' st' T H.
  - simpl in H. injection H as <- <-. simpl. rewrite app_nil_r.
    split; [exact T|apply extends_refl].
  - simpl in H. unfold bind in H.
    destruct (scan_line sc line st) as [[sc1|e] st1] eqn:E; [|discriminate].
    destruct (scan_line_tracks _ _ _ _ _ _ T E) as (T1 & X1 & _).
    destruct (IH _ _ _ _ _ T1 H) as (T2 & X2).
    split; [|eapply extends_trans; eauto].
    change (line :: rest) with ([line] ++ rest). rewrite records_app, app_assoc.
    exact T2.
Qed.

Lemma forallb_range (P : Z -> bool) (lo hi : Z) :
  forallb P (map (fun i => lo + Z.of_nat i) (seq 0 (Z.to_nat (hi - lo)))) = true ->
  forall v, lo <= v < hi -> P v = true.
Proof.
  intros H v Hv. rewrite forallb_forall in H. apply H.
  apply in_map_iff. exists (Z.to_nat (v - lo)). split; [lia|]. apply in_seq. lia.
Qed.

(** *** The shape of the formatted fields *)

Lemma format_02d_shape v :
  0 <= v <= 99 -> two_digits (format_02d v) = true /\ py_int (format_02d v) = Some v.
Proof.
  intros Hv.
  assert (H : check_02d v = true).
  { apply (forallb_range check_02d 0 100); [vm_compute; reflexivity|lia]. }
  unfold check_02d in H. apply andb_true_iff in H. destruct H as [H1 H2].
  split; [exact H1|]. destruct (py_int (format_02d v)); [|discriminate].
  apply Z.eqb_eq in H2. congruence.
Qed.

Lemma format_int_year y :
  1000 <= y <= 9999 ->
  four_digits (format_int y) = true /\ py_int (format_int y) = Some y.
Proof.
  intros Hy.
  assert (H : check_year y = true).
  { apply (forallb_range check_year 1000 10000); [vm_compute; reflexivity|lia]. }
  unfold check_year in H. apply andb_true_iff in H. destruct H as [H1 H2].
  split; [exact H1|]. destruct (py_int (format_int y)); [|discriminate].
  apply Z.eqb_eq in H2. congruence.
Qed.

Lemma format_int_short y : 0 <= y < 1000 -> short_digits (format_int y) = true.
Proof.
  intros Hy. apply (forallb_range (fun y => short_digits (format_int y)) 0 1000);
    [vm_compute; reflexivity|lia].
Qed.

(** *** The expressions of [_strptime] on the formatted fields *)

Section Fields.
Context {R : Type}.
Variables (rest : string) (caps : list string)
          (k : string -> list string -> option R) (x : R).

Lemma run_re_m v :
  1 <= v <= 12 ->
  k rest (caps ++ [format_02d v]) = Some x ->
  run re_m (format_02d v ++ rest) caps k = Some x.
Proof.
  intros Hv K. unfold re_m, among, digit. enumerate v 1 13; field_case K @consumed_two.
Qed.

Lemma run_re_d v :
  1 <= v <= 31 ->
  k rest (caps ++ [format_02d v]) = Some x ->
  run re_d (format_02d v ++ rest) caps k = Some x.
Proof.
  intros Hv K. unfold re_d, among, digit. enumerate v 1 32; field_case K @consumed_two.
Qed.

Lemma run_re_H v :
  0 <= v <= 23 ->
  k rest (caps ++ [format_02d v]) = Some x ->
  run re_H (format_02d v ++ rest) caps k = Some x.
Proof.
  intros Hv K. unfold re_H, among, digit. enumerate v 0 24; field_case K @consumed_two.
Qed.

Lemma run_re_M v :
  0 <= v <= 59 ->
  k rest (caps ++ [format_02d v]) = Some x ->
  run re_M (format_02d v ++ rest) caps k = Some x.
Proof.
  intros Hv K. unfold re_M, among, digit. enumerate v 0 60; field_case K @consumed_two.
Qed.

Lemma run_re_S v :
  0 <= v <= 59 ->
  k rest (caps ++ [format_02d v]) = Some x ->
  run re_S (format_02d v ++ rest) caps k = Some x.
Proof.
  intros Hv K. unfold re_S, among, digit. enumerate v 0 60; field_case K @consumed_two.
Qed.

End Fields.

Lemma two_digits_first s rest :
  two_digits s = true ->
  exists c tl, (s ++ rest)%string = String c tl /\ is_space c = false.
Proof.
  destruct s as [|a [|b [|? ?]]]; try discriminate. simpl.
  intros H. apply andb_true_iff in H. destruct H as [Ha _].
  exists a, (String b rest). split; [reflexivity|apply digit_not_space, Ha].
Qed.

Section Separators.
Context {R : Type}.
Variables (caps : list string) (k : string -> list string -> option R).

(** One blank followed by a digit. *)
Lemma run_blank s rest :
  two_digits s = true ->
  run blanks (String " " (s ++ rest)) caps k = k (s ++ rest)%string caps.
Proof.
  intros H. destruct (two_digits_first s rest H) as (c & tl & -> & Hc).
  unfold blanks. cbn [run]. change (is_space " ") with true. cbn iota.
  cbn [plus_more]. rewrite Hc. reflexivity.
Qed.

Lemma run_colon rest : run (Chr ":") (String ":" rest) caps k = k rest caps.
Proof. reflexivity. Qed.

Lemma run_re_Y s rest :
  four_digits s = true ->
  run re_Y (s ++ rest) caps k = k rest (caps ++ [s]).
Proof.
  destruct s as [|a [|b [|c [|d [|? ?]]]]]; try discriminate. cbn [four_digits].
  intros H. do 3 (apply andb_true_iff in H; destruct H as [H ?]).
  unfold re_Y, digit. cbn [append run]. rewrite H, H0, H1, H2. f_equal. f_equal. f_equal.
  unfold consumed. cbn [String.length].
  replace (S (S (S (S (String.length rest)))) - String.length rest)%nat with 4%nat by lia.
  destruct rest; reflexivity.
Qed.

Lemma run_re_Y_short s rest :
  short_digits s = true -> run re_Y (s ++ String " " rest) caps k = None.
Proof.
  unfold short_digits, re_Y, digit. intros H. apply Nat.leb_le in H.
  destruct s as [|a [|b [|c [|d s]]]]; cbn [append run];
    try (simpl in H; lia);
    repeat match goal with
           | |- context [is_digit ?c] =>
               lazymatch c with
               | " "%char => change (is_digit c) with false
               | _ => destruct (is_digit c)
               end
           end; reflexivity.
Qed.
End Separators.

Lemma stamp_fields_ok a : stamp a -> fields_ok a.
Proof.
  unfold stamp, fields_ok. intros (_ & Hm & Hd & H).
  assert (days_in_month 1900 (month a) <= 31).
  { unfold days_in_month. destruct (month a =? 2); [vm_compute; discriminate|].
    destruct (_ || _); lia. }
  intuition lia.
Qed.

(** Lines 100 and 101 replace the year when it has four digits, and
    raise [ValueError] on a smaller year. *)
Lemma restamp_spec y a :
  fields_ok a -> y <= 9999 ->
  restamp y a =
  if 1000 <=? y
  then make_datetime y (month a) (day a) (hour a) (minute a) (second a)
  else None.
Proof.
  intros (Hm & Hd & Hh & Hmi & Hs) Hy.
  unfold restamp, strptime_Y_m_d_HMS, strptime_groups, re_match, strftime_year.
  destruct (1000 <=? y) eqn:E.
  - apply Z.leb_le in E.
    destruct (format_int_year y (conj E Hy)) as [Y4 Yi].
    destruct (format_02d_shape (month a)) as [M2 Mi]; [lia|].
    destruct (format_02d_shape (day a)) as [D2 Di]; [lia|].
    destruct (format_02d_shape (hour a)) as [H2 Hi]; [lia|].
    destruct (format_02d_shape (minute a)) as [N2 Ni]; [lia|].
    destruct (format_02d_shape (second a)) as [S2 Si]; [lia|].
    assert (G : run fmt_Y_m_d_HMS
                  (format_int y ++ " " ++ format_02d (month a) ++ " "
                   ++ format_02d (day a) ++ " " ++ format_02d (hour a) ++ ":"
                   ++ format_02d (minute a) ++ ":" ++ format_02d (second a)) []
                  (fun rest caps => Some (caps, rest))
                = Some ([format_int y; format_02d (month a); format_02d (day a);
                         format_02d (hour a); format_02d (minute a);
                         format_02d (second a)], ""%string)).
    { unfold fmt_Y_m_d_HMS, re_HMS. cbn [run].
      rewrite run_re_Y by exact Y4. cbn [append].
      rewrite run_blank by exact M2.
      apply run_re_m; [lia|]. cbn [append].
      rewrite run_blank by exact D2.
      apply run_re_d; [lia|]. cbn [append].
      rewrite run_blank by exact H2.
      apply run_re_H; [lia|]. cbn beta. cbn [append run].
      change (Ascii.eqb ":" ":") with true. cbn iota.
      apply run_re_M; [lia|]. cbn beta. cbn [append run].
      change (Ascii.eqb ":" ":") with true. cbn iota.
      replace (format_02d (second a)) with (format_02d (second a) ++ "")%string at 1
        by (clear; induction (format_02d (second a)); simpl; congruence).
      apply run_re_S; [lia|]. reflexivity. }
    rewrite G. rewrite Yi, Mi, Di, Hi, Ni, Si. reflexivity.
  - apply Z.leb_gt in E.
    assert (G : forall rest (k : string -> list string -> option (list string * string)),
               run fmt_Y_m_d_HMS (format_int y ++ String " " rest) [] k = None).
    { intros rest k. unfold fmt_Y_m_d_HMS. cbn [run].
      destruct (Z_lt_dec y 0) as [Hn|Hn].
      - unfold format_int. replace (y <? 0) with true by (symmetry; apply Z.ltb_lt; lia).
        reflexivity.
      - apply run_re_Y_short, format_int_short. lia. }
    cbn [append]. rewrite G. reflexivity.
Qed.

Lemma restamp_stamp y a :
  stamp a -> y <= 9999 ->
  restamp y a = if 1000 <=? y then Some (with_year y a) else None.
Proof.
  intros Ha Hy. rewrite restamp_spec by (auto using stamp_fields_ok).
  destruct (1000 <=? y) eqn:E; [|reflexivity]. apply Z.leb_le in E.
  destruct Ha as (_ & Hm & Hd & Hh & Hmi & Hs).
  assert (Hdays : days_in_month 1900 (month a) <= days_in_month y (month a)).
  { unfold days_in_month. destruct (month a =? 2).
    - change (is_leap 1900) with false. destruct (is_leap y); lia.
    - lia. }
  unfold make_datetime, with_year.
  replace (_ && _) with true; [reflexivity|].
  symmetry. repeat (apply andb_true_iff; split); apply Z.leb_le; lia.
Qed.

Section Files.
Variable logs : list (string * log_content).
Variable utcnow_year : Z.

Lemma conclude_ok i log_file sc st st' :
  conclude utcnow_year i log_file (fst (OsPath.split log_file)) sc st = (Ok tt, st') ->
  exists start end_ fd start' end',
    file_start sc = Some start /\ file_end sc = Some end_
    /\ anchor log_file st = Some fd
    /\ restamp (DateTime.year fd) end_ = Some end'
    /\ restamp (DateTime.year fd - year_iteration sc) start = Some start'
    /\ filedates st' = Dict.set String.eqb log_file (start', end') (filedates st)
    /\ odometers st' = Dict.set String.eqb log_file (mileage sc) (odometers st)
    /\ moves st' = Dict.set String.eqb log_file (nmoves sc) (moves st)
    /\ artifacts st' = Dict.set String.eqb (artifact_of log_file)
                         [("odometer"%string, mileage sc); ("nmoves"%string, nmoves sc)]
                         (artifacts st)
    /\ folderdt st' = Some fd /\ last_file st' = Some log_file.
Proof.
  unfold conclude, anchor, folder_of, artifact_of.
  unfold bind, orelse, ret, raise, read, write, print.
  destruct (file_start sc) as [start|]; [|discriminate].
  destruct (file_end sc) as [end_|]; [|discriminate].
  cbn beta iota.
  destruct (strptime_Ymd _) as [d|]; quiet.
  - destruct (restamp (DateTime.year d) end_) as [end'|] eqn:Re; [|discriminate]. quiet.
    destruct (restamp (DateTime.year d - year_iteration sc) start) as [start'|] eqn:Rs;
      [|discriminate]. quiet.
    destruct (0 <? i); quiet.
    + destruct (last_file st) as [lf|]; [|discriminate]. quiet.
      destruct (Dict.get String.eqb lf _) as [span|]; [|discriminate]. quiet.
      intros H; injection H as <-. exists start, end_, d, start', end'.
      repeat split; try reflexivity; assumption.
    + intros H; injection H as <-. exists start, end_, d, start', end'.
      repeat split; try reflexivity; assumption.
  - destruct (folderdt st) as [d|] eqn:Hfd; [|discriminate]. quiet.
    destruct (restamp (DateTime.year d) end_) as [end'|] eqn:Re; [|discriminate]. quiet.
    rewrite Hfd. quiet.
    destruct (restamp (DateTime.year d - year_iteration sc) start) as [start'|] eqn:Rs;
      [|discriminate]. quiet.
    destruct (0 <? i); quiet.
    + destruct (last_file st) as [lf|]; [|discriminate]. quiet.
      destruct (Dict.get String.eqb lf _) as [span|]; [|discriminate]. quiet.
      intros H; injection H as <-. exists start, end_, d, start', end'.
      repeat split; try reflexivity; assumption.
    + intros H; injection H as <-. exists start, end_, d, start', end'.
      repeat split; try reflexivity; assumption.
Qed.
End Files.

(** *** Every outcome of a scan *)

Lemma accumulate_state sc bar pos line st :
  snd (accumulate sc bar pos line st) = st.
Proof.
  rewrite accumulate_run.
  destruct (Dict.get Z.eqb bar (last_pos sc)); [|reflexivity].
  destruct (moved _ _); [|reflexivity].
  destruct (PyList.modify _ _ (nmoves sc)); [|reflexivity].
  destruct (PyList.modify _ _ (mileage sc)); reflexivity.
Qed.

Lemma accumulate_exn sc bar pos line st e st' :
  accumulate sc bar pos line st = (Raise e, st') -> e <> UnicodeDecodeError.
Proof.
  rewrite accumulate_run.
  destruct (Dict.get Z.eqb bar (last_pos sc)); [|intros H; injection H as <- _; discriminate].
  destruct (moved _ _); [|discriminate].
  destruct (PyList.modify _ _ (nmoves sc)); [|intros H; injection H as <- _; discriminate].
  destruct (PyList.modify _ _ (mileage sc)); [discriminate|].
  intros H; injection H as <- _; discriminate.
Qed.

Lemma scan_line_any sc line st :
  extends st (snd (scan_line sc line st))
  /\ fst (scan_line sc line st) <> Raise UnicodeDecodeError.
Proof.
  destruct (line_cases line) as [Hs|[[[[bar date] pos] Hr]|[Hs Hr]]].
  - rewrite (scan_line_skipped _ _ _ Hs). simpl. split; [eexists; reflexivity|discriminate].
  - rewrite (scan_line_record _ _ _ _ _ _ Hr). unfold bind.
    rewrite track_dates_run.
    destruct (file_start sc); [|destruct (find _ _)]; cbn beta iota;
      try (split; [eexists; reflexivity|discriminate]);
      match goal with
      | |- context [accumulate ?a ?b ?c ?d ?s] =>
          pose proof (accumulate_state a b c d s) as Hst;
          pose proof (accumulate_exn a b c d s) as Hex;
          destruct (accumulate a b c d s) as [[sc'|e] st'] eqn:E; simpl in Hst; subst st'
      end;
      (split; [eexists; reflexivity|]); try discriminate;
      intros H; injection H as ->; eapply Hex; reflexivity.
  - destruct (scan_line_malformed sc line st Hs Hr) as (e & st' & -> & He & X).
    simpl. split; [exact X|congruence].
Qed.

Lemma scan_lines_any contents : forall sc st,
  extends st (snd (scan_lines contents sc st))
  /\ fst (scan_lines contents sc st) <> Raise UnicodeDecodeError.
Proof.
  induction contents as [|line rest IH]; intros sc st; simpl.
  - split; [apply extends_refl|discriminate].
  - unfold bind. destruct (scan_line_any sc line st) as [X N].
    destruct (scan_line sc line st) as [[sc1|e] st1]; simpl in *.
    + destruct (IH sc1 st1) as [X' N']. split; [eapply extends_trans; eauto|exact N'].
    + split; assumption.
Qed.

(** A malformed line anywhere in the file stops the scan. *)
Lemma scan_lines_malformed contents line : forall sc st,
  In line contents -> skipped line = false -> record_of line = None ->
  exists e, fst (scan_lines contents sc st) = Raise e.
Proof.
  induction contents as [|l rest IH]; intros sc st Hin Hs Hr; [contradiction|].
  simpl. unfold bind.
  destruct (scan_line sc l st) as [[sc1|e] st1] eqn:E; [|eexists; reflexivity].
  destruct Hin as [->|Hin].
  - destruct (scan_line_malformed sc line st Hs Hr) as (e & st' & E' & _).
    rewrite E' in E. discriminate.
  - apply IH; assumption.
Qed.

(** *** Progress: well-formed lines are scanned to the end *)

Lemma accumulate_progress sc rs bar pos line st :
  tracks sc rs -> 1 <= bar <= 92 ->
  exists sc', accumulate sc bar pos line st = (Ok sc', st).
Proof.
  intros T Hb. rewrite accumulate_run, (tr_last _ _ T bar Hb).
  unfold PyList.modify.
  rewrite !position_bar by (rewrite ?(tr_nmoves_len _ _ T), ?(tr_mileage_len _ _ T); lia).
  destruct (moved _ _); eexists; reflexivity.
Qed.

Lemma scan_lines_progress contents : forall sc rs st,
  tracks sc rs ->
  Forall well_formed contents ->
  (rs = [] -> forall r, hd_error (records contents) = Some r ->
              overlaps (date_of r) (filedates st) = false) ->
  exists sc' st', scan_lines contents sc st = (Ok sc', st').
Proof.
  induction contents as [|line rest IH]; intros sc rs st T W O.
  - do 2 eexists. reflexivity.
  - inversion W as [|? ? [Hs|(r & Hr & Hb)] W']; subst.
    + simpl. unfold bind. rewrite (scan_line_skipped _ _ _ Hs).
      apply (IH sc rs _ T W'). intros -> r Hr. apply (O eq_refl r).
      simpl. rewrite (skipped_no_record _ Hs). exact Hr.
    + destruct r as [[bar date] pos]. cbn [bar_of fst] in Hb.
      assert (E : exists sc1 st1, scan_line sc line st = (Ok sc1, st1)).
      { rewrite (scan_line_record _ _ _ _ _ _ Hr). unfold bind.
        rewrite track_dates_run.
        assert (A : forall s, exists sc1, accumulate (dated sc date) bar pos line s = (Ok sc1, s)).
        { intros s. rewrite accumulate_run. cbn [dated last_pos nmoves mileage].
          rewrite (tr_last _ _ T bar Hb). unfold PyList.modify.
          rewrite !position_bar
            by (rewrite ?(tr_nmoves_len _ _ T), ?(tr_mileage_len _ _ T); lia).
          destruct (moved _ _); eexists; reflexivity. }
        destruct (file_start sc) as [fs|] eqn:Hfs.
        - destruct (A (emit (rollover_notice sc date) st)) as [sc1 ->]. eauto.
        - assert (F : find (within date) (filedates st) = None).
          { assert (rs = []) as ->.
            { rewrite (tr_start _ _ T) in Hfs. destruct rs; [reflexivity|discriminate]. }
            specialize (O eq_refl (bar, date, pos)). simpl in O. rewrite Hr in O.
            specialize (O eq_refl). rewrite overlaps_find in O. cbn [date_of fst snd] in O.
            destruct (find _ _); [discriminate|reflexivity]. }
          rewrite F. destruct (A (emit (rollover_notice sc date) st)) as [sc1 ->]. eauto. }
      destruct E as (sc1 & st1 & E).
      destruct (scan_line_tracks _ _ _ _ _ _ T E) as (T1 & X1 & _).
      simpl. unfold bind. rewrite E.
      apply (IH sc1 _ st1 T1 W'). intros Hnil. apply app_eq_nil in Hnil.
      destruct Hnil as [_ Hnil]. simpl in Hnil. rewrite Hr in Hnil. discriminate.
Qed.

Section Files.
Variable logs : list (string * log_content).
Variable utcnow_year : Z.

Lemma conclude_exn i log_file log_path sc st :
  fst (conclude utcnow_year i log_file log_path sc st) <> Raise UnicodeDecodeError.
Proof.
  unfold conclude.
  unfold bind, orelse, ret, raise, read, write, print.
  destruct (file_start sc) as [start|]; [|discriminate].
  destruct (file_end sc) as [end_|]; [|discriminate].
  cbn beta iota.
  destruct (strptime_Ymd _) as [d|]; quiet.
  - destruct (restamp (DateTime.year d) end_) as [end'|]; [|discriminate]. quiet.
    destruct (restamp (DateTime.year d - year_iteration sc) start) as [start'|];
      [|discriminate]. quiet.
    destruct (0 <? i); quiet; [|discriminate].
    destruct (last_file st) as [lf|]; [|discriminate]. quiet.
    destruct (Dict.get String.eqb lf _) as [span|]; discriminate.
  - destruct (folderdt st) as [d|] eqn:Hfd; [|discriminate]. quiet.
    destruct (restamp (DateTime.year d) end_) as [end'|]; [|discriminate]. quiet.
    rewrite Hfd. quiet.
    destruct (restamp (DateTime.year d - year_iteration sc) start) as [start'|];
      [|discriminate]. quiet.
    destruct (0 <? i); quiet; [|discriminate].
    destruct (last_file st) as [lf|]; [|discriminate]. quiet.
    destruct (Dict.get String.eqb lf _) as [span|]; discriminate.
Qed.

(** A file read with a cold cache: the scan, then lines 91 to 117; no
    exception of either is caught. *)
Lemma process_file_read i log_file contents st :
  Dict.get String.eqb (artifact_of log_file) (artifacts st) = None ->
  Dict.get String.eqb log_file logs = Some (Lines contents) ->
  process_file logs utcnow_year i log_file st =
  match scan_lines contents initial_scan (opened log_file contents st) with
  | (Ok sc, st1) => conclude utcnow_year i log_file (fst (OsPath.split log_file)) sc st1
  | (Raise e, st1) => (Raise e, st1)
  end.
Proof.
  intros Hc Hl. unfold process_file, bind, read. fold (artifact_of log_file).
  rewrite Hc. unfold try_except_UnicodeDecodeError, analyse, bind, print, write, readlines.
  rewrite Hl. unfold ret. cbn beta iota.
  change (set_stdout (stdout (set_stdout (stdout st ++ [Reading log_file]) st)
                      ++ [Analyzing (List.length contents)])
            (set_stdout (stdout st ++ [Reading log_file]) st))
    with (emit [Analyzing (List.length contents)] (emit [Reading log_file] st)).
  rewrite emit_emit. cbn [app]. fold (opened log_file contents st).
  destruct (scan_lines_any contents initial_scan (opened log_file contents st)) as [_ N].
  destruct (scan_lines contents initial_scan (opened log_file contents st))
    as [[sc|e] st1]; simpl in N.
  - pose proof (conclude_exn i log_file (fst (OsPath.split log_file)) sc st1) as N'.
    destruct (conclude _ _ _ _ _ _) as [[[]|e] st2]; simpl in N'; [reflexivity|].
    destruct e; try reflexivity. congruence.
  - destruct e; try reflexivity. congruence.
Qed.

Lemma process_file_undecodable i log_file st :
  Dict.get String.eqb (artifact_of log_file) (artifacts st) = None ->
  Dict.get String.eqb log_file logs = Some Undecodable ->
  process_file logs utcnow_year i log_file st =
  (Ok tt, emit [Reading log_file; UnableToRead log_file] st).
Proof.
  intros Hc Hl. unfold process_file, bind, read. fold (artifact_of log_file).
  rewrite Hc. unfold try_except_UnicodeDecodeError, analyse, bind, print, write, readlines.
  rewrite Hl. unfold raise. cbn beta iota.
  unfold emit, set_stdout. simpl. rewrite <- app_assoc. reflexivity.
Qed.

Lemma process_file_missing i log_file st :
  Dict.get String.eqb (artifact_of log_file) (artifacts st) = None ->
  Dict.get String.eqb log_file logs = None ->
  process_file logs utcnow_year i log_file st =
  (Raise FileNotFoundError, emit [Reading log_file] st).
Proof.
  intros Hc Hl. unfold process_file, bind, read. fold (artifact_of log_file).
  rewrite Hc. unfold try_except_UnicodeDecodeError, analyse, bind, print, write, readlines.
  rewrite Hl. reflexivity.
Qed.

Lemma process_file_warm i log_file result o n st :
  Dict.get String.eqb (artifact_of log_file) (artifacts st) = Some result ->
  Dict.get String.eqb "odometer"%string result = Some o ->
  Dict.get String.eqb "nmoves"%string result = Some n ->
  process_file logs utcnow_year i log_file st = (Ok tt, loaded log_file o n st).
Proof.
  intros Hc Ho Hn. unfold process_file, bind, read. fold (artifact_of log_file).
  rewrite Hc. unfold print, write, orelse, ret. cbn beta iota. rewrite Ho, Hn. reflexivity.
Qed.

End Files.

(** What a file read with a cold cache leaves behind when the iteration
    completes. *)
Lemma process_file_fresh logs utcnow_year i log_file contents st st' :
  Dict.get String.eqb (artifact_of log_file) (artifacts st) = None ->
  Dict.get String.eqb log_file logs = Some (Lines contents) ->
  process_file logs utcnow_year i log_file st = (Ok tt, st') ->
  exists sc st1 start end_ fd start' end',
    scan_lines contents initial_scan (opened log_file contents st) = (Ok sc, st1)
    /\ tracks sc (records contents)
    /\ file_start sc = Some start /\ file_end sc = Some end_
    /\ anchor log_file st = Some fd
    /\ restamp (DateTime.year fd) end_ = Some end'
    /\ restamp (DateTime.year fd - year_iteration sc) start = Some start'
    /\ filedates st' = Dict.set String.eqb log_file (start', end') (filedates st)
    /\ odometers st' = Dict.set String.eqb log_file (mileage sc) (odometers st)
    /\ moves st' = Dict.set String.eqb log_file (nmoves sc) (moves st)
    /\ artifacts st' = Dict.set String.eqb (artifact_of log_file)
                         [("odometer"%string, mileage sc); ("nmoves"%string, nmoves sc)]
                         (artifacts st).
Proof.
  intros Hc Hl H. rewrite (process_file_read _ _ _ _ _ _ Hc Hl) in H.
  destruct (scan_lines contents initial_scan (opened log_file contents st))
    as [[sc|e] st1] eqn:E; [|discriminate].
  destruct (scan_lines_tracks _ _ _ _ _ _ tracks_initial E) as [T X].
  simpl in T. destruct X as [out ->].
  destruct (conclude_ok _ _ _ _ _ _ H)
    as (start & end_ & fd & start' & end' & H1 & H2 & H3 & H4 & H5 & H6 & H7 & H8 & H9 & _).
  exists sc, (emit out (opened log_file contents st)), start, end_, fd, start', end'.
  repeat apply conj; try assumption. reflexivity.
Qed.

(** C1. Per-file accumulator: for a log file processed with a cold
    cache, the move count stored for each bar is the number of
    consecutive record pairs of that bar whose earlier position is
    nonzero and whose positions differ, and the mileage stored is the
    sum of the absolute differences over those pairs; positions 10.0,
    10.0, 7.5, 7.5 for bar 5 give nmoves[4] = 1 and mileage[4] = 2.5. *)
Theorem per_file_accumulator logs utcnow_year i log_file contents st st' :
  Dict.get String.eqb (artifact_of log_file) (artifacts st) = None ->
  Dict.get String.eqb log_file logs = Some (Lines contents) ->
  process_file logs utcnow_year i log_file st = (Ok tt, st') ->
  exists nmoves mileage,
    Dict.get String.eqb log_file (moves st') = Some nmoves
    /\ Dict.get String.eqb log_file (odometers st') = Some mileage
    /\ (forall bar, 1 <= bar <= 92 ->
          nth_error nmoves (Z.to_nat (bar - 1))
          = Some (PyInt (spec_nmoves (positions bar (records contents))))
          /\ nth_error mileage (Z.to_nat (bar - 1))
             = Some (spec_mileage (positions bar (records contents))))
    /\ (positions 5 (records contents) = [10; 10; 7.5; 7.5]%float ->
          nth_error nmoves 4 = Some (PyInt 1)
          /\ nth_error mileage 4 = Some (PyFloat 2.5)).
Proof.
  intros Hc Hl H.
  destruct (process_file_fresh _ _ _ _ _ _ _ Hc Hl H)
    as (sc & st1 & start & end_ & fd & start' & end'
        & E & T & Hs & He & Ha & Re & Rs & Hf & Ho & Hm & Hz).
  exists (Odometer.nmoves sc), (Odometer.mileage sc).
  rewrite Hm, Ho, !Sget_set_same.
  split; [reflexivity|]. split; [reflexivity|]. split.
  - intros bar Hb. split; [apply (tr_nmoves _ _ T bar Hb)|apply (tr_mileage _ _ T bar Hb)].
  - intros P.
    pose proof (tr_nmoves _ _ T 5 ltac:(lia)) as N.
    pose proof (tr_mileage _ _ T 5 ltac:(lia)) as M.
    rewrite P in N, M. split; [exact N|exact M].
Qed.

Lemma first_date_in rs d :
  first_date rs = Some d -> exists r, In r rs /\ date_of r = d.
Proof.
  destruct rs as [|r rs]; [discriminate|]. intros H; injection H as <-.
  exists r. split; [left; reflexivity|reflexivity].
Qed.

Lemma last_date_in rs d :
  last_date rs = Some d -> exists r, In r rs /\ date_of r = d.
Proof.
  unfold last_date. destruct (rev (map date_of rs)) as [|x l] eqn:E; [discriminate|].
  destruct l; [discriminate|]. intros H; injection H as <-.
  assert (Hin : In x (rev (map date_of rs))) by (rewrite E; left; reflexivity).
  apply in_rev, in_map_iff in Hin. destruct Hin as (r & <- & Hr). eauto.
Qed.

Lemma strptime_Ymd_year s fd : strptime_Ymd s = Some fd -> 1 <= DateTime.year fd <= 9999.
Proof.
  unfold strptime_Ymd.
  destruct (strptime_groups fmt_Ymd s) as [[|gY [|gm [|gd [|? ?]]]]|]; try discriminate.
  destruct (py_int gY); [|discriminate].
  destruct (py_int gm); [|discriminate].
  destruct (py_int gd); [|discriminate].
  intros H. apply make_datetime_some in H. destruct H as (-> & H & _). exact H.
Qed.

Lemma rollovers_nonneg l : 0 <= rollovers l.
Proof. unfold rollovers. lia. Qed.

Lemma restamp_some y a b :
  stamp a -> y <= 9999 -> restamp y a = Some b -> b = with_year y a.
Proof.
  intros Ha Hy. rewrite (restamp_stamp _ _ Ha Hy).
  destruct (1000 <=? y); [|discriminate]. intros H; injection H as <-. reflexivity.
Qed.

(** C3. Date reconstruction: [year_iteration] counts the records whose
    month is less than the month of the record before; the end of the
    file is dated in the year of the directory name and its start in
    that year minus [year_iteration]; months 11, 12, 12, 1, 2 give
    [year_iteration = 1] and a start dated one year before the anchor. *)
Theorem date_reconstruction logs utcnow_year i log_file contents fd st st' :
  Dict.get String.eqb (artifact_of log_file) (artifacts st) = None ->
  Dict.get String.eqb log_file logs = Some (Lines contents) ->
  strptime_Ymd (folder_of log_file) = Some fd ->
  process_file logs utcnow_year i log_file st = (Ok tt, st') ->
  exists sc st1 first last,
    scan_lines contents initial_scan (opened log_file contents st) = (Ok sc, st1)
    /\ year_iteration sc = rollovers (months (records contents))
    /\ first_date (records contents) = Some first
    /\ last_date (records contents) = Some last
    /\ Dict.get String.eqb log_file (filedates st')
       = Some (with_year (DateTime.year fd - year_iteration sc) first,
               with_year (DateTime.year fd) last)
    /\ (months (records contents) = [11; 12; 12; 1; 2] ->
        year_iteration sc = 1
        /\ Dict.get String.eqb log_file (filedates st')
           = Some (with_year (DateTime.year fd - 1) first,
                   with_year (DateTime.year fd) last)).
Proof.
  intros Hc Hl Hfd H.
  destruct (process_file_fresh _ _ _ _ _ _ _ Hc Hl H)
    as (sc & st1 & start & end_ & fd' & start' & end'
        & E & T & Hs & He & Ha & Re & Rs & Hf & _).
  unfold anchor in Ha. rewrite Hfd in Ha. injection Ha as <-.
  rewrite (tr_start _ _ T) in Hs. rewrite (tr_end _ _ T) in He.
  pose proof (strptime_Ymd_year _ _ Hfd) as Hy.
  pose proof (rollovers_nonneg (months (records contents))) as Hr.
  assert (Sstart : stamp start).
  { destruct (first_date_in _ _ Hs) as (r & Hin & <-).
    pose proof (tr_stamps _ _ T) as F. rewrite Forall_forall in F. exact (F r Hin). }
  assert (Send : stamp end_).
  { destruct (last_date_in _ _ He) as (r & Hin & <-).
    pose proof (tr_stamps _ _ T) as F. rewrite Forall_forall in F. exact (F r Hin). }
  apply restamp_some in Re; [|exact Send|lia].
  apply restamp_some in Rs; [|exact Sstart|rewrite (tr_years _ _ T); lia].
  subst start' end'.
  exists sc, st1, start, end_.
  split; [exact E|]. split; [apply (tr_years _ _ T)|].
  split; [exact Hs|]. split; [exact He|].
  rewrite Hf, Sget_set_same. split; [reflexivity|].
  intros Hm. assert (Y : year_iteration sc = 1).
  { rewrite (tr_years _ _ T), Hm. reflexivity. }
  rewrite Y. split; reflexivity.
Qed.

Lemma scan_lines_app a : forall b sc st,
  scan_lines (a ++ b) sc st =
  match scan_lines a sc st with
  | (Ok sc', st') => scan_lines b sc' st'
  | (Raise e, st') => (Raise e, st')
  end.
Proof.
  induction a as [|x a IH]; intros b sc st; simpl; [reflexivity|].
  unfold bind. destruct (scan_line sc x st) as [[sc1|e] st1]; [apply IH|reflexivity].
Qed.

Lemma process_files_raise logs utcnow_year i log_file rest st e st' :
  process_file logs utcnow_year i log_file st = (Raise e, st') ->
  process_files logs utcnow_year i (log_file :: rest) st = (Raise e, st').
Proof. intros H. simpl. unfold bind. rewrite H. reflexivity. Qed.

Lemma extends_fields st st' :
  extends st st' ->
  filedates st' = filedates st /\ odometers st' = odometers st
  /\ moves st' = moves st /\ artifacts st' = artifacts st
  /\ folderdt st' = folderdt st /\ last_file st' = last_file st.
Proof. intros [out ->]. repeat split. Qed.

Lemma conclude_assertion utcnow_year i log_file log_path sc st :
  file_end sc = None ->
  conclude utcnow_year i log_file log_path sc st = (Raise AssertionError, st).
Proof.
  intros H. unfold conclude, bind, orelse, raise, ret. rewrite H.
  destruct (file_start sc); reflexivity.
Qed.

Lemma last_date_count rs : last_date rs = None <-> (List.length rs <= 1)%nat.
Proof.
  unfold last_date. rewrite <- (length_map date_of), <- length_rev.
  destruct (rev (map date_of rs)) as [|x [|y l]]; simpl; split; intros H;
    try reflexivity; try lia; discriminate.
Qed.

Lemma first_date_count rs : first_date rs = None <-> rs = [].
Proof. destruct rs; simpl; split; intros H; try reflexivity; discriminate. Qed.

(** C10. A file with exactly one accepted record sets [file_start] and
    leaves [file_end] unset: the second assertion fails and the run
    stops with [AssertionError], nothing being stored or cached.  After
    any scan, [file_start] is set when there is at least one record and
    [file_end] when there are at least two. *)
Theorem single_record_file_aborts logs utcnow_year i log_file contents r st :
  Dict.get String.eqb (artifact_of log_file) (artifacts st) = None ->
  Dict.get String.eqb log_file logs = Some (Lines contents) ->
  Forall well_formed contents ->
  records contents = [r] ->
  overlaps (date_of r) (filedates st) = false ->
  (exists sc st1,
     scan_lines contents initial_scan (opened log_file contents st) = (Ok sc, st1)
     /\ file_start sc = Some (date_of r) /\ file_end sc = None
     /\ process_file logs utcnow_year i log_file st = (Raise AssertionError, st1)
     /\ (forall rest, process_files logs utcnow_year i (log_file :: rest) st
                      = (Raise AssertionError, st1))
     /\ artifacts st1 = artifacts st /\ odometers st1 = odometers st
     /\ moves st1 = moves st)
  /\ (forall lines sc st0 st1,
        scan_lines lines initial_scan st0 = (Ok sc, st1) ->
        (file_start sc = None <-> records lines = [])
        /\ (file_end sc = None <-> (List.length (records lines) <= 1)%nat)).
Proof.
  intros Hc Hl W Hr Ho. split.
  - destruct (scan_lines_progress contents initial_scan [] (opened log_file contents st)
                tracks_initial W) as (sc & st1 & E).
    { intros _ r' Hr'. rewrite Hr in Hr'. injection Hr' as <-. exact Ho. }
    destruct (scan_lines_tracks _ _ _ _ _ _ tracks_initial E) as [T X].
    simpl in T. rewrite Hr in T.
    assert (X' : extends st st1).
    { eapply extends_trans; [|exact X]. eexists; reflexivity. }
    destruct (extends_fields _ _ X') as (_ & Xo & Xm & Xa & _).
    assert (P : process_file logs utcnow_year i log_file st = (Raise AssertionError, st1)).
    { rewrite (process_file_read _ _ _ _ _ _ Hc Hl), E.
      apply conclude_assertion. rewrite (tr_end _ _ T). reflexivity. }
    exists sc, st1. split; [exact E|].
    split; [rewrite (tr_start _ _ T); reflexivity|].
    split; [rewrite (tr_end _ _ T); reflexivity|].
    split; [exact P|]. split; [intros rest; apply process_files_raise, P|].
    repeat split; assumption.
  - intros lines sc st0 st1 E.
    destruct (scan_lines_tracks _ _ _ _ _ _ tracks_initial E) as [T _]. simpl in T.
    rewrite (tr_start _ _ T), (tr_end _ _ T).
    split; [apply first_date_count|apply last_date_count].
Qed.

(** C8 (as amended). A line holding the bar pattern with a value outside
    1..92 stops the run with an uncaught [KeyError] when the scan reaches
    it, its time stamp and its position convert, and [sys.exit] is not
    taken; a line holding the pattern without a time stamp is printed
    and skipped, whatever the value. *)
Theorem out_of_range_bar logs utcnow_year i log_file before line after bar date pos st :
  Dict.get String.eqb (artifact_of log_file) (artifacts st) = None ->
  Dict.get String.eqb log_file logs = Some (Lines (before ++ line :: after)) ->
  Forall well_formed before ->
  record_of line = Some (bar, date, pos) ->
  ~ 1 <= bar <= 92 ->
  (forall r, hd_error (records (before ++ [line])) = Some r ->
             overlaps (date_of r) (filedates st) = false) ->
  (exists st',
     process_file logs utcnow_year i log_file st = (Raise KeyError, st')
     /\ (forall rest, process_files logs utcnow_year i (log_file :: rest) st
                      = (Raise KeyError, st'))
     /\ artifacts st' = artifacts st)
  /\ (forall sc l st0,
        re_match stamp_pattern l = None ->
        scan_line sc l st0 = (Ok sc, emit (skip_notice l) st0)).
Proof.
  intros Hc Hl W Hr Hb Ho. split.
  - set (st0 := opened log_file (before ++ line :: after) st).
    assert (X0 : extends st st0) by (eexists; reflexivity).
    destruct (scan_lines_progress before initial_scan [] st0 tracks_initial W)
      as (sc & st1 & E).
    { intros _ r Hr'. apply Ho. rewrite records_app.
      destruct (records before); [discriminate|exact Hr']. }
    destruct (scan_lines_tracks _ _ _ _ _ _ tracks_initial E) as [T X]. simpl in T.
    assert (L : exists st2, scan_line sc line st1 = (Raise KeyError, st2)
                            /\ extends st1 st2).
    { rewrite (scan_line_record _ _ _ _ _ _ Hr). unfold bind. rewrite track_dates_run.
      assert (A : forall s, accumulate (dated sc date) bar pos line s = (Raise KeyError, s)).
      { intros s. rewrite accumulate_run. cbn [dated last_pos].
        rewrite (tr_keys _ _ T bar Hb). reflexivity. }
      destruct (file_start sc) as [fs|] eqn:Hfs.
      - rewrite A. eexists. split; [reflexivity|eexists; reflexivity].
      - assert (F : find (within date) (filedates st1) = None).
        { rewrite (tr_start _ _ T) in Hfs. apply first_date_count in Hfs.
          specialize (Ho (bar, date, pos)). rewrite records_app, Hfs in Ho.
          simpl in Ho. rewrite Hr in Ho. specialize (Ho eq_refl).
          destruct (extends_fields _ _ (extends_trans _ _ _ X0 X)) as (-> & _).
          rewrite overlaps_find in Ho. cbn [date_of fst snd] in Ho.
          destruct (find _ _); [discriminate|reflexivity]. }
        rewrite F, A. eexists. split; [reflexivity|eexists; reflexivity]. }
    destruct L as (st2 & L & X2).
    assert (P : process_file logs utcnow_year i log_file st = (Raise KeyError, st2)).
    { rewrite (process_file_read _ _ _ _ _ _ Hc Hl). fold st0.
      rewrite scan_lines_app, E. simpl. unfold bind. rewrite L. reflexivity. }
    exists st2. split; [exact P|]. split; [intros rest; apply process_files_raise, P|].
    destruct (extends_fields _ _ (extends_trans _ _ _ (extends_trans _ _ _ X0 X) X2))
      as (_ & _ & _ & Xa & _). exact Xa.
  - intros sc l st0 Hm. apply scan_line_skipped. unfold skipped. rewrite Hm.
    destruct (re_search record_pattern l); reflexivity.
Qed.

Lemma no_position_no_record line : has_position line = false -> record_of line = None.
Proof.
  unfold has_position, record_of.
  destruct (re_search record_pattern line) as [m|]; [|reflexivity].
  destruct (re_match stamp_pattern line) as [md|]; [|reflexivity].
  destruct (group 1 m); [|reflexivity].
  destruct (group 1 md); [|reflexivity].
  destruct (group 2 md); [|reflexivity].
  destruct (group 3 md); [|reflexivity].
  destruct (py_int _); [|reflexivity].
  destruct (py_int _); [|reflexivity].
  destruct (nth_error _ 2) as [field|]; [|reflexivity].
  destruct (strptime_b_d_HMS _); [|reflexivity].
  destruct (py_float field); [discriminate|reflexivity].
Qed.

(** C6 (as amended). A log file whose bytes do not decode is skipped:
    the iteration prints that it is unable to read it, stores and caches
    nothing, and the loop goes on to the next file.  A file holding a
    line with the bar pattern and the time stamp whose third field does
    not convert to a float is not absorbed: the exception is not the one
    the script catches and the run stops, nothing being cached. *)
Theorem decode_failure_absorbed logs utcnow_year i log_file st :
  Dict.get String.eqb (artifact_of log_file) (artifacts st) = None ->
  (Dict.get String.eqb log_file logs = Some Undecodable ->
   process_file logs utcnow_year i log_file st
   = (Ok tt, emit [Reading log_file; UnableToRead log_file] st)
   /\ forall rest,
        process_files logs utcnow_year i (log_file :: rest) st
        = process_files logs utcnow_year (i + 1) rest
            (emit [Reading log_file; UnableToRead log_file] st))
  /\ (forall contents line,
        Dict.get String.eqb log_file logs = Some (Lines contents) ->
        In line contents -> skipped line = false -> has_position line = false ->
        exists e st',
          process_file logs utcnow_year i log_file st = (Raise e, st')
          /\ e <> UnicodeDecodeError
          /\ (forall rest, process_files logs utcnow_year i (log_file :: rest) st
                           = (Raise e, st'))
          /\ artifacts st' = artifacts st /\ odometers st' = odometers st
          /\ moves st' = moves st).
Proof.
  intros Hc. split.
  - intros Hl. pose proof (process_file_undecodable logs utcnow_year i _ _ Hc Hl) as P.
    split; [exact P|]. intros rest. simpl. unfold bind. rewrite P. reflexivity.
  - intros contents line Hl Hin Hs Hp.
    pose proof (no_position_no_record _ Hp) as Hr.
    set (st0 := opened log_file contents st).
    destruct (scan_lines_malformed contents line initial_scan st0 Hin Hs Hr) as [e He].
    destruct (scan_lines_any contents initial_scan st0) as [X N].
    destruct (scan_lines contents initial_scan st0) as [o st1] eqn:E.
    simpl in He, X, N. subst o.
    assert (P : process_file logs utcnow_year i log_file st = (Raise e, st1)).
    { rewrite (process_file_read _ _ _ _ _ _ Hc Hl). fold st0. rewrite E. reflexivity. }
    exists e, st1. split; [exact P|]. split; [congruence|].
    split; [intros rest; apply process_files_raise, P|].
    assert (X' : extends st st1).
    { eapply extends_trans; [|exact X]. eexists; reflexivity. }
    destruct (extends_fields _ _ X') as (_ & Xo & Xm & Xa & _).
    repeat split; assumption.
Qed.

Lemma loaded_tables log_file o n st :
  Dict.get String.eqb log_file (odometers (loaded log_file o n st)) = Some o
  /\ Dict.get String.eqb log_file (moves (loaded log_file o n st)) = Some n
  /\ filedates (loaded log_file o n st) = filedates st
  /\ artifacts (loaded log_file o n st) = artifacts st
  /\ stdout (loaded log_file o n st) = stdout st ++ [Loading (artifact_of log_file)].
Proof.
  unfold loaded. cbn. rewrite !Sget_set_same. repeat split.
Qed.

(** C4. Cache round trip: a log file processed with a cold cache leaves
    an artifact holding the arrays it computed; processing it again,
    from any state in which that artifact is on disk, loads these same
    arrays as its result, reads no log and prints only that it loads. *)
Theorem cache_round_trip logs utcnow_year i log_file contents st st1 :
  Dict.get String.eqb (artifact_of log_file) (artifacts st) = None ->
  Dict.get String.eqb log_file logs = Some (Lines contents) ->
  process_file logs utcnow_year i log_file st = (Ok tt, st1) ->
  exists mileage nmoves,
    Dict.get String.eqb log_file (odometers st1) = Some mileage
    /\ Dict.get String.eqb log_file (moves st1) = Some nmoves
    /\ Dict.get String.eqb (artifact_of log_file) (artifacts st1)
       = Some [("odometer"%string, mileage); ("nmoves"%string, nmoves)]
    /\ forall logs' utcnow_year' j st2,
         Dict.get String.eqb (artifact_of log_file) (artifacts st2)
         = Dict.get String.eqb (artifact_of log_file) (artifacts st1) ->
         process_file logs' utcnow_year' j log_file st2
         = (Ok tt, loaded log_file mileage nmoves st2)
         /\ Dict.get String.eqb log_file (odometers (loaded log_file mileage nmoves st2))
            = Some mileage
         /\ Dict.get String.eqb log_file (moves (loaded log_file mileage nmoves st2))
            = Some nmoves.
Proof.
  intros Hc Hl H.
  destruct (process_file_fresh _ _ _ _ _ _ _ Hc Hl H)
    as (sc & st' & start & end_ & fd & start' & end'
        & E & T & Hs & He & Ha & Re & Rs & Hf & Ho & Hm & Hz).
  exists (mileage sc), (nmoves sc).
  rewrite Ho, Hm, Hz, !Sget_set_same.
  split; [reflexivity|]. split; [reflexivity|]. split; [reflexivity|].
  intros logs' utc' j st2 H2.
  split; [|split; apply loaded_tables].
  eapply process_file_warm; [exact H2|reflexivity|reflexivity].
Qed.

(** An iteration that completes keeps every artifact already on disk. *)
Lemma artifacts_persist logs utcnow_year i log_file st st' a r :
  Dict.get String.eqb a (artifacts st) = Some r ->
  process_file logs utcnow_year i log_file st = (Ok tt, st') ->
  Dict.get String.eqb a (artifacts st') = Some r.
Proof.
  intros Ha H.
  destruct (Dict.get String.eqb (artifact_of log_file) (artifacts st)) as [result|] eqn:Hc.
  - unfold process_file, bind, read in H. fold (artifact_of log_file) in H.
    rewrite Hc in H. unfold print, write, orelse, ret, raise in H. cbn beta iota in H.
    destruct (Dict.get String.eqb "odometer"%string result); [|discriminate].
    cbn beta iota in H.
    destruct (Dict.get String.eqb "nmoves"%string result); [|discriminate].
    injection H as <-. exact Ha.
  - destruct (Dict.get String.eqb log_file logs) as [[contents|]|] eqn:Hl.
    + destruct (process_file_fresh _ _ _ _ _ _ _ Hc Hl H)
        as (sc & st1 & start & end_ & fd & start' & end'
            & E & T & Hs & He & Ha' & Re & Rs & Hf & Ho & Hm & Hz).
      rewrite Hz. rewrite Sget_set_other; [exact Ha|].
      intros ->. congruence.
    + rewrite (process_file_undecodable _ _ _ _ _ Hc Hl) in H. injection H as <-. exact Ha.
    + rewrite (process_file_missing _ _ _ _ _ Hc Hl) in H. discriminate.
Qed.

(** X15. The cache is keyed by directory: once a file has been processed
    cold, any file of the same directory processed while the artifact is
    on disk loads the first file's arrays as its own result without
    being read, so the tables summed at the end hold these arrays once
    per file; and the artifact stays on disk through every iteration
    that completes. *)
Theorem cache_keyed_by_directory logs utcnow_year i first later contents st st1 :
  fst (OsPath.split first) = fst (OsPath.split later) ->
  Dict.get String.eqb (artifact_of first) (artifacts st) = None ->
  Dict.get String.eqb first logs = Some (Lines contents) ->
  process_file logs utcnow_year i first st = (Ok tt, st1) ->
  exists mileage nmoves result,
    Dict.get String.eqb first (odometers st1) = Some mileage
    /\ Dict.get String.eqb first (moves st1) = Some nmoves
    /\ Dict.get String.eqb (artifact_of later) (artifacts st1) = Some result
    /\ (forall logs' utcnow_year' j st2,
          Dict.get String.eqb (artifact_of later) (artifacts st2) = Some result ->
          process_file logs' utcnow_year' j later st2
          = (Ok tt, loaded later mileage nmoves st2))
    /\ (forall logs' utcnow_year' j log_file st2 st3,
          Dict.get String.eqb (artifact_of later) (artifacts st2) = Some result ->
          process_file logs' utcnow_year' j log_file st2 = (Ok tt, st3) ->
          Dict.get String.eqb (artifact_of later) (artifacts st3) = Some result)
    /\ Dict.get String.eqb first (odometers (loaded later mileage nmoves st1)) = Some mileage
    /\ Dict.get String.eqb later (odometers (loaded later mileage nmoves st1)) = Some mileage
    /\ Dict.get String.eqb first (moves (loaded later mileage nmoves st1)) = Some nmoves
    /\ Dict.get String.eqb later (moves (loaded later mileage nmoves st1)) = Some nmoves.
Proof.
  intros Hd Hc Hl H.
  assert (Hart : artifact_of later = artifact_of first).
  { unfold artifact_of. rewrite Hd. reflexivity. }
  destruct (process_file_fresh _ _ _ _ _ _ _ Hc Hl H)
    as (sc & st' & start & end_ & fd & start' & end'
        & E & T & Hs & He & Ha & Re & Rs & Hf & Ho & Hm & Hz).
  exists (mileage sc), (nmoves sc),
    [("odometer"%string, mileage sc); ("nmoves"%string, nmoves sc)].
  rewrite Hart, Ho, Hm, Hz, !Sget_set_same.
  split; [reflexivity|]. split; [reflexivity|]. split; [reflexivity|].
  split; [|split].
  - intros logs' utc' j st2 H2. eapply process_file_warm;
      [rewrite Hart; exact H2|reflexivity|reflexivity].
  - intros logs' utc' j f st2 st3 H2 H3.
    exact (artifacts_persist logs' utc' j f st2 st3 _ _ H2 H3).
  - unfold loaded. cbn [odometers moves set_moves set_odometers emit set_stdout].
    rewrite Ho, Hm.
    destruct (String.eqb_spec first later) as [->|Hne]; repeat apply conj;
      repeat first [rewrite Sget_set_same | rewrite Sget_set_other by exact Hne];
      reflexivity.
Qed.

(** An in-place addition keeps the dtype of an integer array. *)
Lemma iadd_int64 a b r :
  is_int64 a = true -> NumPy.iadd a b = inl r -> is_int64 r = true.
Proof.
  destruct a as [x| |]; try discriminate. intros _.
  destruct b as [y| |]; simpl; try discriminate.
  destruct (NumPy.shapes_agree _ _); [|discriminate].
  intros H; injection H as <-. reflexivity.
Qed.

Lemma sum_results_int64 log_files : forall totals st r st',
  is_int64 (fst totals) = true -> is_int64 (snd totals) = true ->
  sum_results log_files totals st = (Ok r, st') ->
  is_int64 (fst r) = true /\ is_int64 (snd r) = true.
Proof.
  induction log_files as [|f rest IH]; intros totals st r st' H1 H2 H.
  - injection H as <- _. auto.
  - simpl in H. unfold numpy, bind, read, orelse, ret, raise in H.
    destruct (Dict.get String.eqb f (moves st)) as [m|];
      cbn beta iota in H; [|discriminate].
    destruct (NumPy.iadd (fst totals) (NumPy.array m)) as [n|[]] eqn:En;
      cbn beta iota in H; try discriminate.
    destruct (Dict.get String.eqb f (odometers st)) as [o|];
      cbn beta iota in H; [|discriminate].
    destruct (NumPy.iadd (snd totals) (NumPy.array o)) as [k|[]] eqn:Ek;
      cbn beta iota in H; try discriminate.
    apply (IH (n, k) st r st'); [| |exact H].
    + exact (iadd_int64 _ _ _ H1 En).
    + exact (iadd_int64 _ _ _ H2 Ek).
Qed.

(** [main] never returns its arrays: when the loop and the summation
    complete, the in-place division of the integer array raises. *)
Lemma main_raises logs utcnow_year globbed st :
  exists e st', main logs utcnow_year globbed st = (Raise e, st').
Proof.
  unfold main, bind.
  destruct (process_files _ _ _ _ _) as [[[]|e] st1]; [|eauto].
  destruct (sum_results _ _ _) as [[totals|e] st2] eqn:E; [|eauto].
  apply sum_results_int64 in E; [|reflexivity|reflexivity].
  destruct E as [_ E]. destruct (snd totals); try discriminate.
  simpl. eauto.
Qed.

(** C1, witness.  The file [moving_bar]: bar 5 reads 10.0, 10.0, 7.5 and
    7.5, one move of 2.5. *)
Lemma per_file_accumulator_witness :
  Dict.get String.eqb (artifact_of file_a) (artifacts cold) = None
  /\ Dict.get String.eqb file_a moving_disk = Some (Lines moving_bar)
  /\ process_file moving_disk 2026 0 file_a cold = (Ok tt, after moving_disk file_a)
  /\ exists nmoves mileage,
       Dict.get String.eqb file_a (moves (after moving_disk file_a)) = Some nmoves
       /\ Dict.get String.eqb file_a (odometers (after moving_disk file_a)) = Some mileage
       /\ nth_error nmoves 4 = Some (PyInt 1)
       /\ nth_error mileage 4 = Some (PyFloat 2.5).
Proof.
  assert (H1 : Dict.get String.eqb (artifact_of file_a) (artifacts cold) = None)
    by (vm_compute; reflexivity).
  assert (H2 : Dict.get String.eqb file_a moving_disk = Some (Lines moving_bar))
    by (vm_compute; reflexivity).
  assert (H3 : process_file moving_disk 2026 0 file_a cold
               = (Ok tt, after moving_disk file_a))
    by (vm_compute; reflexivity).
  split; [exact H1|]. split; [exact H2|]. split; [exact H3|].
  destruct (per_file_accumulator moving_disk 2026 0 file_a moving_bar cold
              (after moving_disk file_a) H1 H2 H3) as (nm & mi & A & B & _ & D).
  exists nm, mi. split; [exact A|]. split; [exact B|].
  apply D. vm_compute. reflexivity.
Defined.

(** C3, witness.  The file [winter] of directory 20150301: one rollover,
    a span from 2014 to 2015. *)
Lemma date_reconstruction_witness :
  exists sc first last,
    year_iteration sc = 1
    /\ first_date (records winter) = Some first
    /\ last_date (records winter) = Some last
    /\ Dict.get String.eqb file_c (filedates (after winter_disk file_c))
       = Some (with_year 2014 first, with_year 2015 last).
Proof.
  assert (H1 : Dict.get String.eqb (artifact_of file_c) (artifacts cold) = None)
    by (vm_compute; reflexivity).
  assert (H2 : Dict.get String.eqb file_c winter_disk = Some (Lines winter))
    by (vm_compute; reflexivity).
  assert (H3 : strptime_Ymd (folder_of file_c) = Some (mk_datetime 2015 3 1 0 0 0))
    by (vm_compute; reflexivity).
  assert (H4 : process_file winter_disk 2026 0 file_c cold
               = (Ok tt, after winter_disk file_c))
    by (vm_compute; reflexivity).
  destruct (date_reconstruction winter_disk 2026 0 file_c winter _ cold
              (after winter_disk file_c) H1 H2 H3 H4)
    as (sc & st1 & first & last & _ & _ & F & L & _ & M).
  destruct M as [Y S]; [vm_compute; reflexivity|].
  exists sc, first, last. split; [exact Y|]. split; [exact F|]. split; [exact L|].
  exact S.
Defined.

(** C4, witness.  [moving_bar] is analysed, then loaded in a later run
    in which no log can be read. *)
Lemma cache_round_trip_witness :
  exists mileage nmoves,
    Dict.get String.eqb file_a (odometers (after moving_disk file_a)) = Some mileage
    /\ nth_error mileage 4 = Some (PyFloat 2.5)
    /\ process_file [] 2030 7 file_a (after moving_disk file_a)
       = (Ok tt, loaded file_a mileage nmoves (after moving_disk file_a)).
Proof.
  assert (H1 : Dict.get String.eqb (artifact_of file_a) (artifacts cold) = None)
    by (vm_compute; reflexivity).
  assert (H2 : Dict.get String.eqb file_a moving_disk = Some (Lines moving_bar))
    by (vm_compute; reflexivity).
  assert (H3 : process_file moving_disk 2026 0 file_a cold
               = (Ok tt, after moving_disk file_a))
    by (vm_compute; reflexivity).
  destruct (cache_round_trip moving_disk 2026 0 file_a moving_bar cold
              (after moving_disk file_a) H1 H2 H3) as (mi & nm & A & B & C & D).
  exists mi, nm. split; [exact A|]. split.
  - vm_compute in A. injection A as <-. reflexivity.
  - apply (D [] 2030 7 (after moving_disk file_a) eq_refl).
Defined.

(** X15, witness.  [CSU.log] and [CSU.log.1] of one directory: the second
    is given the arrays of the first. *)
Lemma cache_keyed_by_directory_witness :
  fst (OsPath.split file_a) = fst (OsPath.split file_a1)
  /\ exists mileage nmoves,
       Dict.get String.eqb file_a (odometers (after shared_directory file_a)) = Some mileage
       /\ process_file shared_directory 2026 1 file_a1 (after shared_directory file_a)
          = (Ok tt, loaded file_a1 mileage nmoves (after shared_directory file_a)).
Proof.
  assert (H0 : fst (OsPath.split file_a) = fst (OsPath.split file_a1))
    by (vm_compute; reflexivity).
  assert (H1 : Dict.get String.eqb (artifact_of file_a) (artifacts cold) = None)
    by (vm_compute; reflexivity).
  assert (H2 : Dict.get String.eqb file_a shared_directory = Some (Lines moving_bar))
    by (vm_compute; reflexivity).
  assert (H3 : process_file shared_directory 2026 0 file_a cold
               = (Ok tt, after shared_directory file_a))
    by (vm_compute; reflexivity).
  split; [exact H0|].
  destruct (cache_keyed_by_directory shared_directory 2026 0 file_a file_a1 moving_bar
              cold (after shared_directory file_a) H0 H1 H2 H3)
    as (mi & nm & result & A & B & C & D & _).
  exists mi, nm. split; [exact A|].
  apply D. exact C.
Defined.

(** C10, witness.  A file with one record and one line that is no
    record. *)
Lemma single_record_file_aborts_witness :
  records lone_record = [(1, mk_datetime 1900 1 5 12 0 1, 1%float)]
  /\ exists st1,
       process_file lone_disk 2026 0 file_a cold = (Raise AssertionError, st1)
       /\ artifacts st1 = artifacts cold.
Proof.
  assert (H1 : Dict.get String.eqb (artifact_of file_a) (artifacts cold) = None)
    by (vm_compute; reflexivity).
  assert (H2 : Dict.get String.eqb file_a lone_disk = Some (Lines lone_record))
    by (vm_compute; reflexivity).
  assert (H3 : Forall well_formed lone_record).
  { apply Forall_cons; [|apply Forall_cons; [|apply Forall_nil]].
    - left. vm_compute. reflexivity.
    - right. eexists. split; [vm_compute; reflexivity|]. cbn. lia. }
  assert (H4 : records lone_record = [(1, mk_datetime 1900 1 5 12 0 1, 1%float)])
    by (vm_compute; reflexivity).
  assert (H5 : overlaps (date_of (1, mk_datetime 1900 1 5 12 0 1, 1%float))
                 (filedates cold) = false) by reflexivity.
  split; [exact H4|].
  destruct (single_record_file_aborts lone_disk 2026 0 file_a lone_record _ cold
              H1 H2 H3 H4 H5) as [(sc & st1 & _ & _ & _ & P & _ & A & _) _].
  exists st1. split; [exact P|exact A].
Defined.

(** C8, witness.  A record of bar 01 followed by a stamped line for
    bar 93. *)
Lemma out_of_range_bar_witness :
  record_of stamped_bar_93 = Some (93, mk_datetime 1900 1 5 12 0 1, 1%float)
  /\ exists st',
       process_file stamped_disk 2026 0 file_a cold = (Raise KeyError, st')
       /\ artifacts st' = artifacts cold.
Proof.
  assert (H1 : Dict.get String.eqb (artifact_of file_a) (artifacts cold) = None)
    by (vm_compute; reflexivity).
  assert (H2 : Dict.get String.eqb file_a stamped_disk
               = Some (Lines ([nl "Jan  5 12:00:00 mosfire csu: Record=<01,0,1.0,1>"]
                              ++ stamped_bar_93 :: [])))
    by (vm_compute; reflexivity).
  assert (H3 : Forall well_formed [nl "Jan  5 12:00:00 mosfire csu: Record=<01,0,1.0,1>"]).
  { apply Forall_cons; [|apply Forall_nil].
    right. eexists. split; [vm_compute; reflexivity|]. cbn. lia. }
  assert (H4 : record_of stamped_bar_93 = Some (93, mk_datetime 1900 1 5 12 0 1, 1%float))
    by (vm_compute; reflexivity).
  assert (H5 : ~ 1 <= 93 <= 92) by lia.
  split; [exact H4|].
  destruct (out_of_range_bar stamped_disk 2026 0 file_a _ _ [] _ _ _ cold
              H1 H2 H3 H4 H5) as [(st' & P & _ & A) _].
  { intros r _. reflexivity. }
  exists st'. split; [exact P|exact A].
Defined.

(** C6, witness.  An undecodable file, and a file whose second record
    holds [n/a] as its position. *)
Lemma decode_failure_absorbed_witness :
  process_file undecodable_disk 2026 0 file_a cold
  = (Ok tt, emit [Reading file_a; UnableToRead file_a] cold)
  /\ exists e st',
       process_file bad_position_disk 2026 0 file_a cold = (Raise e, st')
       /\ e <> UnicodeDecodeError.
Proof.
  assert (H1 : Dict.get String.eqb (artifact_of file_a) (artifacts cold) = None)
    by (vm_compute; reflexivity).
  split.
  - apply (decode_failure_absorbed undecodable_disk 2026 0 file_a cold H1).
    vm_compute. reflexivity.
  - destruct (decode_failure_absorbed bad_position_disk 2026 0 file_a cold H1) as [_ B].
    destruct (B bad_position (nl "Jan  5 12:00:01 mosfire csu: Record=<01,0,n/a,1>"))
      as (e & st' & P & N & _).
    + vm_compute. reflexivity.
    + right. left. reflexivity.
    + vm_compute. reflexivity.
    + vm_compute. reflexivity.
    + exists e, st'. split; [exact P|exact N].
Defined.

(** C6, counterexample.  The second line of [bad_position] holds the bar
    pattern and the time stamp, and its third field is no float: the
    run stops with [ValueError] while the first file is scanned; nothing
    is printed about a file being skipped and the operational log is
    never reached. *)
Lemma unparseable_position_stops_the_run :
  skipped (nl "Jan  5 12:00:01 mosfire csu: Record=<01,0,n/a,1>") = false
  /\ has_position (nl "Jan  5 12:00:01 mosfire csu: Record=<01,0,n/a,1>") = false
  /\ main bad_position_disk 2026 [file_a] cold
     = (Raise ValueError, emit [Reading file_a; Analyzing 3] cold).
Proof. vm_compute. repeat split. Qed.

(** C8, counterexample.  A line holding [Record=<00,] without a time
    stamp: the bar converts to 0, outside 1..92, and the iteration
    completes with the line printed and skipped. *)
Lemma unstamped_bar_is_skipped :
  option_map fst (re_search record_pattern unstamped_bar_00) = Some ["00"%string]
  /\ py_int "00" = Some 0
  /\ fst (process_file unstamped_disk 2026 0 file_a cold) = Ok tt
  /\ stdout (after unstamped_disk file_a)
     = [Reading file_a; Analyzing 3; PrintLine unstamped_bar_00;
        FileCovers (mk_datetime 2015 1 5 12 0 0) (mk_datetime 2015 1 6 12 0 0)].
Proof. vm_compute. repeat split. Qed.

(** C2 (the code departs from the claim).  Two directories hold logs
    that cover the same two days of January 2015.  The start of the
    second file is compared while it still carries the year 1900 that
    [strptime] gives it, so it falls in no recorded span: the loop
    completes without a warning, both files are stored and cached, and
    the two recorded spans are one and the same. *)
Theorem overlap_goes_unnoticed :
  let run := process_files overlapping_disk 2026 0 (log_files [file_b; file_a]) cold in
  let span := (mk_datetime 2015 1 5 12 0 0, mk_datetime 2015 1 6 12 0 0) in
  fst run = Ok tt
  /\ Dict.get String.eqb file_a (filedates (snd run)) = Some span
  /\ Dict.get String.eqb file_b (filedates (snd run)) = Some span
  /\ within (fst span) (file_a, span) = true
  /\ first_date (records early_january) = Some (mk_datetime 1900 1 5 12 0 0)
  /\ existsb is_overlap_warning (stdout (snd run)) = false
  /\ map fst (moves (snd run)) = [file_a; file_b; syslog]
  /\ map fst (artifacts (snd run))
     = [artifact_of file_a; artifact_of file_b; artifact_of syslog].
Proof. vm_compute. repeat split. Qed.

(** C5 (the code departs from the claim).  Whatever the logs, [main]
    ends in an exception and reports no array: the totals are integer
    arrays, which an in-place true division cannot hold.  With a file in
    which a bar moved, the loop over the files completes and the
    summation already raises [TypeError] on the float mileage; with
    files in which nothing moved, the summation completes and the
    division by 1000 raises it. *)
Theorem aggregate_never_reported :
  (forall logs utcnow_year globbed st,
     exists e st', main logs utcnow_year globbed st = (Raise e, st'))
  /\ fst (process_files moving_disk 2026 0 (log_files [file_a]) cold) = Ok tt
  /\ fst (main moving_disk 2026 [file_a] cold) = Raise TypeError
  /\ fst (sum_results (log_files []) (zeros, zeros)
            (snd (process_files [(syslog, Undecodable)] 2026 0 (log_files []) cold)))
     = Raise KeyError
  /\ (let st := snd (process_files dated_then_syslog 2026 0 (log_files [file_a]) cold) in
      fst (sum_results (log_files [file_a]) (zeros, zeros) st) = Ok (zeros, zeros)
      /\ fst (main dated_then_syslog 2026 [file_a] cold) = Raise TypeError).
Proof.
  split; [exact main_raises|]. vm_compute. repeat split.
Qed.

(** C7 (the code departs from the claim).  The year of [utcnow] is
    stored in [year] and never read.  When the operational log, whose
    directory name is no date, is the first file analysed, [folderdt] is
    unbound and the run stops with [UnboundLocalError]; after a file of
    a dated directory, its span is dated in the year of that directory,
    here 2015, whatever the current year. *)
Theorem fallback_year_unused :
  (forall utcnow_year,
     fst (main syslog_only utcnow_year [] cold) = Raise UnboundLocalError)
  /\ strptime_Ymd (folder_of syslog) = None
  /\ (forall utcnow_year,
        let run := process_files dated_then_syslog utcnow_year 0 (log_files [file_a]) cold in
        fst run = Ok tt
        /\ year (snd run) = Some utcnow_year
        /\ Dict.get String.eqb syslog (filedates (snd run))
           = Some (mk_datetime 2015 3 1 12 0 0, mk_datetime 2015 3 2 12 0 0)).
Proof.
  split; [|split].
  - intros utcnow_year. vm_compute. reflexivity.
  - vm_compute. reflexivity.
  - intros utcnow_year. vm_compute. repeat split.
Qed.




(** *** Runs that find part of the logs cached *)

(** A cached file is loaded from the artifact of its directory. *)
Lemma process_file_cached logs utcnow_year i log_file st :
  cached (artifacts st) log_file = true ->
  exists o n,
    process_file logs utcnow_year i log_file st = (Ok tt, loaded log_file o n st).
Proof.
  unfold cached.
  destruct (Dict.get String.eqb (artifact_of log_file) (artifacts st)) as [result|] eqn:Ha;
    [|discriminate].
  destruct (Dict.get String.eqb "odometer"%string result) as [o|] eqn:Ho; [|discriminate].
  destruct (Dict.get String.eqb "nmoves"%string result) as [n|] eqn:Hn; [|discriminate].
  intros _. exists o, n. exact (process_file_warm logs utcnow_year i _ _ _ _ _ Ha Ho Hn).
Qed.

(** Loading touches the two tables and the output only. *)
Lemma loaded_fields log_file o n st :
  filedates (loaded log_file o n st) = filedates st
  /\ artifacts (loaded log_file o n st) = artifacts st
  /\ folderdt (loaded log_file o n st) = folderdt st
  /\ last_file (loaded log_file o n st) = last_file st.
Proof. repeat split. Qed.

(** The loop over a prefix of cached files analyses nothing: no span is
    recorded, and [folderdt] and [last_file] stay as they were. *)
Lemma process_files_cached logs utcnow_year pre : forall i rest st,
  Forall (fun f => cached (artifacts st) f = true) pre ->
  exists st1,
    process_files logs utcnow_year i (pre ++ rest) st
    = process_files logs utcnow_year (i + Z.of_nat (List.length pre)) rest st1
    /\ filedates st1 = filedates st /\ artifacts st1 = artifacts st
    /\ folderdt st1 = folderdt st /\ last_file st1 = last_file st.
Proof.
  induction pre as [|f pre IH]; intros i rest st F.
  - exists st. simpl. rewrite Z.add_0_r. repeat split.
  - inversion F as [|? ? Hf F']; subst.
    destruct (process_file_cached logs utcnow_year i f st Hf) as (o & n & P).
    destruct (loaded_fields f o n st) as (L1 & L2 & L3 & L4).
    destruct (IH (i + 1) rest (loaded f o n st)) as (st1 & Q & A & B & C & D).
    { rewrite L2. exact F'. }
    exists st1. split.
    + cbn [app process_files]. unfold bind at 1. rewrite P. rewrite Q.
      f_equal. cbn [List.length]. lia.
    + rewrite A, B, C, D. repeat split.
Qed.

(** A file analysed after the first iteration, when no file has been
    analysed before it in the run: line 106 reads [last_file], or line
    100 reads [folderdt], before either is assigned. *)
Lemma cold_file_unbound logs utcnow_year i log_file contents st :
  Dict.get String.eqb (artifact_of log_file) (artifacts st) = None ->
  Dict.get String.eqb log_file logs = Some (Lines contents) ->
  Forall well_formed contents ->
  (2 <= List.length (records contents))%nat ->
  (forall fd, strptime_Ymd (folder_of log_file) = Some fd ->
              1000 <= DateTime.year fd - rollovers (months (records contents))) ->
  (forall r, hd_error (records contents) = Some r ->
             overlaps (date_of r) (filedates st) = false) ->
  0 < i -> last_file st = None -> folderdt st = None ->
  exists st',
    process_file logs utcnow_year i log_file st = (Raise UnboundLocalError, st')
    /\ artifacts st' = artifacts st /\ odometers st' = odometers st
    /\ moves st' = moves st.
Proof.
  intros Hc Hl W Hn Hy Ho Hi Hlf Hfo.
  rewrite (process_file_read _ _ _ _ _ _ Hc Hl).
  destruct (scan_lines_progress contents initial_scan [] (opened log_file contents st)
              tracks_initial W) as (sc & st1 & E).
  { intros _ r Hr. exact (Ho r Hr). }
  rewrite E.
  destruct (scan_lines_tracks _ _ _ _ _ _ tracks_initial E) as [T X]. simpl in T.
  assert (X0 : extends st st1).
  { apply (extends_trans _ (opened log_file contents st)); [eexists; reflexivity|exact X]. }
  destruct (extends_fields _ _ X0) as (Ffd & Fod & Fmv & Far & Ffo & Flf).
  destruct (first_date (records contents)) as [start|] eqn:Hs.
  2:{ apply first_date_count in Hs. rewrite Hs in Hn. simpl in Hn. lia. }
  destruct (last_date (records contents)) as [end_|] eqn:He.
  2:{ apply last_date_count in He. lia. }
  pose proof (rollovers_nonneg (months (records contents))) as Hr.
  assert (Sstart : stamp start).
  { destruct (first_date_in _ _ Hs) as (r & Hin & <-).
    pose proof (tr_stamps _ _ T) as F. rewrite Forall_forall in F. exact (F r Hin). }
  assert (Send : stamp end_).
  { destruct (last_date_in _ _ He) as (r & Hin & <-).
    pose proof (tr_stamps _ _ T) as F. rewrite Forall_forall in F. exact (F r Hin). }
  unfold conclude. rewrite (tr_start _ _ T), (tr_end _ _ T), Hs, He, (tr_years _ _ T).
  fold (folder_of log_file).
  destruct (strptime_Ymd (folder_of log_file)) as [fd|] eqn:Hfd.
  - pose proof (strptime_Ymd_year _ _ Hfd) as Yfd.
    specialize (Hy fd eq_refl).
    unfold bind, orelse, ret, raise, read, write, print. quiet.
    rewrite (restamp_stamp _ _ Send) by lia.
    replace (1000 <=? DateTime.year fd) with true by (symmetry; apply Z.leb_le; lia).
    quiet.
    rewrite (restamp_stamp _ _ Sstart) by lia.
    replace (1000 <=? _) with true by (symmetry; apply Z.leb_le; lia).
    quiet.
    replace (0 <? i) with true by (symmetry; apply Z.ltb_lt; exact Hi).
    quiet. rewrite Flf, Hlf. quiet.
    eexists. split; [reflexivity|]. quiet. auto.
  - unfold bind, orelse, ret, raise, read, write, print. quiet.
    rewrite Ffo, Hfo. quiet.
    eexists. split; [reflexivity|]. quiet. auto.
Qed.

(** X2. A run that finds its first files cached and then a file to
    analyse stops at that file with [UnboundLocalError]: [last_file] is
    assigned only when a file is analysed, and line 106 reads it in
    every iteration but the first; when the directory of the file is not
    named by a date, line 100 reads [folderdt] unassigned.  Nothing is
    cached for the file. *)
Theorem incremental_run_aborts logs utcnow_year on_disk globbed pre log_file contents rest :
  log_files globbed = pre ++ log_file :: rest ->
  pre <> [] ->
  Forall (fun f => cached on_disk f = true) pre ->
  Dict.get String.eqb (artifact_of log_file) on_disk = None ->
  Dict.get String.eqb log_file logs = Some (Lines contents) ->
  Forall well_formed contents ->
  (2 <= List.length (records contents))%nat ->
  (forall fd, strptime_Ymd (folder_of log_file) = Some fd ->
              1000 <= DateTime.year fd - rollovers (months (records contents))) ->
  exists st',
    process_files logs utcnow_year 0 (log_files globbed) (initial_state on_disk)
    = (Raise UnboundLocalError, st')
    /\ main logs utcnow_year globbed (initial_state on_disk)
       = (Raise UnboundLocalError, st')
    /\ artifacts st' = on_disk.
Proof.
  intros Hg Hpre F Hc Hl W Hn Hy.
  destruct (process_files_cached logs utcnow_year pre 0 (log_file :: rest)
              (initial_state on_disk) F) as (st1 & Q & A & B & C & D).
  assert (H1 : Dict.get String.eqb (artifact_of log_file) (artifacts st1) = None)
    by (rewrite B; exact Hc).
  assert (H2 : forall r, hd_error (records contents) = Some r ->
                         overlaps (date_of r) (filedates st1) = false)
    by (intros r _; rewrite A; reflexivity).
  assert (H3 : 0 < 0 + Z.of_nat (List.length pre))
    by (destruct pre; [congruence|cbn [List.length]; lia]).
  assert (H4 : last_file st1 = None) by (rewrite D; reflexivity).
  assert (H5 : folderdt st1 = None) by (rewrite C; reflexivity).
  destruct (cold_file_unbound logs utcnow_year (0 + Z.of_nat (List.length pre))
              log_file contents st1 H1 Hl W Hn Hy H2 H3 H4 H5) as (st' & P & P1 & _).
  exists st'.
  assert (R : process_files logs utcnow_year 0 (log_files globbed) (initial_state on_disk)
                = (Raise UnboundLocalError, st')).
  { rewrite Hg, Q. exact (process_files_raise _ _ _ _ _ _ _ _ P). }
  split; [exact R|]. split.
  - unfold main, bind. rewrite R. reflexivity.
  - rewrite P1, B. reflexivity.
Qed.

(** X2, witness.  The artifact of directory 20150101 is on disk, the log
    of directory 20150102 is new. *)
Lemma incremental_run_aborts_witness :
  cached (artifacts (after moving_disk file_a)) file_a = true
  /\ fst (main overlapping_disk 2026 [file_b; file_a]
            (initial_state (artifacts (after moving_disk file_a))))
     = Raise UnboundLocalError.
Proof.
  assert (C : cached (artifacts (after moving_disk file_a)) file_a = true)
    by (vm_compute; reflexivity).
  split; [exact C|].
  destruct (incremental_run_aborts overlapping_disk 2026
              (artifacts (after moving_disk file_a)) [file_b; file_a]
              [file_a] file_b early_january [syslog])
    as (st' & _ & M & _).
  - vm_compute. reflexivity.
  - discriminate.
  - apply Forall_cons; [exact C|apply Forall_nil].
  - vm_compute. reflexivity.
  - vm_compute. reflexivity.
  - repeat (apply Forall_cons;
            [right; eexists; split; [vm_compute; reflexivity|cbn; lia]|]).
    apply Forall_nil.
  - vm_compute. lia.
  - intros fd H. vm_compute in H. injection H as <-. vm_compute. discriminate.
  - rewrite M. reflexivity.
Defined.

(** *** Lines with a time stamp *)

(** The bar of a line that holds the bar pattern always converts. *)
Lemma re_search_bar line m :
  re_search record_pattern line = Some m ->
  exists g bar, group 1 m = Some g /\ py_int g = Some bar /\ 0 <= bar <= 99.
Proof.
  intros H. destruct (re_search_match _ _ _ H) as [s' Hs].
  exact (record_pattern_bar _ _ Hs).
Qed.

(** A line whose stamp converts: the span is tracked, then the position
    is read and the bar is looked up. *)
Lemma scan_line_stamped sc line date st :
  stamp_of line = Some date ->
  exists bar,
    0 <= bar <= 99
    /\ scan_line sc line st
       = bind (track_dates sc date)
           (fun sc' =>
              bind (orelse IndexError (nth_error (split "," (strip_newlines line)) 2))
                (fun field =>
                   bind (orelse ValueError (py_float field))
                     (fun barpos => accumulate sc' bar barpos line))) st.
Proof.
  unfold stamp_of, date_string, scan_line.
  destruct (re_search record_pattern line) as [m|] eqn:Hm; [|discriminate].
  destruct (re_search_bar _ _ Hm) as (g & bar & Hg & Hb & Hr).
  destruct (re_match stamp_pattern line) as [md|]; [|discriminate].
  destruct (group 1 md) as [g1|]; [|discriminate].
  destruct (group 2 md) as [g2|]; [|discriminate].
  destruct (group 3 md) as [g3|]; [|discriminate].
  destruct (py_int g2) as [d|] eqn:Hi; [|discriminate].
  intros Hd. exists bar. split; [exact Hr|].
  unfold bind, orelse, ret, raise. rewrite Hg. cbn beta iota. rewrite Hb.
  cbn beta iota zeta. rewrite Hi. cbn beta iota. rewrite Hd. reflexivity.
Qed.

(** A line whose stamp does not convert: [strptime] raises. *)
Lemma scan_line_unstamped sc line m s st :
  re_search record_pattern line = Some m ->
  date_string line = Some s ->
  strptime_b_d_HMS s = None ->
  scan_line sc line st = (Raise ValueError, st).
Proof.
  unfold date_string, scan_line. intros Hm.
  destruct (re_search_bar _ _ Hm) as (g & bar & Hg & Hb & Hr). rewrite Hm.
  destruct (re_match stamp_pattern line) as [md|]; [|discriminate].
  destruct (group 1 md) as [g1|]; [|discriminate].
  destruct (group 2 md) as [g2|]; [|discriminate].
  destruct (group 3 md) as [g3|]; [|discriminate].
  destruct (py_int g2) as [d|] eqn:Hi; [|discriminate].
  intros Hs Hd. injection Hs as <-.
  unfold bind, orelse, ret, raise. rewrite Hg. cbn beta iota. rewrite Hb.
  cbn beta iota zeta. rewrite Hi. cbn beta iota.
  cbn [append] in Hd |- *. rewrite Hd. reflexivity.
Qed.

(** The scan of lines that are all skipped prints the ones that hold
    the bar pattern and changes nothing else. *)
Lemma scan_lines_skipped before : forall sc st,
  Forall (fun l => skipped l = true) before ->
  scan_lines before sc st = (Ok sc, emit (flat_map skip_notice before) st).
Proof.
  induction before as [|l rest IH]; intros sc st F.
  - simpl. rewrite emit_nil. reflexivity.
  - inversion F as [|? ? Hl F']; subst. simpl. unfold bind.
    rewrite (scan_line_skipped _ _ _ Hl), (IH _ _ F'), emit_emit. reflexivity.
Qed.

(** *** The overlap check (lines 69 to 78) *)

(** The date of a stamp is dated 1900: it precedes every span that
    starts in 1901 or later. *)
Lemma within_stamp date e :
  stamp date -> 1901 <= DateTime.year (fst (snd e)) -> within date e = false.
Proof.
  intros (Hy & _) He. unfold within, dt_leb, fields. cbn [lex_leb].
  rewrite Hy.
  replace (DateTime.year (fst (snd e)) <? 1900) with false
    by (symmetry; apply Z.ltb_ge; lia).
  replace (1900 <? DateTime.year (fst (snd e))) with true
    by (symmetry; apply Z.ltb_lt; lia).
  reflexivity.
Qed.

Lemma find_within_stamp date spans :
  stamp date ->
  Forall (fun e => 1901 <= DateTime.year (fst (snd e))) spans ->
  find (within date) spans = None.
Proof.
  intros Hd F. induction F as [|e l He F IH]; [reflexivity|].
  simpl. rewrite (within_stamp _ _ Hd He). exact IH.
Qed.

(** [sys.exit] is reached from the overlap check only. *)
Lemma scan_line_exit sc line st :
  fst (scan_line sc line st) = Raise SystemExit ->
  exists date, stamp date /\ find (within date) (filedates st) <> None.
Proof.
  unfold scan_line, bind, orelse, ret, raise.
  destruct (re_search record_pattern line) as [m|]; [|discriminate].
  destruct (group 1 m) as [g|]; [|discriminate]. cbn beta iota.
  destruct (py_int g) as [b|]; [|discriminate]. cbn beta iota.
  destruct (re_match stamp_pattern line) as [md|]; [|discriminate].
  destruct (group 1 md) as [g1|]; [|discriminate]. cbn beta iota.
  destruct (group 2 md) as [g2|]; [|discriminate]. cbn beta iota.
  destruct (group 3 md) as [g3|]; [|discriminate]. cbn beta iota.
  destruct (py_int g2) as [d|]; [|discriminate]. cbn beta iota zeta.
  destruct (strptime_b_d_HMS _) as [date|] eqn:Hd; [|discriminate]. cbn beta iota.
  apply strptime_b_d_HMS_stamp in Hd.
  rewrite track_dates_run.
  destruct (file_start sc) as [fs|]; [|destruct (find (within date) (filedates st)) eqn:Hf];
    cbn beta iota;
    try (intros _; exists date; split; [exact Hd|rewrite Hf; discriminate]);
    (destruct (nth_error (split "," (strip_newlines line)) 2) as [field|];
     [|discriminate]; cbn beta iota;
     destruct (py_float field) as [pos|]; [|discriminate]; cbn beta iota;
     rewrite accumulate_run;
     destruct (Dict.get Z.eqb b _); [|discriminate];
     destruct (moved _ _); [|discriminate];
     destruct (PyList.modify _ _ _); [|discriminate];
     destruct (PyList.modify _ _ _); discriminate).
Qed.

Lemma scan_lines_exit contents : forall sc st,
  fst (scan_lines contents sc st) = Raise SystemExit ->
  exists date, stamp date /\ find (within date) (filedates st) <> None.
Proof.
  induction contents as [|line rest IH]; intros sc st; simpl; [discriminate|].
  unfold bind. destruct (scan_line_any sc line st) as [X _].
  pose proof (scan_line_exit sc line st) as E.
  destruct (scan_line sc line st) as [[sc1|e] st1]; simpl in *.
  - intros H. destruct (IH _ _ H) as (date & Hd & Hf).
    destruct (extends_fields _ _ X) as (F & _). rewrite F in Hf. eauto.
  - exact E.
Qed.

(** The exceptions of lines 91 to 117. *)
Lemma conclude_raises utcnow_year i log_file log_path sc st e :
  fst (conclude utcnow_year i log_file log_path sc st) = Raise e ->
  e = AssertionError \/ e = UnboundLocalError \/ e = ValueError \/ e = KeyError.
Proof.
  unfold conclude.
  unfold bind, orelse, ret, raise, read, write, print.
  destruct (file_start sc) as [start|]; [|intros H; injection H as <-; auto].
  destruct (file_end sc) as [end_|]; [|intros H; injection H as <-; auto].
  cbn beta iota.
  destruct (strptime_Ymd _) as [d|]; quiet.
  - destruct (restamp (DateTime.year d) end_) as [end'|];
      [|intros H; injection H as <-; auto]. quiet.
    destruct (restamp (DateTime.year d - year_iteration sc) start) as [start'|];
      [|intros H; injection H as <-; auto]. quiet.
    destruct (0 <? i); quiet; [|discriminate].
    destruct (last_file st) as [lf|]; [|intros H; injection H as <-; auto]. quiet.
    destruct (Dict.get String.eqb lf _) as [span|];
      [discriminate|intros H; injection H as <-; auto].
  - destruct (folderdt st) as [d|] eqn:Hfd; [|intros H; injection H as <-; auto]. quiet.
    destruct (restamp (DateTime.year d) end_) as [end'|];
      [|intros H; injection H as <-; auto]. quiet.
    rewrite Hfd. quiet.
    destruct (restamp (DateTime.year d - year_iteration sc) start) as [start'|];
      [|intros H; injection H as <-; auto]. quiet.
    destruct (0 <? i); quiet; [|discriminate].
    destruct (last_file st) as [lf|]; [|intros H; injection H as <-; auto]. quiet.
    destruct (Dict.get String.eqb lf _) as [span|];
      [discriminate|intros H; injection H as <-; auto].
Qed.

(** An iteration that exits found the stamp of a line in a recorded span. *)
Lemma process_file_exit logs utcnow_year i log_file st :
  fst (process_file logs utcnow_year i log_file st) = Raise SystemExit ->
  exists date, stamp date /\ find (within date) (filedates st) <> None.
Proof.
  destruct (Dict.get String.eqb (artifact_of log_file) (artifacts st)) as [result|] eqn:Hc.
  - unfold process_file, bind, read. fold (artifact_of log_file). rewrite Hc.
    unfold print, write, orelse, ret, raise. cbn beta iota.
    destruct (Dict.get String.eqb "odometer"%string result); [|discriminate].
    cbn beta iota.
    destruct (Dict.get String.eqb "nmoves"%string result); discriminate.
  - destruct (Dict.get String.eqb log_file logs) as [[contents|]|] eqn:Hl.
    + rewrite (process_file_read _ _ _ _ _ _ Hc Hl).
      pose proof (scan_lines_exit contents initial_scan (opened log_file contents st)) as E.
      destruct (scan_lines contents initial_scan (opened log_file contents st))
        as [[sc|e] st1]; simpl in E.
      * intros H. apply conclude_raises in H.
        destruct H as [H|[H|[H|H]]]; discriminate.
      * simpl. intros H. injection H as ->. destruct (E eq_refl) as (date & Hd & Hf). eauto.
    + rewrite (process_file_undecodable _ _ _ _ _ Hc Hl). discriminate.
    + rewrite (process_file_missing _ _ _ _ _ Hc Hl). discriminate.
Qed.

(** X3. When the stamp of the first dated line of a file, as [strptime]
    returns it, falls in a recorded span, the script prints the warning,
    the stamp and the first such span in the order the spans were
    recorded, and exits: the loop stops, and nothing is stored or cached
    for the file.  The check comes before the position is read and the
    bar is looked up. *)
Theorem overlap_exit logs utcnow_year i log_file before line after date e st :
  Dict.get String.eqb (artifact_of log_file) (artifacts st) = None ->
  Dict.get String.eqb log_file logs = Some (Lines (before ++ line :: after)) ->
  Forall (fun l => skipped l = true) before ->
  stamp_of line = Some date ->
  find (within date) (filedates st) = Some e ->
  exists out,
    process_file logs utcnow_year i log_file st
    = (Raise SystemExit,
       emit (out ++ [FoundOverlap (fst e); PrintDate date; PrintSpan (fst e) (snd e)]) st)
    /\ forall rest,
         process_files logs utcnow_year i (log_file :: rest) st
         = (Raise SystemExit,
            emit (out ++ [FoundOverlap (fst e); PrintDate date; PrintSpan (fst e) (snd e)])
                 st).
Proof.
  intros Hc Hl Hb Hd Hf.
  assert (Sd : stamp date).
  { unfold stamp_of in Hd. destruct (re_search record_pattern line); [|discriminate].
    destruct (date_string line); [|discriminate].
    exact (strptime_b_d_HMS_stamp _ _ Hd). }
  exists ([Reading log_file; Analyzing (List.length (before ++ line :: after))]
          ++ flat_map skip_notice before).
  assert (P : process_file logs utcnow_year i log_file st
              = (Raise SystemExit,
                 emit (([Reading log_file; Analyzing (List.length (before ++ line :: after))]
                        ++ flat_map skip_notice before)
                       ++ [FoundOverlap (fst e); PrintDate date; PrintSpan (fst e) (snd e)])
                      st)).
  { rewrite (process_file_read _ _ _ _ _ _ Hc Hl), scan_lines_app.
    rewrite (scan_lines_skipped _ _ _ Hb). cbn [scan_lines]. unfold bind at 1.
    destruct (scan_line_stamped initial_scan line date
                (emit (flat_map skip_notice before)
                      (opened log_file (before ++ line :: after) st)) Hd)
      as (bar & _ & ->).
    unfold bind at 1. rewrite track_dates_run.
    change (file_start initial_scan) with (@None datetime). cbn beta iota.
    unfold opened. rewrite emit_emit, filedates_emit, Hf.
    unfold rollover_notice. change (month_decimal initial_scan) with 0.
    replace (month date <? 0) with false
      by (symmetry; apply Z.ltb_ge; destruct Sd as (_ & ? & _); lia).
    rewrite emit_emit. reflexivity. }
  split; [exact P|]. intros rest. exact (process_files_raise _ _ _ _ _ _ _ _ P).
Qed.

(** X3, witness.  The directories are dated 19000101 and 19000102: the
    span recorded for the first log holds the stamp of the second. *)
Lemma overlap_exit_witness :
  fst (process_files year_1900_disk 2026 1 [file_1900b] (after year_1900_disk file_1900a))
  = Raise SystemExit.
Proof.
  destruct (overlap_exit year_1900_disk 2026 1 file_1900b []
              (nl "Jan  5 12:00:00 mosfire csu: Record=<01,0,1.0,1>")
              [nl "Jan  6 12:00:00 mosfire csu: Record=<01,0,1.0,1>"]
              (mk_datetime 1900 1 5 12 0 0)
              (file_1900a, (mk_datetime 1900 1 5 12 0 0, mk_datetime 1900 1 6 12 0 0))
              (after year_1900_disk file_1900a))
    as (out & _ & R).
  - vm_compute. reflexivity.
  - vm_compute. reflexivity.
  - apply Forall_nil.
  - vm_compute. reflexivity.
  - vm_compute. reflexivity.
  - rewrite R. reflexivity.
Defined.

(** X4. When every recorded span starts in 1901 or later, no iteration
    takes the exit of the overlap check, whatever the log holds: the
    start of the file is compared as [strptime] returns it, dated
    1900. *)
Theorem overlap_check_inert logs utcnow_year i log_file st :
  Forall (fun e => 1901 <= DateTime.year (fst (snd e))) (filedates st) ->
  fst (process_file logs utcnow_year i log_file st) <> Raise SystemExit.
Proof.
  intros F H. destruct (process_file_exit _ _ _ _ _ H) as (date & Hd & Hf).
  apply Hf. exact (find_within_stamp _ _ Hd F).
Qed.

(** X4, witness.  A span of 2015 is recorded; the log of the next
    directory covers the same days. *)
Lemma overlap_check_inert_witness :
  filedates (after overlapping_disk file_a)
  = [(file_a, (mk_datetime 2015 1 5 12 0 0, mk_datetime 2015 1 6 12 0 0))]
  /\ fst (process_file overlapping_disk 2026 1 file_b (after overlapping_disk file_a))
     <> Raise SystemExit.
Proof.
  assert (F : filedates (after overlapping_disk file_a)
              = [(file_a, (mk_datetime 2015 1 5 12 0 0, mk_datetime 2015 1 6 12 0 0))])
    by (vm_compute; reflexivity).
  split; [exact F|].
  apply overlap_check_inert. rewrite F.
  apply Forall_cons; [cbn; lia|apply Forall_nil].
Defined.

(** X5. A line with the bar pattern and the leading time stamp whose
    date [strptime] refuses (a month name it does not know, a day the
    month does not have in 1900, an hour beyond 23) stops the run with
    [ValueError]; nothing is stored or cached for the file.  No stamp
    that is accepted is a February 29, since 1900 is not a leap year. *)
Theorem unparseable_stamp_aborts logs utcnow_year i log_file before line after m s st :
  Dict.get String.eqb (artifact_of log_file) (artifacts st) = None ->
  Dict.get String.eqb log_file logs = Some (Lines (before ++ line :: after)) ->
  Forall well_formed before ->
  (forall r, hd_error (records before) = Some r ->
             overlaps (date_of r) (filedates st) = false) ->
  re_search record_pattern line = Some m ->
  date_string line = Some s ->
  strptime_b_d_HMS s = None ->
  (exists st',
     process_file logs utcnow_year i log_file st = (Raise ValueError, st')
     /\ (forall rest, process_files logs utcnow_year i (log_file :: rest) st
                      = (Raise ValueError, st'))
     /\ artifacts st' = artifacts st /\ odometers st' = odometers st
     /\ moves st' = moves st)
  /\ (forall l date, stamp_of l = Some date -> ~ (month date = 2 /\ day date = 29)).
Proof.
  intros Hc Hl W Ho Hm Hs Hd. split.
  - set (st0 := opened log_file (before ++ line :: after) st).
    destruct (scan_lines_progress before initial_scan [] st0 tracks_initial W)
      as (sc & st1 & E).
    { intros _ r Hr. exact (Ho r Hr). }
    destruct (scan_lines_tracks _ _ _ _ _ _ tracks_initial E) as [_ X].
    assert (X0 : extends st st1).
    { apply (extends_trans _ st0); [eexists; reflexivity|exact X]. }
    destruct (extends_fields _ _ X0) as (_ & Fod & Fmv & Far & _).
    assert (P : process_file logs utcnow_year i log_file st = (Raise ValueError, st1)).
    { rewrite (process_file_read _ _ _ _ _ _ Hc Hl), scan_lines_app.
      fold st0. rewrite E. cbn [scan_lines]. unfold bind.
      rewrite (scan_line_unstamped _ _ _ _ _ Hm Hs Hd). reflexivity. }
    exists st1. split; [exact P|]. split.
    + intros rest. exact (process_files_raise _ _ _ _ _ _ _ _ P).
    + auto.
  - intros l date H [Hmo Hda].
    assert (Sd : stamp date).
    { unfold stamp_of in H. destruct (re_search record_pattern l); [|discriminate].
      destruct (date_string l); [|discriminate].
      exact (strptime_b_d_HMS_stamp _ _ H). }
    destruct Sd as (_ & _ & Hday & _). rewrite Hmo, Hda in Hday.
    change (days_in_month 1900 2) with 28 in Hday. lia.
Qed.

(** X5, witness.  A log that runs from February 28 into February 29. *)
Lemma unparseable_stamp_aborts_witness :
  date_string leap_day_line = Some "Feb 29 00:00:01"%string
  /\ fst (process_file leap_day_disk 2026 0 file_d cold) = Raise ValueError.
Proof.
  assert (D : date_string leap_day_line = Some "Feb 29 00:00:01"%string)
    by (vm_compute; reflexivity).
  split; [exact D|].
  destruct (unparseable_stamp_aborts leap_day_disk 2026 0 file_d
              [nl "Feb 28 23:59:59 mosfire csu: Record=<01,0,1.0,1>"]
              leap_day_line
              [nl "Mar  1 00:00:01 mosfire csu: Record=<01,0,3.0,1>"]
              (["01"%string], nl "0,2.0,1>") "Feb 29 00:00:01"%string cold)
    as [(st' & P & _) _].
  - vm_compute. reflexivity.
  - vm_compute. reflexivity.
  - apply Forall_cons; [|apply Forall_nil].
    right. eexists. split; [vm_compute; reflexivity|cbn; lia].
  - intros r _. reflexivity.
  - vm_compute. reflexivity.
  - exact D.
  - vm_compute. reflexivity.
  - rewrite P. reflexivity.
Defined.

(** *** The list of log files (lines 22 and 23) *)

Lemma ascii_compare_cases a b :
  match Ascii.compare a b with
  | Eq => a = b
  | Lt => (N_of_ascii a < N_of_ascii b)%N
  | Gt => (N_of_ascii b < N_of_ascii a)%N
  end.
Proof.
  destruct (Ascii.compare a b) eqn:E.
  - exact (Ascii.compare_eq_iff _ _ E).
  - unfold Ascii.compare in E. apply N.compare_lt_iff in E. exact E.
  - unfold Ascii.compare in E. apply N.compare_gt_iff in E. exact E.
Qed.

(** The order of Python on strings, code point by code point, is
    transitive. *)
Lemma string_leb_trans a : forall b c,
  String.leb a b = true -> String.leb b c = true -> String.leb a c = true.
Proof.
  unfold String.leb.
  induction a as [|x a IH]; intros [|y b] [|z c]; simpl; try reflexivity; try discriminate.
  pose proof (ascii_compare_cases x y) as Hxy.
  pose proof (ascii_compare_cases y z) as Hyz.
  pose proof (ascii_compare_cases x z) as Hxz.
  destruct (Ascii.compare x y), (Ascii.compare y z), (Ascii.compare x z);
    subst; try reflexivity; try discriminate; try lia;
    try (intros; exfalso; lia); try apply IH.
Qed.

Lemma insert_sorted_perm p l : Permutation (insert_sorted p l) (p :: l).
Proof.
  induction l as [|q l IH]; simpl; [apply Permutation_refl|].
  destruct (String.leb p q); [apply Permutation_refl|].
  apply (perm_trans (perm_skip q IH)). apply perm_swap.
Qed.

Lemma sorted_perm l : Permutation (sorted l) l.
Proof.
  induction l as [|p l IH]; simpl; [apply perm_nil|].
  apply (perm_trans (insert_sorted_perm p (sorted l))). apply perm_skip. exact IH.
Qed.

Lemma insert_sorted_sorted p l :
  StronglySorted string_le l -> StronglySorted string_le (insert_sorted p l).
Proof.
  induction 1 as [|q l S IH F]; simpl.
  - apply SSorted_cons; [apply SSorted_nil|apply Forall_nil].
  - destruct (String.leb p q) eqn:E.
    + apply SSorted_cons; [apply SSorted_cons; assumption|].
      apply Forall_cons; [exact E|].
      apply (Forall_impl (string_le p) (P := string_le q)); [|exact F].
      intros r Hr. exact (string_leb_trans _ _ _ E Hr).
    + apply SSorted_cons; [exact IH|].
      apply (Permutation_Forall (Permutation_sym (insert_sorted_perm p l))).
      apply Forall_cons; [|exact F].
      destruct (String.leb_total p q) as [H|H]; [congruence|exact H].
Qed.

Lemma sorted_sorted l : StronglySorted string_le (sorted l).
Proof.
  induction l as [|p l IH]; simpl; [apply SSorted_nil|].
  apply insert_sorted_sorted. exact IH.
Qed.

(** Two sorted lists with the same elements are the same list. *)
Lemma sorted_unique l : forall l',
  StronglySorted string_le l -> StronglySorted string_le l' ->
  Permutation l l' -> l = l'.
Proof.
  induction l as [|p l IH]; intros l' S S' P.
  - apply Permutation_nil in P. congruence.
  - destruct l' as [|q l']; [apply Permutation_sym, Permutation_nil in P; discriminate|].
    inversion S as [|? ? S1 F1]; subst. inversion S' as [|? ? S2 F2]; subst.
    assert (E : p = q).
    { assert (Hp : In p (q :: l')) by (apply (Permutation_in _ P); left; reflexivity).
      assert (Hq : In q (p :: l))
        by (apply (Permutation_in _ (Permutation_sym P)); left; reflexivity).
      destruct Hp as [->|Hp]; [reflexivity|].
      destruct Hq as [->|Hq]; [reflexivity|].
      rewrite Forall_forall in F1, F2.
      apply String.leb_antisym; [apply (F1 q Hq)|apply (F2 p Hp)]. }
    subst q. f_equal. apply IH; try assumption.
    exact (Permutation_cons_inv P).
Qed.

(** X6. The order in which the logs are processed does not depend on the
    order in which [glob] returns them: they are taken in ascending
    order of their paths, each once per occurrence, and the operational
    log comes last; so the whole run is the same for any two orders of
    the same paths. *)
Theorem log_files_order globbed globbed' :
  Permutation globbed globbed' ->
  log_files globbed = log_files globbed'
  /\ (exists l, log_files globbed = l ++ ["/sdata1300/syslogs/CSU.log"%string]
                /\ StronglySorted string_le l /\ Permutation l globbed)
  /\ (forall logs utcnow_year st,
        main logs utcnow_year globbed st = main logs utcnow_year globbed' st).
Proof.
  intros P.
  assert (E : sorted globbed = sorted globbed').
  { apply sorted_unique; try apply sorted_sorted.
    apply (perm_trans (sorted_perm globbed)).
    apply (perm_trans P). apply Permutation_sym, sorted_perm. }
  assert (L : log_files globbed = log_files globbed').
  { unfold log_files. rewrite E. reflexivity. }
  split; [exact L|]. split.
  - exists (sorted globbed). split; [reflexivity|].
    split; [apply sorted_sorted|apply sorted_perm].
  - intros logs utcnow_year st. unfold main. rewrite L. reflexivity.
Qed.

(** X6, witness.  Two directories, returned in either order. *)
Lemma log_files_order_witness :
  log_files [file_b; file_a] = [file_a; file_b; syslog]
  /\ log_files [file_a; file_b] = [file_a; file_b; syslog].
Proof.
  destruct (log_files_order [file_b; file_a] [file_a; file_b] (perm_swap _ _ _))
    as (E & _).
  rewrite <- E. split; vm_compute; reflexivity.
Defined.

(** *** The tables and the cache *)

Lemma agrees_initial on_disk : agrees (initial_state on_disk).
Proof. intros f. split; intros x H; discriminate. Qed.

(** What an iteration that completes does to the tables and the
    artifacts: it stores the arrays of the artifact of the directory,
    which it has just written or found on disk, or it skips an
    undecodable file. *)
Lemma process_file_cases logs utcnow_year i f st st' :
  process_file logs utcnow_year i f st = (Ok tt, st') ->
  (exists o n result,
     odometers st' = Dict.set String.eqb f o (odometers st)
     /\ moves st' = Dict.set String.eqb f n (moves st)
     /\ Dict.get String.eqb (artifact_of f) (artifacts st') = Some result
     /\ Dict.get String.eqb "odometer"%string result = Some o
     /\ Dict.get String.eqb "nmoves"%string result = Some n
     /\ (artifacts st' = artifacts st
         \/ Dict.get String.eqb (artifact_of f) (artifacts st) = None
            /\ artifacts st' = Dict.set String.eqb (artifact_of f) result (artifacts st)))
  \/ (Dict.get String.eqb f logs = Some Undecodable
      /\ odometers st' = odometers st /\ moves st' = moves st
      /\ artifacts st' = artifacts st).
Proof.
  intros H.
  destruct (Dict.get String.eqb (artifact_of f) (artifacts st)) as [result|] eqn:Hc.
  - left. assert (H' := H).
    unfold process_file, bind, read in H'. fold (artifact_of f) in H'.
    rewrite Hc in H'. unfold print, write, orelse, ret, raise in H'. cbn beta iota in H'.
    destruct (Dict.get String.eqb "odometer"%string result) as [o|] eqn:Ho; [|discriminate].
    cbn beta iota in H'.
    destruct (Dict.get String.eqb "nmoves"%string result) as [n|] eqn:Hn; [|discriminate].
    injection H' as <-. exists o, n, result. cbn. auto 10.
  - destruct (Dict.get String.eqb f logs) as [[contents|]|] eqn:Hl.
    + left. destruct (process_file_fresh _ _ _ _ _ _ _ Hc Hl H)
        as (sc & st1 & start & end_ & fd & start' & end'
            & E & T & Hs & He & Ha & Re & Rs & Hf & Ho & Hm & Hz).
      exists (mileage sc), (nmoves sc),
        [("odometer"%string, mileage sc); ("nmoves"%string, nmoves sc)].
      rewrite Ho, Hm, Hz, Sget_set_same.
      repeat (split; [reflexivity|]). right. split; reflexivity.
    + right. rewrite (process_file_undecodable _ _ _ _ _ Hc Hl) in H.
      injection H as <-. repeat split.
    + rewrite (process_file_missing _ _ _ _ _ Hc Hl) in H. discriminate.
Qed.

Lemma process_file_agrees logs utcnow_year i f st st' :
  agrees st ->
  process_file logs utcnow_year i f st = (Ok tt, st') ->
  agrees st'
  /\ (has_result st' f \/ Dict.get String.eqb f logs = Some Undecodable)
  /\ (forall g, has_result st g -> has_result st' g).
Proof.
  intros A H.
  destruct (process_file_cases _ _ _ _ _ _ H)
    as [(o & n & result & Ho & Hm & Ha & Ro & Rn & Hz)|(Hl & Ho & Hm & Hz)].
  - assert (K : forall a r, Dict.get String.eqb a (artifacts st) = Some r ->
                            Dict.get String.eqb a (artifacts st') = Some r).
    { intros a r Hr. destruct Hz as [->|[Hn ->]]; [exact Hr|].
      rewrite Sget_set_other; [exact Hr|]. intros ->. congruence. }
    split; [|split].
    + intros g. rewrite Ho, Hm.
      destruct (String.eqb_spec g f) as [->|Hne].
      * rewrite !Sget_set_same. split; intros x Hx; injection Hx as <-; eauto.
      * rewrite !Sget_set_other by exact Hne.
        destruct (A g) as [A1 A2]. split; intros x Hx.
        -- destruct (A1 x Hx) as (r & Hr & Hrx). eauto.
        -- destruct (A2 x Hx) as (r & Hr & Hrx). eauto.
    + left. exists o, n. rewrite Ho, Hm, !Sget_set_same. split; reflexivity.
    + intros g (o' & n' & G1 & G2). unfold has_result. rewrite Ho, Hm.
      destruct (String.eqb_spec g f) as [->|Hne].
      * rewrite !Sget_set_same. eauto.
      * rewrite !Sget_set_other by exact Hne. eauto.
  - split; [|split].
    + intros g. rewrite Ho, Hm, Hz. exact (A g).
    + right. exact Hl.
    + intros g. unfold has_result. rewrite Ho, Hm. auto.
Qed.

Lemma process_files_agrees logs utcnow_year files : forall i st st',
  agrees st ->
  process_files logs utcnow_year i files st = (Ok tt, st') ->
  agrees st'
  /\ (forall f, In f files ->
                has_result st' f \/ Dict.get String.eqb f logs = Some Undecodable)
  /\ (forall g, has_result st g -> has_result st' g).
Proof.
  induction files as [|f rest IH]; intros i st st' A H.
  - simpl in H. injection H as <-. split; [exact A|]. split; [intros f []|auto].
  - simpl in H. unfold bind in H.
    destruct (process_file logs utcnow_year i f st) as [[[]|e] st1] eqn:P; [|discriminate].
    destruct (process_file_agrees _ _ _ _ _ _ A P) as (A1 & R1 & M1).
    destruct (IH _ _ _ A1 H) as (A2 & R2 & M2).
    split; [exact A2|]. split.
    + intros g [<-|Hg]; [|exact (R2 g Hg)].
      destruct R1 as [R1|R1]; [left; exact (M2 _ R1)|right; exact R1].
    + intros g Hg. exact (M2 g (M1 g Hg)).
Qed.

Lemma process_files_persist logs utcnow_year files : forall i st st' a r,
  Dict.get String.eqb a (artifacts st) = Some r ->
  process_files logs utcnow_year i files st = (Ok tt, st') ->
  Dict.get String.eqb a (artifacts st') = Some r.
Proof.
  induction files as [|f rest IH]; intros i st st' a r Ha H.
  - simpl in H. injection H as <-. exact Ha.
  - simpl in H. unfold bind in H.
    destruct (process_file logs utcnow_year i f st) as [[[]|e] st1] eqn:P; [|discriminate].
    exact (IH _ _ _ _ _ (artifacts_persist _ _ _ _ _ _ _ _ Ha P) H).
Qed.

(** The loop over files that are all cached loads each from the
    artifact of its directory and reads no log. *)
Lemma process_files_replay logs utcnow_year files : forall i st,
  Forall (fun f => cached (artifacts st) f = true) files ->
  exists st',
    process_files logs utcnow_year i files st = (Ok tt, st')
    /\ artifacts st' = artifacts st
    /\ filedates st' = filedates st
    /\ stdout st' = stdout st ++ map (fun f => Loading (artifact_of f)) files
    /\ (forall f result, In f files ->
          Dict.get String.eqb (artifact_of f) (artifacts st) = Some result ->
          Dict.get String.eqb f (odometers st')
          = Dict.get String.eqb "odometer"%string result
          /\ Dict.get String.eqb f (moves st')
             = Dict.get String.eqb "nmoves"%string result)
    /\ (forall g, ~ In g files ->
          Dict.get String.eqb g (odometers st') = Dict.get String.eqb g (odometers st)
          /\ Dict.get String.eqb g (moves st') = Dict.get String.eqb g (moves st)).
Proof.
  induction files as [|f rest IH]; intros i st F.
  - exists st. simpl. rewrite app_nil_r.
    split; [reflexivity|]. split; [reflexivity|]. split; [reflexivity|].
    split; [reflexivity|]. split; [intros g r []|intros g _; split; reflexivity].
  - inversion F as [|? ? Hf F']; subst.
    assert (Hf' := Hf). unfold cached in Hf'.
    destruct (Dict.get String.eqb (artifact_of f) (artifacts st)) as [result|] eqn:Ha;
      [|discriminate].
    destruct (Dict.get String.eqb "odometer"%string result) as [o|] eqn:Ho; [|discriminate].
    destruct (Dict.get String.eqb "nmoves"%string result) as [n|] eqn:Hn; [|discriminate].
    pose proof (process_file_warm logs utcnow_year i _ _ _ _ _ Ha Ho Hn) as P.
    destruct (loaded_tables f o n st) as (T1 & T2 & T3 & T4 & T5).
    destruct (IH (i + 1) (loaded f o n st)) as (st' & Q & A & B & C & D & E).
    { rewrite T4. exact F'. }
    exists st'. split; [|split; [|split; [|split; [|split]]]].
    + simpl. unfold bind. rewrite P. exact Q.
    + rewrite A, T4. reflexivity.
    + rewrite B, T3. reflexivity.
    + rewrite C, T5. simpl. rewrite <- app_assoc. reflexivity.
    + intros g r [<-|Hg] Hr.
      * rewrite Ha in Hr. injection Hr as <-.
        destruct (in_dec string_dec f rest) as [Hin|Hout].
        -- apply (D f result Hin). rewrite T4. exact Ha.
        -- destruct (E f Hout) as [E1 E2]. rewrite E1, E2, T1, T2, Ho, Hn.
           split; reflexivity.
      * apply (D g r Hg). rewrite T4. exact Hr.
    + intros g Hg. destruct (E g) as [E1 E2]; [intros Hin; apply Hg; right; exact Hin|].
      rewrite E1, E2. unfold loaded.
      cbn [odometers moves set_moves set_odometers emit set_stdout].
      assert (Hne : g <> f) by (intros ->; apply Hg; left; reflexivity).
      rewrite !Sget_set_other by exact Hne. split; reflexivity.
Qed.

(** X7. When the loop over the log files completes, the arrays the two
    tables hold for a file are those of the [odometer.json] of its
    directory, every artifact that was on disk before the run is still
    there unchanged, and every listed file has its arrays in the tables
    unless its bytes do not decode. *)
Theorem tables_agree_with_cache logs utcnow_year on_disk files st' :
  process_files logs utcnow_year 0 files (initial_state on_disk) = (Ok tt, st') ->
  agrees st'
  /\ (forall a r, Dict.get String.eqb a on_disk = Some r ->
                  Dict.get String.eqb a (artifacts st') = Some r)
  /\ (forall f, In f files ->
                has_result st' f \/ Dict.get String.eqb f logs = Some Undecodable).
Proof.
  intros H.
  destruct (process_files_agrees _ _ _ _ _ _ (agrees_initial on_disk) H) as (A & R & _).
  split; [exact A|]. split; [|exact R].
  intros a r Ha.
  exact (process_files_persist logs utcnow_year files 0 (initial_state on_disk) st' a r Ha H).
Qed.

(** X7, witness.  A run over [moving_bar] and the operational log. *)
Lemma tables_agree_with_cache_witness :
  agrees (after_loop moving_disk [file_a])
  /\ has_result (after_loop moving_disk [file_a]) file_a
  /\ has_result (after_loop moving_disk [file_a]) syslog.
Proof.
  assert (H : process_files moving_disk 2026 0 (log_files [file_a]) (initial_state [])
              = (Ok tt, after_loop moving_disk [file_a]))
    by (vm_compute; reflexivity).
  destruct (tables_agree_with_cache moving_disk 2026 [] (log_files [file_a]) _ H)
    as (A & _ & R).
  split; [exact A|]. split.
  - destruct (R file_a) as [K|K]; [left; reflexivity|exact K|].
    vm_compute in K. discriminate.
  - destruct (R syslog) as [K|K]; [right; left; reflexivity|exact K|].
    vm_compute in K. discriminate.
Defined.

(** X8. A loop that completed without skipping a file can be replayed
    from the artifacts it left: the next run, whatever the logs then
    hold, reads none of them, prints one loading message per file and
    ends with the same arrays in the tables for every listed file. *)
Theorem loop_replays_from_cache logs utcnow_year on_disk files st1 logs' utcnow_year' :
  process_files logs utcnow_year 0 files (initial_state on_disk) = (Ok tt, st1) ->
  (forall f, In f files -> Dict.get String.eqb f logs <> Some Undecodable) ->
  exists st2,
    process_files logs' utcnow_year' 0 files (initial_state (artifacts st1)) = (Ok tt, st2)
    /\ artifacts st2 = artifacts st1
    /\ stdout st2 = map (fun f => Loading (artifact_of f)) files
    /\ forall f, In f files ->
         Dict.get String.eqb f (odometers st2) = Dict.get String.eqb f (odometers st1)
         /\ Dict.get String.eqb f (moves st2) = Dict.get String.eqb f (moves st1).
Proof.
  intros H U.
  destruct (process_files_agrees _ _ _ _ _ _ (agrees_initial on_disk) H) as (A & R & _).
  assert (K : forall f, In f files ->
                exists result o n,
                  Dict.get String.eqb (artifact_of f) (artifacts st1) = Some result
                  /\ Dict.get String.eqb "odometer"%string result = Some o
                  /\ Dict.get String.eqb "nmoves"%string result = Some n
                  /\ Dict.get String.eqb f (odometers st1) = Some o
                  /\ Dict.get String.eqb f (moves st1) = Some n).
  { intros f Hf. destruct (R f Hf) as [(o & n & Ho & Hn)|Hu]; [|destruct (U f Hf Hu)].
    destruct (A f) as [A1 A2].
    destruct (A1 o Ho) as (r1 & Hr1 & Hro). destruct (A2 n Hn) as (r2 & Hr2 & Hrn).
    rewrite Hr1 in Hr2. injection Hr2 as <-. exists r1, o, n. auto. }
  destruct (process_files_replay logs' utcnow_year' files 0 (initial_state (artifacts st1)))
    as (st2 & Q & B & _ & C & D & _).
  { apply Forall_forall. intros f Hf.
    destruct (K f Hf) as (r & o & n & Hr & Ho & Hn & _).
    unfold cached. cbn [artifacts initial_state]. rewrite Hr, Ho, Hn. reflexivity. }
  exists st2. split; [exact Q|]. split; [exact B|]. split; [exact C|].
  intros f Hf. destruct (K f Hf) as (r & o & n & Hr & Ho & Hn & To & Tn).
  destruct (D f r Hf Hr) as [D1 D2]. rewrite D1, D2, Ho, Hn, To, Tn. split; reflexivity.
Qed.

(** X8, witness.  The run over [moving_bar] and the operational log,
    replayed when no log is left on disk. *)
Lemma loop_replays_from_cache_witness :
  exists st2,
    process_files [] 2030 0 (log_files [file_a])
      (initial_state (artifacts (after_loop moving_disk [file_a]))) = (Ok tt, st2)
    /\ stdout st2 = [Loading (artifact_of file_a); Loading (artifact_of syslog)]
    /\ Dict.get String.eqb file_a (odometers st2)
       = Dict.get String.eqb file_a (odometers (after_loop moving_disk [file_a])).
Proof.
  assert (H : process_files moving_disk 2026 0 (log_files [file_a]) (initial_state [])
              = (Ok tt, after_loop moving_disk [file_a]))
    by (vm_compute; reflexivity).
  destruct (loop_replays_from_cache moving_disk 2026 [] (log_files [file_a]) _ [] 2030 H)
    as (st2 & Q & _ & C & D).
  - intros f Hf Hu.
    assert (L : log_files [file_a] = [file_a; syslog]) by (vm_compute; reflexivity).
    rewrite L in Hf. destruct Hf as [<-|[<-|[]]]; vm_compute in Hu; discriminate.
  - exists st2. split; [exact Q|]. split.
    + rewrite C. vm_compute. reflexivity.
    + destruct (D file_a) as [D1 _]; [|exact D1].
      assert (L : log_files [file_a] = [file_a; syslog]) by (vm_compute; reflexivity).
      rewrite L. left. reflexivity.
Defined.

(** *** The shape of the arrays stored for a file *)

Lemma consecutive_pairs_length {A} (l : list A) :
  List.length (consecutive_pairs l) = Nat.pred (List.length l).
Proof.
  unfold consecutive_pairs. rewrite length_combine.
  destruct l as [|x l]; [reflexivity|]. cbn [tl List.length Nat.pred].
  apply Nat.min_r. lia.
Qed.

Lemma spec_nmoves_bound l :
  0 <= spec_nmoves l <= Z.of_nat (Nat.pred (List.length l)).
Proof.
  unfold spec_nmoves. pose proof (filter_length_le counted (consecutive_pairs l)) as H.
  rewrite consecutive_pairs_length in H. lia.
Qed.

(** A sum that has become a float stays one. *)
Lemma fold_py_add_float l : forall x,
  exists y, fold_left py_add (map travel l) (PyFloat x) = PyFloat y.
Proof.
  induction l as [|p l IH]; intros x; simpl; [eauto|]. apply IH.
Qed.

(** The mileage of a bar is the integer 0 it starts from until a move
    is counted, and a float from then on. *)
Lemma spec_mileage_kind l :
  (spec_nmoves l = 0 -> spec_mileage l = PyInt 0)
  /\ (0 < spec_nmoves l -> exists x, spec_mileage l = PyFloat x).
Proof.
  unfold spec_nmoves, spec_mileage.
  destruct (filter counted (consecutive_pairs l)) as [|p ps]; simpl.
  - split; [reflexivity|lia].
  - split; [lia|]. intros _. apply fold_py_add_float.
Qed.

(** X9. The two arrays stored and cached for a file read with a cold
    cache have 92 entries each; the entry of a bar in the move counts is
    an integer between 0 and the number of its records less one, and
    its entry in the mileage is the integer 0 when no move was counted
    and a float otherwise. *)
Theorem stored_arrays_shape logs utcnow_year i log_file contents st st' :
  Dict.get String.eqb (artifact_of log_file) (artifacts st) = None ->
  Dict.get String.eqb log_file logs = Some (Lines contents) ->
  process_file logs utcnow_year i log_file st = (Ok tt, st') ->
  exists nmoves mileage,
    Dict.get String.eqb log_file (moves st') = Some nmoves
    /\ Dict.get String.eqb log_file (odometers st') = Some mileage
    /\ Dict.get String.eqb (artifact_of log_file) (artifacts st')
       = Some [("odometer"%string, mileage); ("nmoves"%string, nmoves)]
    /\ List.length nmoves = 92%nat /\ List.length mileage = 92%nat
    /\ forall bar, 1 <= bar <= 92 ->
         exists k,
           nth_error nmoves (Z.to_nat (bar - 1)) = Some (PyInt k)
           /\ 0 <= k <= Z.of_nat (Nat.pred (List.length (positions bar (records contents))))
           /\ (k = 0 -> nth_error mileage (Z.to_nat (bar - 1)) = Some (PyInt 0))
           /\ (0 < k -> exists x,
                 nth_error mileage (Z.to_nat (bar - 1)) = Some (PyFloat x)).
Proof.
  intros Hc Hl H.
  destruct (process_file_fresh _ _ _ _ _ _ _ Hc Hl H)
    as (sc & st1 & start & end_ & fd & start' & end'
        & E & T & Hs & He & Ha & Re & Rs & Hf & Ho & Hm & Hz).
  exists (nmoves sc), (mileage sc).
  rewrite Ho, Hm, Hz, !Sget_set_same.
  split; [reflexivity|]. split; [reflexivity|]. split; [reflexivity|].
  split; [exact (tr_nmoves_len _ _ T)|]. split; [exact (tr_mileage_len _ _ T)|].
  intros bar Hb. exists (spec_nmoves (positions bar (records contents))).
  split; [exact (tr_nmoves _ _ T bar Hb)|].
  split; [apply spec_nmoves_bound|].
  destruct (spec_mileage_kind (positions bar (records contents))) as [K0 K1].
  rewrite (tr_mileage _ _ T bar Hb). split.
  - intros Hk. rewrite (K0 Hk). reflexivity.
  - intros Hk. destruct (K1 Hk) as [x ->]. eauto.
Qed.

(** X9, witness.  In [moving_bar], bar 5 moved once and bar 6 never. *)
Lemma stored_arrays_shape_witness :
  exists nmoves mileage,
    Dict.get String.eqb file_a (moves (after moving_disk file_a)) = Some nmoves
    /\ Dict.get String.eqb file_a (odometers (after moving_disk file_a)) = Some mileage
    /\ List.length nmoves = 92%nat /\ List.length mileage = 92%nat
    /\ nth_error mileage 5 = Some (PyInt 0)
    /\ exists x, nth_error mileage 4 = Some (PyFloat x).
Proof.
  assert (H1 : Dict.get String.eqb (artifact_of file_a) (artifacts cold) = None)
    by (vm_compute; reflexivity).
  assert (H2 : Dict.get String.eqb file_a moving_disk = Some (Lines moving_bar))
    by (vm_compute; reflexivity).
  assert (H3 : process_file moving_disk 2026 0 file_a cold
               = (Ok tt, after moving_disk file_a))
    by (vm_compute; reflexivity).
  destruct (stored_arrays_shape moving_disk 2026 0 file_a moving_bar cold
              (after moving_disk file_a) H1 H2 H3)
    as (nm & mi & A & B & _ & L1 & L2 & K).
  exists nm, mi. split; [exact A|]. split; [exact B|].
  split; [exact L1|]. split; [exact L2|]. split.
  - destruct (K 6) as (k & Hk & _ & K0 & _); [lia|].
    apply K0. vm_compute in A. injection A as <-. vm_compute in Hk. congruence.
  - destruct (K 5) as (k & Hk & _ & _ & K1); [lia|].
    apply K1. vm_compute in A. injection A as <-. vm_compute in Hk.
    injection Hk as <-. lia.
Defined.

(** *** The summation (lines 123 to 127) *)

Lemma array_ints92 l :
  ints92 l -> NumPy.array l = NumPy.Int64 (map NumPy.int_value l).
Proof.
  intros [Hn Hf]. unfold NumPy.array. rewrite Hf.
  destruct l; [discriminate|reflexivity].
Qed.

Lemma zip_with_length {A B C} (f : A -> B -> C) l r :
  List.length l = List.length r -> List.length (NumPy.zip_with f l r) = List.length l.
Proof.
  intros H. unfold NumPy.zip_with. rewrite length_map, length_combine, <- H.
  apply Nat.min_id.
Qed.

Lemma broadcast_92 {A} (l : list A) :
  List.length l = 92%nat -> NumPy.broadcast 92 l = l.
Proof.
  destruct l as [|x [|y l]]; try discriminate. reflexivity.
Qed.

(** Adding an array of 92 integers to one keeps it one. *)
Lemma iadd_ints92 x l :
  List.length x = 92%nat -> ints92 l ->
  exists y, NumPy.iadd (NumPy.Int64 x) (NumPy.array l) = inl (NumPy.Int64 y)
            /\ List.length y = 92%nat.
Proof.
  intros Hx Hl. rewrite (array_ints92 _ Hl). destruct Hl as [Hn _].
  unfold NumPy.iadd, NumPy.shapes_agree. cbn [NumPy.size].
  rewrite length_map, Hn, Hx. cbn [Nat.eqb orb].
  rewrite broadcast_92 by (rewrite length_map; exact Hn).
  eexists. split; [reflexivity|].
  rewrite zip_with_length; [exact Hx|]. rewrite length_map. congruence.
Qed.

(** A list holding a float, or an integer beyond 64 bits, does not
    become an integer array, and [+=] refuses it. *)
Lemma iadd_not_ints x l :
  l <> [] -> forallb NumPy.fits64 l = false ->
  NumPy.iadd (NumPy.Int64 x) (NumPy.array l) = inr NumPy.CastError.
Proof.
  intros Hne Hf. unfold NumPy.array. destruct l as [|p l]; [congruence|].
  rewrite Hf. destruct (forallb NumPy.is_int (p :: l)); reflexivity.
Qed.

Lemma sum_results_ints pre : forall rest a b st,
  List.length a = 92%nat -> List.length b = 92%nat ->
  Forall (integer_result st) pre ->
  exists a' b',
    sum_results (pre ++ rest) (NumPy.Int64 a, NumPy.Int64 b) st
    = sum_results rest (NumPy.Int64 a', NumPy.Int64 b') st
    /\ List.length a' = 92%nat /\ List.length b' = 92%nat.
Proof.
  induction pre as [|g pre IH]; intros rest a b st Ha Hb F.
  - exists a, b. auto.
  - inversion F as [|? ? (m & o & Hm & Ho & Im & Io) F']; subst.
    destruct (iadd_ints92 a m Ha Im) as (a1 & E1 & L1).
    destruct (iadd_ints92 b o Hb Io) as (b1 & E2 & L2).
    destruct (IH rest a1 b1 st L1 L2 F') as (a' & b' & Q & La & Lb).
    exists a', b'. split; [|auto].
    cbn [app sum_results]. unfold numpy, bind, read, orelse, ret, raise.
    rewrite Hm. cbn [fst snd]. rewrite E1. cbn beta iota. rewrite Ho. cbn beta iota.
    rewrite E2. exact Q.
Qed.

Lemma zeros_int64 : zeros = NumPy.Int64 (repeat 0 92).
Proof. reflexivity. Qed.

Lemma not_all_ints l k x :
  nth_error l k = Some (PyFloat x) -> l <> [] /\ forallb NumPy.fits64 l = false.
Proof.
  intros H. split; [destruct l; [destruct k; discriminate|discriminate]|].
  apply nth_error_In in H.
  destruct (forallb NumPy.fits64 l) eqn:E; [|reflexivity].
  rewrite forallb_forall in E. specialize (E _ H). discriminate.
Qed.

(** X10. The summation raises [TypeError] at the first listed file whose
    mileage list holds a float, that is, in which a bar moved, when the
    files before it hold arrays of 92 integers; when every listed file
    holds such arrays, the summation completes with integer arrays and
    it is the division by 1000 that raises [TypeError]. *)
Theorem summation_stops_at_first_move st :
  (forall pre f rest m o k x,
     Forall (integer_result st) pre ->
     Dict.get String.eqb f (moves st) = Some m -> ints92 m ->
     Dict.get String.eqb f (odometers st) = Some o ->
     nth_error o k = Some (PyFloat x) ->
     sum_results (pre ++ f :: rest) (zeros, zeros) st = (Raise TypeError, st))
  /\ (forall files,
        Forall (integer_result st) files ->
        exists a b,
          sum_results files (zeros, zeros) st = (Ok (NumPy.Int64 a, NumPy.Int64 b), st)
          /\ numpy (NumPy.itruediv (NumPy.Int64 b) 1000) st = (Raise TypeError, st)).
Proof.
  split.
  - intros pre f rest m o k x F Hm Im Ho Hx.
    rewrite zeros_int64.
    destruct (sum_results_ints pre (f :: rest) (repeat 0 92) (repeat 0 92) st)
      as (a & b & Q & La & Lb); try reflexivity; [exact F|].
    rewrite Q. destruct (iadd_ints92 a m La Im) as (a1 & E1 & _).
    destruct (not_all_ints _ _ _ Hx) as [Hne Hf].
    cbn [sum_results]. unfold numpy, bind, read, orelse, ret, raise.
    rewrite Hm. cbn [fst snd]. rewrite E1. cbn beta iota. rewrite Ho. cbn beta iota.
    rewrite (iadd_not_ints b o Hne Hf). reflexivity.
  - intros files F. rewrite zeros_int64.
    destruct (sum_results_ints files [] (repeat 0 92) (repeat 0 92) st)
      as (a & b & Q & _); try reflexivity; [exact F|].
    rewrite app_nil_r in Q. exists a, b. split; [exact Q|reflexivity].
Qed.

(** X10, witness.  After the loop over [moving_bar] and the operational
    log, the mileage of the first file holds 2.5 for bar 5. *)
Lemma summation_stops_at_first_move_witness :
  sum_results (log_files [file_a]) (zeros, zeros) (after_loop moving_disk [file_a])
  = (Raise TypeError, after_loop moving_disk [file_a]).
Proof.
  destruct (summation_stops_at_first_move (after_loop moving_disk [file_a])) as [S _].
  assert (L : log_files [file_a] = [] ++ file_a :: [syslog]) by (vm_compute; reflexivity).
  rewrite L.
  assert (Hm : exists m, Dict.get String.eqb file_a (moves (after_loop moving_disk [file_a]))
                         = Some m /\ ints92 m).
  { eexists. split; [vm_compute; reflexivity|]. split; vm_compute; reflexivity. }
  destruct Hm as (m & Hm & Im).
  assert (Ho : exists o, Dict.get String.eqb file_a
                           (odometers (after_loop moving_disk [file_a])) = Some o
                         /\ nth_error o 4 = Some (PyFloat 2.5)).
  { eexists. split; vm_compute; reflexivity. }
  destruct Ho as (o & Ho & Hx).
  exact (S [] file_a [syslog] m o 4%nat 2.5%float (Forall_nil _) Hm Im Ho Hx).
Defined.

(** *** The operational log *)

Lemma process_files_app logs utcnow_year l : forall i r st,
  process_files logs utcnow_year i (l ++ r) st =
  match process_files logs utcnow_year i l st with
  | (Ok _, st1) => process_files logs utcnow_year (i + Z.of_nat (List.length l)) r st1
  | (Raise e, st1) => (Raise e, st1)
  end.
Proof.
  induction l as [|f l IH]; intros i r st.
  - simpl. rewrite Z.add_0_r. reflexivity.
  - cbn [app process_files]. unfold bind.
    destruct (process_file logs utcnow_year i f st) as [[[]|e] st1]; [|reflexivity].
    rewrite IH. destruct (process_files logs utcnow_year (i + 1) l st1) as [[[]|e] st2];
      [|reflexivity].
    f_equal. cbn [List.length]. lia.
Qed.

(** A directory gets its artifact only from a file it holds. *)
Lemma process_files_no_artifact logs utcnow_year a files : forall i st st',
  Dict.get String.eqb a (artifacts st) = None ->
  Forall (fun f => artifact_of f <> a) files ->
  process_files logs utcnow_year i files st = (Ok tt, st') ->
  Dict.get String.eqb a (artifacts st') = None.
Proof.
  induction files as [|f rest IH]; intros i st st' Ha F H.
  - simpl in H. injection H as <-. exact Ha.
  - inversion F as [|? ? Hf F']; subst. simpl in H. unfold bind in H.
    destruct (process_file logs utcnow_year i f st) as [[[]|e] st1] eqn:P; [|discriminate].
    apply (IH (i + 1) st1 st'); [|exact F'|exact H].
    destruct (process_file_cases _ _ _ _ _ _ P)
      as [(o & n & result & _ & _ & _ & _ & _ & Hz)|(_ & _ & _ & Hz)].
    + destruct Hz as [->|[_ ->]]; [exact Ha|].
      rewrite Sget_set_other; [exact Ha|]. intros E. apply Hf. symmetry. exact E.
    + rewrite Hz. exact Ha.
Qed.

(** X11. [main] always lists the operational log
    [/sdata1300/syslogs/CSU.log] last.  When that file does not exist,
    its directory holds no artifact and no other listed file lies in
    that directory, the run cannot complete: once every other file has
    been processed, opening it raises [FileNotFoundError], which is not
    caught. *)
Theorem operational_log_required logs utcnow_year globbed on_disk :
  Dict.get String.eqb operational_log logs = None ->
  Dict.get String.eqb (artifact_of operational_log) on_disk = None ->
  Forall (fun f => artifact_of f <> artifact_of operational_log) globbed ->
  (exists e st', main logs utcnow_year globbed (initial_state on_disk) = (Raise e, st'))
  /\ (forall st1,
        process_files logs utcnow_year 0 (sorted globbed) (initial_state on_disk)
        = (Ok tt, st1) ->
        main logs utcnow_year globbed (initial_state on_disk)
        = (Raise FileNotFoundError, emit [Reading operational_log] st1)).
Proof.
  intros Hl Ha F.
  assert (F' : Forall (fun f => artifact_of f <> artifact_of operational_log)
                      (sorted globbed)).
  { exact (Permutation_Forall (Permutation_sym (sorted_perm globbed)) F). }
  assert (K : forall st1,
            process_files logs utcnow_year 0 (sorted globbed) (initial_state on_disk)
            = (Ok tt, st1) ->
            main logs utcnow_year globbed (initial_state on_disk)
            = (Raise FileNotFoundError, emit [Reading operational_log] st1)).
  { intros st1 H.
    pose proof (process_files_no_artifact logs utcnow_year (artifact_of operational_log)
                  (sorted globbed) 0 (initial_state on_disk) st1 Ha F' H) as Hn.
    unfold main, log_files. fold operational_log. unfold bind at 1.
    rewrite process_files_app, H.
    rewrite (process_files_raise _ _ _ _ _ _ _ _
               (process_file_missing logs utcnow_year _ _ _ Hn Hl)).
    reflexivity. }
  split; [|exact K].
  destruct (process_files logs utcnow_year 0 (sorted globbed) (initial_state on_disk))
    as [[[]|e] st1] eqn:P.
  - do 2 eexists. exact (K st1 eq_refl).
  - exists e, st1. unfold main, log_files, bind at 1.
    rewrite process_files_app, P. reflexivity.
Qed.

(** X11, witness.  The log of directory 20150101 is analysed and cached,
    then the operational log is found missing. *)
Lemma operational_log_required_witness :
  fst (main [(file_a, Lines moving_bar)] 2026 [file_a] cold) = Raise FileNotFoundError
  /\ cached (artifacts (snd (main [(file_a, Lines moving_bar)] 2026 [file_a] cold))) file_a
     = true.
Proof.
  destruct (operational_log_required [(file_a, Lines moving_bar)] 2026 [file_a] [])
    as [_ K].
  - vm_compute. reflexivity.
  - vm_compute. reflexivity.
  - apply Forall_cons; [vm_compute; discriminate|apply Forall_nil].
  - assert (H : process_files [(file_a, Lines moving_bar)] 2026 0 (sorted [file_a])
                  (initial_state [])
                = (Ok tt, after [(file_a, Lines moving_bar)] file_a))
      by (vm_compute; reflexivity).
    change cold with (initial_state []). rewrite (K _ H).
    split; [reflexivity|]. vm_compute. reflexivity.
Defined.

(** *** Iterations that raise *)

(** Lines 91 to 117 store and save the arrays last: when they raise,
    the tables and the artifacts are as they were. *)
Lemma conclude_raise_fields utcnow_year i log_file log_path sc st e st' :
  conclude utcnow_year i log_file log_path sc st = (Raise e, st') ->
  artifacts st' = artifacts st /\ odometers st' = odometers st /\ moves st' = moves st.
Proof.
  unfold conclude.
  unfold bind, orelse, ret, raise, read, write, print.
  destruct (file_start sc) as [start|]; [|intros H; injection H as _ <-; auto].
  destruct (file_end sc) as [end_|]; [|intros H; injection H as _ <-; auto].
  cbn beta iota.
  destruct (strptime_Ymd _) as [d|]; quiet.
  - destruct (restamp (DateTime.year d) end_) as [end'|];
      [|intros H; injection H as _ <-; auto]. quiet.
    destruct (restamp (DateTime.year d - year_iteration sc) start) as [start'|];
      [|intros H; injection H as _ <-; auto]. quiet.
    destruct (0 <? i); quiet; [|discriminate].
    destruct (last_file st) as [lf|]; [|intros H; injection H as _ <-; auto]. quiet.
    destruct (Dict.get String.eqb lf _) as [span|];
      [discriminate|intros H; injection H as _ <-; auto].
  - destruct (folderdt st) as [d|] eqn:Hfd; [|intros H; injection H as _ <-; auto]. quiet.
    destruct (restamp (DateTime.year d) end_) as [end'|];
      [|intros H; injection H as _ <-; auto]. quiet.
    rewrite Hfd. quiet.
    destruct (restamp (DateTime.year d - year_iteration sc) start) as [start'|];
      [|intros H; injection H as _ <-; auto]. quiet.
    destruct (0 <? i); quiet; [|discriminate].
    destruct (last_file st) as [lf|]; [|intros H; injection H as _ <-; auto]. quiet.
    destruct (Dict.get String.eqb lf _) as [span|];
      [discriminate|intros H; injection H as _ <-; auto].
Qed.

Lemma process_file_raise_fields logs utcnow_year i log_file st e st' :
  process_file logs utcnow_year i log_file st = (Raise e, st') ->
  artifacts st' = artifacts st
  /\ (Dict.get String.eqb (artifact_of log_file) (artifacts st) = None ->
      odometers st' = odometers st /\ moves st' = moves st).
Proof.
  intros H.
  destruct (Dict.get String.eqb (artifact_of log_file) (artifacts st)) as [result|] eqn:Hc.
  - split; [|discriminate].
    unfold process_file, bind, read in H. fold (artifact_of log_file) in H.
    rewrite Hc in H. unfold print, write, orelse, ret, raise in H. cbn beta iota in H.
    destruct (Dict.get String.eqb "odometer"%string result); cbn beta iota in H;
      [|injection H as _ <-; reflexivity].
    destruct (Dict.get String.eqb "nmoves"%string result); [discriminate|].
    injection H as _ <-. reflexivity.
  - destruct (Dict.get String.eqb log_file logs) as [[contents|]|] eqn:Hl.
    + rewrite (process_file_read _ _ _ _ _ _ Hc Hl) in H.
      destruct (scan_lines_any contents initial_scan (opened log_file contents st)) as [X _].
      destruct (scan_lines contents initial_scan (opened log_file contents st))
        as [[sc|e1] st1]; simpl in X.
      * assert (X0 : extends st st1).
        { apply (extends_trans _ (opened log_file contents st));
            [eexists; reflexivity|exact X]. }
        destruct (extends_fields _ _ X0) as (_ & Fod & Fmv & Far & _).
        destruct (conclude_raise_fields _ _ _ _ _ _ _ _ H) as (A & B & C).
        rewrite A, B, C. auto.
      * injection H as _ <-.
        assert (X0 : extends st st1).
        { apply (extends_trans _ (opened log_file contents st));
            [eexists; reflexivity|exact X]. }
        destruct (extends_fields _ _ X0) as (_ & Fod & Fmv & Far & _). auto.
    + rewrite (process_file_undecodable _ _ _ _ _ Hc Hl) in H. discriminate.
    + rewrite (process_file_missing _ _ _ _ _ Hc Hl) in H. injection H as _ <-.
      repeat split.
Qed.

(** An iteration never ends in the exception its handler catches. *)
Lemma process_file_exn logs utcnow_year i log_file st :
  fst (process_file logs utcnow_year i log_file st) <> Raise UnicodeDecodeError.
Proof.
  destruct (Dict.get String.eqb (artifact_of log_file) (artifacts st)) as [result|] eqn:Hc.
  - unfold process_file, bind, read. fold (artifact_of log_file). rewrite Hc.
    unfold print, write, orelse, ret, raise. cbn beta iota.
    destruct (Dict.get String.eqb "odometer"%string result); [|discriminate].
    cbn beta iota.
    destruct (Dict.get String.eqb "nmoves"%string result); discriminate.
  - destruct (Dict.get String.eqb log_file logs) as [[contents|]|] eqn:Hl.
    + rewrite (process_file_read _ _ _ _ _ _ Hc Hl).
      destruct (scan_lines_any contents initial_scan (opened log_file contents st)) as [_ N].
      destruct (scan_lines contents initial_scan (opened log_file contents st))
        as [[sc|e1] st1]; simpl in N.
      * apply conclude_exn.
      * simpl. intros H. injection H as ->. apply N. reflexivity.
    + rewrite (process_file_undecodable _ _ _ _ _ Hc Hl). discriminate.
    + rewrite (process_file_missing _ _ _ _ _ Hc Hl). discriminate.
Qed.

(** X12. An iteration that raises caches nothing: the artifacts on disk
    are exactly as before and, for a file that was not cached, so are
    the two tables, since lines 111 to 117 store and save the arrays
    last.  The exception is never the [UnicodeDecodeError] the handler
    catches, and it ends the loop. *)
Theorem failed_iteration_caches_nothing logs utcnow_year i log_file st e st' :
  process_file logs utcnow_year i log_file st = (Raise e, st') ->
  artifacts st' = artifacts st
  /\ (Dict.get String.eqb (artifact_of log_file) (artifacts st) = None ->
      odometers st' = odometers st /\ moves st' = moves st)
  /\ e <> UnicodeDecodeError
  /\ (forall rest, process_files logs utcnow_year i (log_file :: rest) st
                   = (Raise e, st')).
Proof.
  intros H. destruct (process_file_raise_fields _ _ _ _ _ _ _ H) as [A B].
  split; [exact A|]. split; [exact B|]. split.
  - pose proof (process_file_exn logs utcnow_year i log_file st) as N.
    rewrite H in N. simpl in N. congruence.
  - intros rest. exact (process_files_raise _ _ _ _ _ _ _ _ H).
Qed.

(** X12, witness.  The second record of [bad_position] stops the run. *)
Lemma failed_iteration_caches_nothing_witness :
  fst (process_file bad_position_disk 2026 0 file_a cold) = Raise ValueError
  /\ artifacts (snd (process_file bad_position_disk 2026 0 file_a cold)) = []
  /\ odometers (snd (process_file bad_position_disk 2026 0 file_a cold)) = [].
Proof.
  assert (H : process_file bad_position_disk 2026 0 file_a cold
              = (Raise ValueError, snd (process_file bad_position_disk 2026 0 file_a cold)))
    by (vm_compute; reflexivity).
  destruct (failed_iteration_caches_nothing _ _ _ _ _ _ _ H) as (A & B & _).
  split; [rewrite H; reflexivity|]. split; [exact A|].
  destruct B as [B _]; [reflexivity|exact B].
Defined.

(** *** The time stamp of a syslog line *)

Lemma append_length a b :
  String.length (a ++ b) = (String.length a + String.length b)%nat.
Proof. induction a as [|c a IH]; simpl; [reflexivity|]. rewrite IH. reflexivity. Qed.

Lemma append_assoc a b c : ((a ++ b) ++ c = a ++ (b ++ c))%string.
Proof. induction a as [|x a IH]; simpl; [reflexivity|]. rewrite IH. reflexivity. Qed.

Lemma substring_prefix a b : substring 0 (String.length a) (a ++ b) = a.
Proof.
  induction a as [|c a IH]; simpl.
  - destruct b; reflexivity.
  - rewrite IH. reflexivity.
Qed.

(** The text consumed in front of a suffix. *)
Lemma consumed_app a b : consumed (a ++ b) b = a.
Proof.
  unfold consumed. rewrite append_length.
  replace (String.length a + String.length b - String.length b)%nat
    with (String.length a) by lia.
  apply substring_prefix.
Qed.

Section Repetitions.
Context {R : Type}.

(** A greedy repetition takes the whole run of the class when what
    follows the run is accepted. *)
Lemma plus_more_stop p w s (k : string -> option R) x :
  every p w = true -> stops p s = true -> k s = Some x ->
  plus_more p (w ++ s) k = Some x.
Proof.
  intros Hw Hs K. induction w as [|c w IH]; simpl.
  - destruct s as [|d s']; simpl; [exact K|].
    simpl in Hs. apply negb_true_iff in Hs. rewrite Hs. exact K.
  - simpl in Hw. apply andb_true_iff in Hw. destruct Hw as [Hc Hw].
    rewrite Hc, (IH Hw). reflexivity.
Qed.

Lemma run_plus_stop p c w s caps (k : string -> list string -> option R) x :
  every p (String c w) = true -> stops p s = true -> k s caps = Some x ->
  run (Plus p) (String c w ++ s) caps k = Some x.
Proof.
  intros Hw Hs K. simpl in Hw. apply andb_true_iff in Hw. destruct Hw as [Hc Hw].
  cbn [append run]. rewrite Hc.
  exact (plus_more_stop p w s (fun rest => k rest caps) x Hw Hs K).
Qed.

Lemma run_group_stop p c w s caps (k : string -> list string -> option R) x :
  every p (String c w) = true -> stops p s = true ->
  k s (caps ++ [String c w]) = Some x ->
  run (Grp (Plus p)) (String c w ++ s) caps k = Some x.
Proof.
  intros Hw Hs K.
  change (run (Grp (Plus p)) (String c w ++ s) caps k)
    with (run (Plus p) (String c w ++ s) caps
            (fun s1 caps1 => k s1 (caps1 ++ [consumed (String c w ++ s) s1]))).
  apply (run_plus_stop p c w s caps); [exact Hw|exact Hs|].
  rewrite consumed_app. exact K.
Qed.

End Repetitions.

(** [.+] at the end of an expression takes what it can and never makes
    a match fail. *)
Lemma plus_more_rest p caps s :
  exists u, plus_more p s (fun rest => Some (caps, rest))
            = Some ((caps, u) : list string * string).
Proof.
  induction s as [|c s IH]; simpl; [eauto|].
  destruct (p c); [|eauto]. destruct IH as [u ->]. eauto.
Qed.

Lemma run_cat {R} r1 r2 s caps (k : string -> list string -> option R) :
  run (Cat r1 r2) s caps k = run r1 s caps (fun s1 caps1 => run r2 s1 caps1 k).
Proof. reflexivity. Qed.

Lemma run_grp {R} r s caps (k : string -> list string -> option R) :
  run (Grp r) s caps k = run r s caps (fun s1 caps1 => k s1 (caps1 ++ [consumed s s1])).
Proof. reflexivity. Qed.

Lemma run_chr {R} c s caps (k : string -> list string -> option R) :
  run (Chr c) (String c s) caps k = k s caps.
Proof. cbn [run]. rewrite Ascii.eqb_refl. reflexivity. Qed.

Lemma clock_app hh mm ss t :
  ((hh ++ String ":" (mm ++ String ":" ss)) ++ t
   = hh ++ String ":" (mm ++ String ":" (ss ++ t)))%string.
Proof.
  rewrite append_assoc. cbn [append]. rewrite append_assoc. reflexivity.
Qed.

(** The expression of line 58 on a stamp followed by a blank: the
    groups are the month, the day without its padding, and the time. *)
Lemma stamp_pattern_fields mon pad dd hh mm ss rest :
  mon <> ""%string -> every is_word mon = true ->
  every is_space pad = true ->
  dd <> ""%string -> every is_digit dd = true ->
  hh <> ""%string -> every is_digit hh = true ->
  mm <> ""%string -> every is_digit mm = true ->
  ss <> ""%string -> every is_digit ss = true ->
  exists u,
    re_match stamp_pattern
      (mon ++ String " " (pad ++ dd ++ String " "
         (hh ++ String ":" (mm ++ String ":" (ss ++ String " " rest)))))
    = Some ([mon; dd; (hh ++ String ":" (mm ++ String ":" ss))%string], u).
Proof.
  intros Nmon Wmon Wpad Ndd Wdd Nhh Whh Nmm Wmm Nss Wss.
  destruct (plus_more_rest is_dot [mon; dd; (hh ++ String ":" (mm ++ String ":" ss))%string]
              rest) as [u Hu].
  exists u. unfold re_match, stamp_pattern.
  destruct mon as [|c0 mon]; [congruence|].
  destruct dd as [|c1 dd]; [congruence|].
  destruct hh as [|c2 hh]; [congruence|].
  destruct mm as [|c3 mm]; [congruence|].
  destruct ss as [|c4 ss]; [congruence|].
  assert (D1 : is_space c1 = false).
  { apply digit_not_space. simpl in Wdd. apply andb_true_iff in Wdd. apply Wdd. }
  assert (D2 : is_space c2 = false).
  { apply digit_not_space. simpl in Whh. apply andb_true_iff in Whh. apply Whh. }
  rewrite run_cat. apply run_group_stop; [exact Wmon|reflexivity|].
  rewrite run_cat.
  change (String " " (pad ++ String c1 dd ++ String " "
            (String c2 hh ++ String ":" (String c3 mm ++ String ":"
               (String c4 ss ++ String " " rest)))))
    with (String " " pad ++ (String c1 dd ++ String " "
            (String c2 hh ++ String ":" (String c3 mm ++ String ":"
               (String c4 ss ++ String " " rest)))))%string.
  apply run_plus_stop; [exact Wpad|cbn; rewrite D1; reflexivity|].
  rewrite run_cat. apply run_group_stop; [exact Wdd|reflexivity|].
  rewrite run_cat.
  change (String " " (String c2 hh ++ String ":" (String c3 mm ++ String ":"
            (String c4 ss ++ String " " rest))))
    with (String " " "" ++ (String c2 hh ++ String ":" (String c3 mm ++ String ":"
            (String c4 ss ++ String " " rest))))%string.
  apply run_plus_stop; [reflexivity|cbn; rewrite D2; reflexivity|].
  rewrite run_cat, run_grp.
  rewrite run_cat. apply run_plus_stop; [exact Whh|reflexivity|].
  rewrite run_cat, run_chr.
  rewrite run_cat. apply run_plus_stop; [exact Wmm|reflexivity|].
  rewrite run_cat, run_chr.
  apply run_plus_stop; [exact Wss|reflexivity|].
  rewrite <- clock_app, consumed_app.
  cbn [run app]. change (is_dot " ") with true. cbn iota.
  exact Hu.
Qed.

Lemma consumed_three a b c s :
  consumed (String a (String b (String c s))) s = String a (String b (String c "")).
Proof.
  change (String a (String b (String c s)))
    with (String a (String b (String c "")) ++ s)%string.
  apply consumed_app.
Qed.

Lemma month_abbr_shape m :
  1 <= m <= 12 ->
  month_abbr m <> ""%string /\ every is_word (month_abbr m) = true
  /\ month_of_name (month_abbr m) = Some m.
Proof.
  intros Hm.
  pose (P := fun m => negb (String.eqb (month_abbr m) "")
                      && every is_word (month_abbr m)
                      && match month_of_name (month_abbr m) with
                         | Some n => n =? m
                         | None => false
                         end).
  assert (H : P m = true)
    by (apply (forallb_range P 1 13); [vm_compute; reflexivity|lia]).
  unfold P in H. apply andb_true_iff in H. destruct H as [H H3].
  apply andb_true_iff in H. destruct H as [H1 H2].
  split; [|split; [exact H2|]].
  - intros E. rewrite E in H1. discriminate.
  - destruct (month_of_name (month_abbr m)); [|discriminate].
    apply Z.eqb_eq in H3. congruence.
Qed.

Lemma format_int_day d :
  1 <= d <= 31 ->
  format_int d <> ""%string /\ every is_digit (format_int d) = true
  /\ py_int (format_int d) = Some d.
Proof.
  intros Hd.
  pose (P := fun d => negb (String.eqb (format_int d) "")
                      && every is_digit (format_int d)
                      && match py_int (format_int d) with
                         | Some n => n =? d
                         | None => false
                         end).
  assert (H : P d = true)
    by (apply (forallb_range P 1 32); [vm_compute; reflexivity|lia]).
  unfold P in H. apply andb_true_iff in H. destruct H as [H H3].
  apply andb_true_iff in H. destruct H as [H1 H2].
  split; [|split; [exact H2|]].
  - intros E. rewrite E in H1. discriminate.
  - destruct (py_int (format_int d)); [|discriminate].
    apply Z.eqb_eq in H3. congruence.
Qed.

Lemma format_02d_digits v :
  0 <= v <= 99 -> format_02d v <> ""%string /\ every is_digit (format_02d v) = true.
Proof.
  intros Hv. destruct (format_02d_shape v Hv) as [H _].
  destruct (format_02d v) as [|a [|b [|? ?]]]; try discriminate.
  split; [discriminate|]. cbn [two_digits] in H. cbn [every].
  apply andb_true_iff in H. destruct H as [Ha Hb]. rewrite Ha, Hb. reflexivity.
Qed.

Section Month.
Context {R : Type}.
Variables (rest : string) (caps : list string)
          (k : string -> list string -> option R) (x : R).

(** [%b] on the English abbreviations. *)
Lemma run_re_b m :
  1 <= m <= 12 ->
  k rest (caps ++ [month_abbr m]) = Some x ->
  run re_b (month_abbr m ++ rest) caps k = Some x.
Proof.
  intros Hm K. enumerate m 1 13;
    cbv - [consumed app] in K |- *; rewrite consumed_three, K; reflexivity.
Qed.

End Month.

(** [strptime] on the text line 60 builds from a stamp. *)
Lemma strptime_stamp a :
  stamp a ->
  strptime_b_d_HMS (month_abbr (month a) ++ " " ++ format_02d (day a) ++ " " ++ clock a)
  = Some a.
Proof.
  intros Sa. pose proof (stamp_fields_ok _ Sa) as (Hm & Hd & Hh & Hmi & Hs).
  destruct (format_02d_shape (day a)) as [D2 Di]; [lia|].
  destruct (format_02d_shape (hour a)) as [H2 Hi]; [lia|].
  destruct (format_02d_shape (minute a)) as [N2 Ni]; [lia|].
  destruct (format_02d_shape (second a)) as [S2 Si]; [lia|].
  destruct (month_abbr_shape (month a) Hm) as (_ & _ & Mi).
  unfold strptime_b_d_HMS, strptime_groups, re_match, clock.
  assert (G : run fmt_b_d_HMS
                (month_abbr (month a) ++ " " ++ format_02d (day a) ++ " "
                 ++ format_02d (hour a) ++ ":" ++ format_02d (minute a) ++ ":"
                 ++ format_02d (second a)) []
                (fun rest caps => Some (caps, rest))
              = Some ([month_abbr (month a); format_02d (day a); format_02d (hour a);
                       format_02d (minute a); format_02d (second a)], ""%string)).
  { unfold fmt_b_d_HMS, re_HMS. rewrite run_cat.
    apply run_re_b; [exact Hm|]. cbn [append]. rewrite run_cat.
    rewrite run_blank by exact D2. rewrite run_cat.
    apply run_re_d; [lia|]. cbn [append]. rewrite run_cat.
    rewrite run_blank by exact H2. cbn [run].
    apply run_re_H; [lia|]. cbn beta. cbn [append run].
    change (Ascii.eqb ":" ":") with true. cbn iota.
    apply run_re_M; [lia|]. cbn beta. cbn [append run].
    change (Ascii.eqb ":" ":") with true. cbn iota.
    replace (format_02d (second a)) with (format_02d (second a) ++ "")%string at 1
      by (clear; induction (format_02d (second a)); simpl; congruence).
    apply run_re_S; [lia|]. reflexivity. }
  rewrite G, Mi, Di, Hi, Ni, Si.
  destruct Sa as (Hy & Sm & Sd & Sh & Smi & Ss).
  unfold make_datetime.
  replace (_ && _) with true.
  - destruct a as [y mo d hh mi ss]. simpl in *. subst y. reflexivity.
  - symmetry. repeat (apply andb_true_iff; split); apply Z.leb_le; lia.
Qed.

Lemma syslog_line_shape a rest :
  exists pad,
    every is_space pad = true
    /\ (syslog_stamp a ++ String " " rest)%string
       = (month_abbr (month a) ++ String " " (pad ++ format_int (day a) ++ String " "
            (format_02d (hour a) ++ String ":" (format_02d (minute a) ++ String ":"
               (format_02d (second a) ++ String " " rest)))))%string.
Proof.
  unfold syslog_stamp, clock, day_field.
  destruct (day a <? 10); [exists " "%string|exists ""%string];
    (split; [reflexivity|]);
    repeat (rewrite ?append_assoc; cbn [append]); reflexivity.
Qed.

(** X13. A line that starts with a syslog time stamp, [Mmm dd hh:mm:ss]
    with the day padded by a blank, followed by a blank, is read as the
    date it shows, in the year 1900: line 60 rebuilds the stamp with the
    day on two digits and [strptime] accepts it.  So a line of a real
    log that holds the bar pattern is never refused for its date. *)
Theorem syslog_stamp_accepted a rest :
  stamp a ->
  date_string (syslog_stamp a ++ String " " rest)
  = Some (month_abbr (month a) ++ " " ++ format_02d (day a) ++ " " ++ clock a)%string
  /\ strptime_b_d_HMS
       (month_abbr (month a) ++ " " ++ format_02d (day a) ++ " " ++ clock a) = Some a
  /\ (forall m, re_search record_pattern (syslog_stamp a ++ String " " rest) = Some m ->
                stamp_of (syslog_stamp a ++ String " " rest) = Some a).
Proof.
  intros Sa. pose proof (stamp_fields_ok _ Sa) as (Hm & Hd & Hh & Hmi & Hs).
  destruct (month_abbr_shape (month a) Hm) as (M1 & M2 & _).
  destruct (format_int_day (day a) Hd) as (D1 & D2 & D3).
  destruct (format_02d_digits (hour a)) as (H1 & H2); [lia|].
  destruct (format_02d_digits (minute a)) as (N1 & N2); [lia|].
  destruct (format_02d_digits (second a)) as (S1 & S2); [lia|].
  destruct (syslog_line_shape a rest) as (pad & Wpad & E).
  destruct (stamp_pattern_fields _ pad _ _ _ _ rest M1 M2 Wpad D1 D2 H1 H2 N1 N2 S1 S2)
    as (u & Hu).
  assert (DS : date_string (syslog_stamp a ++ String " " rest)
               = Some (month_abbr (month a) ++ " " ++ format_02d (day a) ++ " "
                       ++ clock a)%string).
  { unfold date_string. rewrite E, Hu. cbn [group fst nth_error Nat.sub].
    rewrite D3. reflexivity. }
  pose proof (strptime_stamp a Sa) as ST.
  split; [exact DS|]. split; [exact ST|].
  intros m Hr. unfold stamp_of. rewrite Hr, DS. exact ST.
Qed.

(** X13, witness.  The stamp of November 5, 12:00:02. *)
Lemma syslog_stamp_accepted_witness :
  syslog_stamp (mk_datetime 1900 11 5 12 0 2) = "Nov  5 12:00:02"%string
  /\ stamp_of (nl "Nov  5 12:00:02 mosfire csu: Record=<05,0,7.5,1>")
     = Some (mk_datetime 1900 11 5 12 0 2).
Proof.
  split; [vm_compute; reflexivity|].
  assert (Sa : stamp (mk_datetime 1900 11 5 12 0 2)).
  { unfold stamp. cbn. lia. }
  destruct (syslog_stamp_accepted (mk_datetime 1900 11 5 12 0 2)
              (nl "mosfire csu: Record=<05,0,7.5,1>") Sa) as (_ & _ & K).
  apply (K (["05"%string], nl "0,7.5,1>")). vm_compute. reflexivity.
Defined.

(** *** The first run over dated directories *)











(** C9 (the code departs from the claim).  Two logs lie in one
    directory.  The loop analyses the first, and gives the second the
    arrays of the first without reading it, although its own records
    hold three moves of bar 1: the tables the summation reads hold the
    arrays of the first log once per log of the directory.  They are
    never counted in an aggregate: the totals are integer arrays, the
    summation raises [TypeError] on the float mileage of the first log,
    and [main] ends in an exception whatever the logs. *)
Theorem shared_directory_never_aggregated :
  let files := log_files [file_a1; file_a] in
  let run := process_files shared_run 2026 0 files cold in
  files = [file_a; file_a1; syslog]
  /\ fst run = Ok tt
  /\ Dict.get String.eqb file_a1 (odometers (snd run))
     = Dict.get String.eqb file_a (odometers (snd run))
  /\ Dict.get String.eqb file_a1 (moves (snd run))
     = Dict.get String.eqb file_a (moves (snd run))
  /\ option_map (fun l => nth_error l 4) (Dict.get String.eqb file_a1 (odometers (snd run)))
     = Some (Some (PyFloat 2.5))
  /\ option_map (fun l => nth_error l 0) (Dict.get String.eqb file_a1 (moves (snd run)))
     = Some (Some (PyInt 0))
  /\ spec_nmoves (positions 1 (records winter)) = 3
  /\ existsb (loads (artifact_of file_a1)) (stdout (snd run)) = true
  /\ existsb (reads file_a1) (stdout (snd run)) = false
  /\ sum_results files (zeros, zeros) (snd run) = (Raise TypeError, snd run)
  /\ fst (main shared_run 2026 [file_a1; file_a] cold) = Raise TypeError
  /\ (forall logs utcnow_year globbed st,
        exists e st', main logs utcnow_year globbed st = (Raise e, st')).
Proof.
  cbv zeta. repeat (split; [vm_compute; reflexivity|]). exact main_raises.
Qed.
